(** * The master node of the cluster: worker sessions, sync lanes,
      distributed-API correlation and the file-update applier

    A shallow embedding of [framework/wazuh/cluster/master.py].  Python
    objects become records, dictionaries become finite maps (association
    lists where the order of the keys shows), exceptions become a sum
    type threaded through the calls, and the byte strings
    of the wire protocol become [string]s ([decode]/[encode] are the
    identity on the ASCII payloads the protocol uses). *)

From stdpp Require Import gmap strings list fin_maps pretty.
From Stdlib Require Import ZArith Lia Ascii.



(** ** Python primitives used by the handler *)

Module Py.

(** Exceptions, as far as the handler tells them apart: the
    [WazuhException] family (with its numeric code) and everything else. *)
Inductive exn :=
  | WazuhException (code : Z) (extra : string)
  | ValueError (msg : string)
  | KeyError (key : string)
  | TypeError (msg : string)
  | OSError (path : string)
  | TimeoutError
  | OtherError (msg : string).

Inductive result (A : Type) :=
  | Ok (a : A)
  | Raise (e : exn).
Arguments Ok {A} a.
Arguments Raise {A} e.

Definition is_wazuh (e : exn) : bool :=
  match e with WazuhException _ _ => true | _ => false end.

(** [str(e)]: the text of an exception as the log lines show it. *)
Definition exn_str (e : exn) : string :=
  match e with
  | WazuhException c extra => "Error " +:+ pretty c +:+ " " +:+ extra
  | ValueError m => m
  | KeyError k => "'" +:+ k +:+ "'"
  | TypeError m => m
  | OSError p => "[Errno] " +:+ p
  | TimeoutError => ""
  | OtherError m => m
  end.

(** [str(b)] for a boolean. *)
Definition str_bool (b : bool) : string := if b then "True" else "False".

(** [s.split(b' ', 1)]: cut at the first space, if there is one. *)
Fixpoint split1 (s : string) : list string :=
  match s with
  | EmptyString => [EmptyString]
  | String c r =>
      if decide (c = " "%char) then [EmptyString; r]
      else match split1 r with
           | h :: t => String c h :: t
           | [] => [String c EmptyString]
           end
  end.

(** [s.split(b' ')]: cut at every space, empty fields kept. *)
Fixpoint split (s : string) : list string :=
  match s with
  | EmptyString => [EmptyString]
  | String c r =>
      if decide (c = " "%char) then EmptyString :: split r
      else match split r with
           | h :: t => String c h :: t
           | [] => [String c EmptyString]
           end
  end.

(** [c in s] for a single character. *)
Fixpoint has_char (c : ascii) (s : string) : bool :=
  match s with
  | EmptyString => false
  | String d r => if decide (d = c) then true else has_char c r
  end.

(** [os.path.basename(p)]: what follows the last slash. *)
Fixpoint basename (p : string) : string :=
  match p with
  | EmptyString => EmptyString
  | String _ r => if has_char "/"%char p then basename r else p
  end.

(** [s.startswith(p)]. *)
Fixpoint startswith (p s : string) : bool :=
  match p, s with
  | EmptyString, _ => true
  | String a p', String b s' => if decide (a = b) then startswith p' s' else false
  | String _ _, EmptyString => false
  end.

(** Computations over a state [S] that may raise: state passing with
    exceptions.  The state reached when the exception was raised is kept,
    as Python keeps the assignments made before a [raise]. *)
Definition M (S A : Type) : Type := S → S * result A.

Global Instance M_ret {S} : MRet (M S) := λ A a s, (s, Ok a).
Global Instance M_bind {S} : MBind (M S) := λ A B f m s,
  match m s with
  | (s', Ok a) => f a s'
  | (s', Raise e) => (s', Raise e)
  end.

Definition lift {S A} (r : result A) : M S A := λ s, (s, r).

Definition modify {S} (f : S → S) : M S unit := λ s, (f s, Ok ()).

(** [try: body except Exception as e: handler(e)]. *)
Definition try_except {S A} (body : M S A) (handler : exn → M S A) : M S A := λ s,
  match body s with
  | (s', Ok a) => (s', Ok a)
  | (s', Raise e) => handler e s'
  end.

(** [try: body finally: fin]. *)
Definition try_finally {S A} (body : M S A) (fin : M S unit) : M S A := λ s,
  match body s with
  | (s', r) =>
      match fin s' with
      | (s'', Ok _) => (s'', r)
      | (s'', Raise e) => (s'', Raise e)
      end
  end.

End Py.

(** ** Sync lanes: permission, setup, error report, completion *)

Module Lanes.
Import Py.

(** The three receive-task classes, one per lane. *)
Inductive lane := Integrity | ExtraValid | AgentInfo.

Global Instance lane_eq_dec : EqDecision lane.
Proof. solve_decision. Defined.

(** The part of a [MasterHandler] the lane commands touch.  [sync_tasks]
    is the task table of the base class, task name to task. *)
Record MasterHandler := mkHandler {
  sync_integrity_free : bool;
  sync_extra_valid_free : bool;
  sync_agent_info_free : bool;
  sync_tasks : list (nat * lane);
  next_task : nat
}.

(** [MasterHandler.__init__]. *)
Definition init : MasterHandler :=
  {| sync_integrity_free := true; sync_extra_valid_free := true;
     sync_agent_info_free := true; sync_tasks := []; next_task := 0 |}.

Definition free (l : lane) (h : MasterHandler) : bool :=
  match l with
  | Integrity => sync_integrity_free h
  | ExtraValid => sync_extra_valid_free h
  | AgentInfo => sync_agent_info_free h
  end.

Definition set_free (l : lane) (b : bool) (h : MasterHandler) : MasterHandler :=
  match l with
  | Integrity => mkHandler b (sync_extra_valid_free h) (sync_agent_info_free h)
                           (sync_tasks h) (next_task h)
  | ExtraValid => mkHandler (sync_integrity_free h) b (sync_agent_info_free h)
                            (sync_tasks h) (next_task h)
  | AgentInfo => mkHandler (sync_integrity_free h) (sync_extra_valid_free h) b
                           (sync_tasks h) (next_task h)
  end.

Definition response : Type := string * string.

(** [get_permission]: reads the flag of the lane the command names. *)
Definition get_permission (sync_type : string) (h : MasterHandler) : response :=
  let permission :=
    if decide (sync_type = "sync_i_w_m_p") then sync_integrity_free h
    else if decide (sync_type = "sync_e_w_m_p") then sync_extra_valid_free h
    else if decide (sync_type = "sync_a_w_m_p") then sync_agent_info_free h
    else false in
  ("ok", str_bool permission).

(** Modelled from the spec: [WazuhCommon.setup_receive_file] of the base
    class, which is not part of the sources at hand.  The spec's dispatch
    table says that setup "allocates receive task, returns task id"; a
    call without a task class cannot build a task. *)
Definition setup_receive_file (sync_function : option lane) (h : MasterHandler)
  : MasterHandler * result response :=
  match sync_function with
  | None => (h, Raise (TypeError "'NoneType' object is not callable"))
  | Some l =>
      let t := next_task h in
      (mkHandler (sync_integrity_free h) (sync_extra_valid_free h)
                 (sync_agent_info_free h) ((t, l) :: sync_tasks h) (S t),
       Ok ("ok", pretty t))
  end.

(** [setup_sync_integrity]: marks the lane busy and starts the receive task. *)
Definition setup_sync_integrity (sync_type : string) (h : MasterHandler)
  : MasterHandler * result response :=
  if decide (sync_type = "sync_i_w_m") then
    setup_receive_file (Some Integrity) (set_free Integrity false h)
  else if decide (sync_type = "sync_e_w_m") then
    setup_receive_file (Some ExtraValid) (set_free ExtraValid false h)
  else if decide (sync_type = "sync_a_w_m") then
    setup_receive_file (Some AgentInfo) (set_free AgentInfo false h)
  else setup_receive_file None h.

(** Modelled from the spec: [WazuhCommon.error_receiving_file] of the base
    class.  The spec's dispatch table gives the error report the effect
    "marks lane free, logs structured error, no retry scheduled here": the
    base call answers and leaves flags and task table alone. *)
Definition error_receiving_file (error_msg : string) (h : MasterHandler)
  : MasterHandler * result response :=
  (h, Ok ("ok", "Error received")).

(** [process_sync_error_from_worker]. *)
Definition process_sync_error_from_worker (command error_msg : string)
    (h : MasterHandler) : MasterHandler * result response :=
  if decide (command = "sync_i_w_m_r") then
    error_receiving_file error_msg (set_free Integrity true h)
  else if decide (command = "sync_e_w_m_r") then
    error_receiving_file error_msg (set_free ExtraValid true h)
  else error_receiving_file error_msg (set_free AgentInfo true h).

(** Modelled from the spec: [ReceiveFileTask.done_callback] of the base
    class ("destroyed when the associated coroutine/task finishes"): the
    finished task leaves the task table. *)
Definition base_done_callback (t : nat) (h : MasterHandler) : MasterHandler :=
  mkHandler (sync_integrity_free h) (sync_extra_valid_free h) (sync_agent_info_free h)
            (filter (λ x, x.1 ≠ t) (sync_tasks h)) (next_task h).

(** [ReceiveIntegrityTask.done_callback] and its two siblings: the base
    callback, then the lane of the task's class is marked free. *)
Definition done_callback (t : nat) (cls : lane) (h : MasterHandler) : MasterHandler :=
  set_free cls true (base_done_callback t h).

(** The lane fragment of [process_request].  Commands of the other
    branches (distributed API, node queries, base handler) do not touch
    the fields of this record and are answered elsewhere: [None]. *)
Definition process_request (command data : string) (h : MasterHandler)
  : MasterHandler * option (result response) :=
  if bool_decide (command = "sync_i_w_m_p") || bool_decide (command = "sync_e_w_m_p")
     || bool_decide (command = "sync_a_w_m_p") then
    (h, Some (Ok (get_permission command h)))
  else if bool_decide (command = "sync_i_w_m") || bool_decide (command = "sync_e_w_m")
     || bool_decide (command = "sync_a_w_m") then
    let '(h', r) := setup_sync_integrity command h in (h', Some r)
  else if bool_decide (command = "sync_i_w_m_r") || bool_decide (command = "sync_e_w_m_r")
     || bool_decide (command = "sync_a_w_m_r") then
    let '(h', r) := process_sync_error_from_worker command data h in (h', Some r)
  else (h, None).

(** What happens to a session: a command arrives, or the receive task
    [t] of class [cls] finishes (its coroutine, when it ran to its end,
    has set the flag of its lane to True itself) and its done callback
    runs. *)
Inductive event :=
  | Request (command data : string)
  | TaskDone (t : nat) (cls : lane).

Definition step (h : MasterHandler) (e : event) : MasterHandler :=
  match e with
  | Request c d => (process_request c d h).1
  | TaskDone t cls => done_callback t cls h
  end.

Definition run (h : MasterHandler) (tr : list event) : MasterHandler :=
  foldl step h tr.

(** Wire names of the three commands of a lane. *)
Definition permission_cmd (l : lane) : string :=
  match l with
  | Integrity => "sync_i_w_m_p" | ExtraValid => "sync_e_w_m_p" | AgentInfo => "sync_a_w_m_p"
  end.
Definition setup_cmd (l : lane) : string :=
  match l with
  | Integrity => "sync_i_w_m" | ExtraValid => "sync_e_w_m" | AgentInfo => "sync_a_w_m"
  end.
Definition error_cmd (l : lane) : string :=
  match l with
  | Integrity => "sync_i_w_m_r" | ExtraValid => "sync_e_w_m_r" | AgentInfo => "sync_a_w_m_r"
  end.

(** Receive tasks of a lane that are in the task table. *)
Definition in_flight (l : lane) (h : MasterHandler) : nat :=
  length (filter (λ x, x.2 = l) (sync_tasks h)).

Definition is_setup (l : lane) (e : event) : bool :=
  match e with
  | Request c _ => bool_decide (c = setup_cmd l)
  | TaskDone _ _ => false
  end.

Definition is_release (l : lane) (e : event) : bool :=
  match e with
  | Request c _ => bool_decide (c = error_cmd l)
  | TaskDone _ cls => bool_decide (cls = l)
  end.

(** A worker that follows the protocol: it sends the setup command of a
    lane only while the lane is free (which is what the permission check
    told it), it sends no error report, and the callbacks that run are
    those of tasks in the table. *)
Fixpoint well_behaved (h : MasterHandler) (tr : list event) : bool :=
  match tr with
  | [] => true
  | e :: tr' =>
      (match e with
       | Request c _ =>
           forallb (λ l, (negb (bool_decide (c = setup_cmd l)) || free l h)
                         && negb (bool_decide (c = error_cmd l)))
                   [Integrity; ExtraValid; AgentInfo]
       | TaskDone t cls => bool_decide ((t, cls) ∈ sync_tasks h)
       end) && well_behaved (step h e) tr'
  end.

(** The invariant a protocol-following worker maintains: task names are
    fresh, and each lane has no task while free and one while busy. *)
Definition single_flight (h : MasterHandler) : Prop :=
  (∀ x, x ∈ sync_tasks h → (x.1 < next_task h)%nat) ∧
  (∀ t l1 l2, (t, l1) ∈ sync_tasks h → (t, l2) ∈ sync_tasks h → l1 = l2) ∧
  (∀ l, in_flight l h = if free l h then 0%nat else 1%nat).

End Lanes.

(** ** Distributed API: correlation of requests and responses *)

Module Dapi.
Import Py.

(** One entry of [pending_api_requests]: [{'Event': ..., 'Response': ...}].
    The event is an object; the entry holds a reference to it and its
    flag lives in the store [events] of the server. *)
Record PendingRequest := mkPending {
  Event : nat;
  Response : string
}.

Global Instance PendingRequest_eq_dec : EqDecision PendingRequest.
Proof. solve_decision. Defined.

(** The part of the [Master] server object the correlation uses. *)
Record Master := mkMaster {
  pending_api_requests : gmap string PendingRequest;
  events : gmap nat bool;
  clients : list string;
  local_clients : gset string;
  forwarded : list string
}.

(** [random.randint(a, b)], both ends included, from the entropy [r]. *)
Definition randint (a b r : Z) : Z := (a + r `mod` (b - a + 1))%Z.

(** [asyncio.Event()]: a new object with a cleared flag. *)
Definition new_event (m : Master) : nat := fresh (dom (events m)).

(** [str(random.randint(0, 2**10 - 1))]. *)
Definition draw_request_id (r : Z) : string := pretty (randint 0 (2 ^ 10 - 1) r).

(** An outgoing [send_request(b'dapi', ...)]: the session it goes to
    ([None] is this session) and the payload. *)
Definition sent : Type := option string * string.

(** [execute], up to the point where the caller starts waiting: the
    correlation id is drawn and registered, then the request is sent. *)
Definition execute_begin (command data : string) (r : Z) (m : Master)
  : Master * result (string * list sent) :=
  let request_id := draw_request_id r in
  let ev := new_event m in
  let m' := mkMaster (<[request_id := mkPending ev ""]> (pending_api_requests m))
                     (<[ev := false]> (events m))
                     (clients m) (local_clients m) (forwarded m) in
  if decide (command = "dapi_forward") then
    match split1 data with
    | [client; request] =>
        if decide (client = "fw_all_nodes") then
          (m', Ok (request_id,
                   (λ w, (Some w, request_id +:+ " " +:+ request)) <$> clients m))
        else if decide (client ∈ clients m) then
          (m', Ok (request_id, [(Some client, request_id +:+ " " +:+ request)]))
        else (m', Raise (WazuhException 3022 client))
    | _ => (m', Raise (ValueError "not enough values to unpack"))
    end
  else (m', Ok (request_id, [(None, request_id +:+ " " +:+ data)])).

(** [execute], from the wait on: for the two API commands the caller
    sleeps on the event of the entry registered under its id ([None]:
    still asleep), wakes up when it is set, or fails with error 3021 when
    the deadline passes first; it then reads the response slot (to which
    [json.loads] is applied).  For other commands the answer to the send
    is the result. *)
Definition execute_end (command request_id : string) (deadline_passed : bool)
    (answer : string) (m : Master) : option (result string) :=
  if bool_decide (command = "dapi") || bool_decide (command = "dapi_forward") then
    match pending_api_requests m !! request_id with
    | None => Some (Raise (KeyError request_id))
    | Some p =>
        match events m !! Event p with
        | Some true => Some (Ok (Response p))
        | _ => if deadline_passed then Some (Raise (WazuhException 3021 "")) else None
        end
    end
  else Some (Ok answer).

Definition response : Type := string * string.

(** [process_dapi_res]; [in_str] is the session's table of received
    strings, string id to payload. *)
Definition process_dapi_res (in_str : gmap string string) (data : string) (m : Master)
  : Master * result response :=
  match split1 data with
  | [req_id; string_id] =>
      match pending_api_requests m !! req_id with
      | Some p =>
          match in_str !! string_id with
          | None => (m, Raise (KeyError string_id))
          | Some payload =>
              (mkMaster (<[req_id := mkPending (Event p) payload]> (pending_api_requests m))
                        (<[Event p := true]> (events m))
                        (clients m) (local_clients m) (forwarded m),
               Ok ("ok", "Forwarded response"))
          end
      | None =>
          if decide (req_id ∈ local_clients m) then
            (mkMaster (pending_api_requests m) (events m) (clients m)
                      (local_clients m) (forwarded m ++ [data]),
             Ok ("ok", "Response forwarded to worker"))
          else (m, Raise (WazuhException 3032 req_id))
      end
  | _ => (m, Raise (ValueError "not enough values to unpack"))
  end.

(** [Master.__init__]: no pending request. *)
Definition init (workers : list string) (locals : gset string) : Master :=
  mkMaster ∅ ∅ workers locals [].

End Dapi.

(** ** Handshake *)

Module Hello.
Import Py.

Inductive logger :=
  | MainLogger
  | TaskLogger (tag : string).

Global Instance logger_eq_dec : EqDecision logger.
Proof. solve_decision. Defined.

(** The handshake fields of a [MasterHandler]. *)
Record MasterHandler := mkHandler {
  name : string;
  version : string;
  cluster_name : string;
  node_type : string;
  task_loggers : gmap string logger
}.

(** [MasterHandler.__init__]. *)
Definition init : MasterHandler := mkHandler "" "" "" "" ∅.

(** What the handshake reads from outside the session:
    [common.ossec_path], [server.configuration['name']],
    [metadata.__version__], and the [hello] of the base class
    [AbstractServerHandler], which is not part of the sources at hand and
    is kept as it is: any function that takes the worker's name, may
    update the session and answers or raises. *)
Record Env := mkEnv {
  ossec_path : string;
  configuration_name : string;
  metadata_version : string;
  super_hello : string → MasterHandler → MasterHandler * result (string * string)
}.

(** Modelled from the spec: [setup_task_logger] of the base class
    ("creates per-lane loggers"): a logger carrying the tag of its task. *)
Definition setup_task_logger (tag : string) : logger := TaskLogger tag.

(** Modelled from the spec: [utils.mkdir_with_mode] ("ensures a
    worker-specific storage directory exists"), on the set of existing
    directories. *)
Definition mkdir_with_mode (d : string) (dirs : gset string) : gset string :=
  {[d]} ∪ dirs.

(** ['{}/queue/cluster/{}'.format(common.ossec_path, self.name)]. *)
Definition worker_dir (env : Env) (h : MasterHandler) : string :=
  ossec_path env +:+ "/queue/cluster/" +:+ name h.

(** The dictionary [hello] stores in [task_loggers]. *)
Definition lane_loggers : gmap string logger :=
  <["Agent info" := setup_task_logger "Agent info"]>
    (<["Extra valid" := setup_task_logger "Extra valid"]>
       (<["Integrity" := setup_task_logger "Integrity"]> ∅)).

(** [MasterHandler.hello].  Python keeps the assignments made before an
    exception is raised, so the session is returned in both cases. *)
Definition hello (env : Env) (data : string) (h : MasterHandler) (dirs : gset string)
  : MasterHandler * gset string * result (string * string) :=
  match split data with
  | [name0; cluster_name0; node_type0; version0] =>
      match super_hello env name0 h with
      | (h0, Raise e) => (h0, dirs, Raise e)
      | (h0, Ok (cmd, payload)) =>
          let h1 := mkHandler (name h0) version0 cluster_name0 node_type0 lane_loggers in
          if decide (cluster_name h1 ≠ configuration_name env) then
            (h1, dirs, Raise (WazuhException 3030 ""))
          else if decide (version h1 ≠ metadata_version env) then
            (h1, dirs, Raise (WazuhException 3031 ""))
          else
            let d := worker_dir env h1 in
            if bool_decide (cmd = "ok") && negb (bool_decide (d ∈ dirs)) then
              (h1, mkdir_with_mode d dirs, Ok (cmd, payload))
            else (h1, dirs, Ok (cmd, payload))
      end
  | _ => (h, dirs, Raise (ValueError "wrong number of values to unpack"))
  end.

(** A base handshake for the examples: it records the name and accepts. *)
Definition accepting_hello (n : string) (h : MasterHandler)
  : MasterHandler * result (string * string) :=
  (mkHandler n (version h) (cluster_name h) (node_type h) (task_loggers h),
   Ok ("ok", "Client " +:+ n +:+ " added")).

End Hello.

(** ** The Integrity lane *)

Module Integrity.
Import Py.

(** Metadata of a file as the diff collaborator hands it over; the lane
    only counts and forwards it. *)
Definition meta : Type := string.

(** [worker_files_ko], the classification [compare_files] returns. *)
Record KoFiles := mkKo {
  shared : gmap string meta;
  missing : gmap string meta;
  extra : gmap string meta;
  extra_valid : gmap string meta
}.

(** The aggregate counts stored in [sync_integrity_status['total_files']]. *)
Record Counts := mkCounts {
  n_missing : nat; n_shared : nat; n_extra : nat; n_extra_valid : nat
}.

(** A Python value that is either a [str] or a [bytes]: the local
    [task_name] is the former on entry and the latter once the worker
    has answered. *)
Inductive pyval :=
  | PStr (s : string)
  | PBytes (b : string).

Inductive level := Debug | Info | Error.

(** What the cycle does to the outside, in order. *)
Inductive action :=
  | Log (task_logger : bool) (lv : level) (msg : string)
  | Rmtree (path : string)
  | Compress (paths : gset string)
  | SendRequest (command data : string)
  | SendFile (path : string)
  | Unlink (path : string).

(** The session fields the cycle writes, its local [task_name], and the
    record of its actions. *)
Record St := mkSt {
  sync_integrity_free : bool;
  date_start_master : string;
  date_end_master : string;
  total_files : Counts;
  task_name : pyval;
  trace : list action
}.

(** [MasterHandler.__init__], for a session whose handshake is done
    and whose lane has been set up. *)
Definition init : St :=
  mkSt false "n/a" "n/a" (mkCounts 0 0 0 0) (PStr "") [].

(** The collaborators and the worker, as the cycle meets them: what the
    wait for the worker's file gives (the file name, a timeout, or the
    exception the worker reported), the three external functions, the
    answers to the sends, and the two clock readings. *)
Record Env := mkEnv {
  name : string;
  ossec_path : string;
  integrity_control : gmap string meta;
  received : result string;
  decompress_files : string → result (gmap string meta * string);
  compare_files : gmap string meta → gmap string meta → string → result (KoFiles * Counts);
  compress_files : string → gset string → KoFiles → result string;
  send_request : string → string → result string;
  send_file : string → result string;
  relpath : string → string → string;
  json_dumps : exn → string;
  now_start : string;
  now_end : string
}.

(** Computations of the cycle. *)
Abbreviation M := (Py.M St).

Definition get_task_name : M pyval := λ s, (s, Ok (task_name s)).

Definition log_action (a : action) (s : St) : St :=
  mkSt (sync_integrity_free s) (date_start_master s) (date_end_master s)
       (total_files s) (task_name s) (trace s ++ [a]).

Definition emit (a : action) : M unit := modify (log_action a).

(** [task_name + b' ' + rest]: only bytes can be joined with bytes. *)
Definition bytes_join (t : pyval) (rest : string) : result string :=
  match t with
  | PBytes b => Ok (b +:+ " " +:+ rest)
  | PStr _ => Raise (TypeError "can only concatenate str (not bytes) to str")
  end.

Definition set_task_name (t : pyval) : M unit :=
  modify (λ s, mkSt (sync_integrity_free s) (date_start_master s) (date_end_master s)
                    (total_files s) t (trace s)).

Definition set_date_start (d : string) : M unit :=
  modify (λ s, mkSt (sync_integrity_free s) d (date_end_master s)
                    (total_files s) (task_name s) (trace s)).

Definition set_date_end (d : string) : M unit :=
  modify (λ s, mkSt (sync_integrity_free s) (date_start_master s) d
                    (total_files s) (task_name s) (trace s)).

Definition set_total_files (c : Counts) : M unit :=
  modify (λ s, mkSt (sync_integrity_free s) (date_start_master s) (date_end_master s)
                    c (task_name s) (trace s)).

Definition set_free (b : bool) : M unit :=
  modify (λ s, mkSt b (date_start_master s) (date_end_master s)
                    (total_files s) (task_name s) (trace s)).

(** [await self.send_request(command, data)] and [await self.send_file(path)]:
    the attempt is recorded, the worker's answer or the failure comes back. *)
Definition do_send_request (env : Env) (command data : string) : M string :=
  emit (SendRequest command data) ;; lift (send_request env command data).

Definition do_send_file (env : Env) (path : string) : M string :=
  emit (SendFile path) ;; lift (send_file env path).

(** [functools.reduce(operator.add, map(len, worker_files_ko.values()))]. *)
Definition ko_total (ko : KoFiles) : nat :=
  foldl Nat.add (size (missing ko)) [size (shared ko); size (extra ko); size (extra_valid ko)].

(** The payload of the error notice: a [WazuhException] is sent as it is,
    anything else wrapped in a cluster error with code 1000. *)
Definition error_payload (env : Env) (e : exn) : string :=
  json_dumps env (if is_wazuh e then e else WazuhException 1000 (exn_str e)).

(** The [try] block of the KO branch once the worker has answered the
    [sync_m_c] request with the name [t] of its receive task. *)
Definition send_archive (env : Env) (compressed_data t : string) : M string :=
  set_task_name (PBytes t) ;;
  do_send_file env compressed_data ;;
  tn ← get_task_name ;
  data ← lift (bytes_join tn (relpath env compressed_data (ossec_path env))) ;
  do_send_request env "sync_m_c_e" data.

(** The two [except] clauses: the failure is logged and the worker is
    sent the error notice, addressed to [task_name]. *)
Definition notify_error (env : Env) (e : exn) : M string :=
  emit (Log false Error ("Error sending files information: " +:+ exn_str e)) ;;
  tn ← get_task_name ;
  data ← lift (bytes_join tn (error_payload env e)) ;
  do_send_request env "sync_m_c_r" data.

(** The [try] statement of the KO branch with its handlers and [finally]. *)
Definition send_ko_files (env : Env) (compressed_data : string) : M string :=
  try_finally
    (try_except
       (t ← do_send_request env "sync_m_c" "" ;
        send_archive env compressed_data t)
       (notify_error env))
    (emit (Unlink compressed_data)).

(** The [else] branch of [sync_integrity]: there are KO files. *)
Definition send_ko_branch (env : Env) (worker_files_ko : KoFiles) : M string :=
  emit (Log true Info "Analyzing worker integrity: Files checked. There are KO files.") ;;
  emit (Log true Debug "Analyzing worker integrity: Files checked. Compressing KO files.") ;;
  let master_files_paths := dom (shared worker_files_ko) ∪ dom (missing worker_files_ko) in
  emit (Compress master_files_paths) ;;
  compressed_data ←
    lift (compress_files env (name env) master_files_paths worker_files_ko) ;
  emit (Log true Info "Analyzing worker integrity: Files checked. KO files compressed.") ;;
  send_ko_files env compressed_data.

(** [sync_integrity] from the diff on: the counts are stored, the
    extraction directory removed, and the worker is answered. *)
Definition reply_to_worker (env : Env) (decompressed_files_path : string)
    (worker_files_ko : KoFiles) (counts : Counts) : M string :=
  set_total_files counts ;;
  emit (Rmtree decompressed_files_path) ;;
  if decide (ko_total worker_files_ko = 0%nat) then
    emit (Log true Info "Analyzing worker integrity: Files checked. There are no KO files.") ;;
    do_send_request env "sync_m_c_ok" ""
  else send_ko_branch env worker_files_ko.

(** [sync_integrity] up to the value of [result]. *)
Definition integrity_result (env : Env) (task_name0 : string) : M string :=
  set_task_name (PStr task_name0) ;;
  set_date_start (now_start env) ;;
  emit (Log true Info "Waiting to receive zip file from worker") ;;
  received_filename ← lift (received env) ;
  emit (Log true Debug ("Received file from worker: '" +:+ received_filename +:+ "'")) ;;
  '(files_checksums, decompressed_files_path) ← lift (decompress_files env received_filename) ;
  emit (Log true Info ("Analyzing worker integrity: Received "
                       +:+ pretty (size files_checksums) +:+ " files to check.")) ;;
  '(worker_files_ko, counts) ←
     lift (compare_files env (integrity_control env) files_checksums (name env)) ;
  reply_to_worker env decompressed_files_path worker_files_ko counts.

(** [MasterHandler.sync_integrity]. *)
Definition sync_integrity (env : Env) (task_name0 : string) : M string :=
  result ← integrity_result env task_name0 ;
  set_date_end (now_end env) ;;
  set_free true ;;
  emit (Log true Info "Finished integrity synchronization.") ;;
  mret result.

(** [ReceiveIntegrityTask.done_callback]: whatever the coroutine did,
    the lane is marked free (the base callback works on the task table). *)
Definition done_callback (s : St) : St :=
  mkSt true (date_start_master s) (date_end_master s)
       (total_files s) (task_name s) (trace s).

(** One cycle of the lane: the coroutine, then the callback of its task. *)
Definition cycle (env : Env) (task_name0 : string) (s : St) : St :=
  done_callback (sync_integrity env task_name0 s).1.

(** The actions of a trace that reach the file system or the worker. *)
Definition is_log (a : action) : bool :=
  match a with Log _ _ _ => true | _ => false end.

Definition effects (tr : list action) : list action :=
  filter (λ a, is_log a = false) tr.

(** A worker and collaborators for the examples: the diff gives [ko],
    every send is answered, the archive is [/tmp/ko.zip]. *)
Definition quiet_env (ko : KoFiles) : Env :=
  mkEnv "w1" "/var/ossec" ∅ (Ok "/var/ossec/queue/cluster/w1/in.zip")
        (λ _, Ok (∅, "/var/ossec/queue/cluster/w1/in/"))
        (λ _ _ _, Ok (ko, mkCounts (size (missing ko)) (size (shared ko))
                                   (size (extra ko)) (size (extra_valid ko))))
        (λ _ _ _, Ok "/tmp/ko.zip")
        (λ c _, Ok (if decide (c = "sync_m_c") then "task7" else "ok"))
        (λ _, Ok "ok")
        (λ p _, p)
        exn_str
        "2019-03-01 10:00:00" "2019-03-01 10:00:05".

(** The same, but the worker's file never arrives. *)
Definition timeout_env : Env :=
  mkEnv "w1" "/var/ossec" ∅ (Raise TimeoutError)
        (λ _, Ok (∅, "/var/ossec/queue/cluster/w1/in/"))
        (λ _ _ _, Ok (mkKo ∅ ∅ ∅ ∅, mkCounts 0 0 0 0))
        (λ _ _ _, Ok "/tmp/ko.zip")
        (λ _ _, Ok "ok")
        (λ _, Ok "ok")
        (λ p _, p)
        exn_str
        "2019-03-01 10:00:00" "2019-03-01 10:00:05".

(** *** Notions used to state what a run maintains *)

(** Every run of [m] relates the state before to the state after by [R]. *)
Definition respects {A} (R : St → St → Prop) (m : M A) : Prop :=
  ∀ s, R s (m s).1.

(** The end date is left alone. *)
Definition same_end_date (s s' : St) : Prop :=
  date_end_master s' = date_end_master s.

(** The trace grows, and only by actions that satisfy [P]. *)
Definition grows_by (P : action → Prop) (s s' : St) : Prop :=
  ∃ new, trace s' = trace s ++ new ∧ Forall P new.

(** Any action but the acknowledgement of a clean diff. *)
Definition not_ack (a : action) : Prop := a ≠ SendRequest "sync_m_c_ok" "".

(** The state in which the diff result is handled: the file [f] has
    arrived and was decompressed to the descriptors [fc]. *)
Definition after_diff (env : Env) (t f : string) (fc : gmap string meta) (s : St) : St :=
  mkSt (sync_integrity_free s) (now_start env) (date_end_master s) (total_files s) (PStr t)
       (trace s ++ [Log true Info "Waiting to receive zip file from worker";
                    Log true Debug ("Received file from worker: '" +:+ f +:+ "'");
                    Log true Info ("Analyzing worker integrity: Received "
                                   +:+ pretty (size fc) +:+ " files to check.")]).

(** The state in which the KO branch starts: counts stored, extraction
    directory removed. *)
Definition stored (counts : Counts) (p : string) (s : St) : St :=
  mkSt (sync_integrity_free s) (date_start_master s) (date_end_master s) counts
       (task_name s) (trace s ++ [Rmtree p]).

End Integrity.

(** ** The file-update applier *)

Module Applier.
Import Py.

(** A counter dictionary such as [n_errors['warnings']]: keys in the
    order of their first insertion. *)
Definition counters : Type := list (string * nat).

Fixpoint dict_get (k : string) (d : counters) : option nat :=
  match d with
  | [] => None
  | (k', v) :: r => if decide (k' = k) then Some v else dict_get k r
  end.

Fixpoint dict_set (k : string) (v : nat) (d : counters) : counters :=
  match d with
  | [] => [(k, v)]
  | (k', v') :: r => if decide (k' = k) then (k, v) :: r else (k', v') :: dict_set k v r
  end.

(** [d[k] = 1 if d.get(k) is None else d[k] + 1]. *)
Definition bump (k : string) (d : counters) : counters :=
  match dict_get k d with
  | None => dict_set k 1%nat d
  | Some n => dict_set k (S n) d
  end.

(** [d[k] = 1 if not d.get(k) else d[k] + 1]: a stored zero counts as absent. *)
Definition bump_falsy (k : string) (d : counters) : counters :=
  match dict_get k d with
  | None | Some O => dict_set k 1%nat d
  | Some n => dict_set k (S n) d
  end.

(** [sum(d.values())]. *)
Definition dict_sum (d : counters) : nat := foldr (λ kv acc, (kv.2 + acc)%nat) 0%nat d.

(** A regular file: content, modification time in microseconds since
    the epoch, owner and permission bits. *)
Record File := mkFile {
  content : string;
  mtime : Z;
  owner : Z * Z;
  mode : Z
}.

Global Instance File_eq_dec : EqDecision File.
Proof. solve_decision. Defined.

(** The metadata of one received file ([data] in [update_file]). *)
Record FileData := mkData {
  merged : bool;
  merge_type : string;
  merge_name : string;
  cluster_item_key : string
}.

(** One item of an unmerged bundle: [(file_path, file_data, file_time)]. *)
Definition subfile : Type := string * string * string.

Inductive level := Debug2 | Warning | Error.

(** A log line: on the task logger or on the handler's own logger. *)
Definition log_line : Type := bool * level * string.

(** What the applier reads from its surroundings: the installation
    path and ids ([common]), the permissions configured per item key
    ([cluster_items['files'][key]['permissions']]), the external
    [cluster.unmerge_agent_info] (on the merge type, the extraction
    directory, the bundle name and the files on disk), the library
    function [datetime.strptime] (text and format to microseconds since
    the epoch, [None] for [ValueError]), and what a file just created
    gets from the process: time, owner and mode. *)
Record Config := mkConfig {
  ossec_path : string;
  ossec_uid : Z;
  ossec_gid : Z;
  permissions : gmap string Z;
  unmerge_agent_info : string → string → string → gmap string File → list subfile;
  strptime : string → string → option Z;
  clock : Z;
  process_owner : Z * Z;
  creation_mode : Z
}.

(** The files on disk (a flat map from path to file: the directory of
    a path is taken to exist), the lock files in the lock directory and
    the locks held, the counters [n_errors], the two status counters the
    applier writes, and the log. *)
Record St := mkSt {
  fs : gmap string File;
  lock_files : gset string;
  held : list string;
  errors : counters;
  warnings : counters;
  total_agent_info : option Z;
  total_extra_valid : option Z;
  log : list log_line
}.

Definition set_fs (f : gmap string File) (st : St) : St :=
  mkSt f (lock_files st) (held st) (errors st) (warnings st)
       (total_agent_info st) (total_extra_valid st) (log st).

Definition set_errors (d : counters) (st : St) : St :=
  mkSt (fs st) (lock_files st) (held st) d (warnings st)
       (total_agent_info st) (total_extra_valid st) (log st).

Definition set_warnings (d : counters) (st : St) : St :=
  mkSt (fs st) (lock_files st) (held st) (errors st) d
       (total_agent_info st) (total_extra_valid st) (log st).

Definition set_totals (a e : option Z) (st : St) : St :=
  mkSt (fs st) (lock_files st) (held st) (errors st) (warnings st) a e (log st).

Definition add_log (l : log_line) (st : St) : St :=
  mkSt (fs st) (lock_files st) (held st) (errors st) (warnings st)
       (total_agent_info st) (total_extra_valid st) (log st ++ [l]).

(** [open(lock, 'a+')] and [fcntl.lockf(lock_file, LOCK_EX)]. *)
Definition acquire (lock : string) (st : St) : St :=
  mkSt (fs st) ({[lock]} ∪ lock_files st) (lock :: held st) (errors st) (warnings st)
       (total_agent_info st) (total_extra_valid st) (log st).

(** [fcntl.lockf(lock_file, LOCK_UN)] and [lock_file.close()]. *)
Definition release (lock : string) (st : St) : St :=
  mkSt (fs st) (lock_files st) (filter (λ l, l ≠ lock) (held st)) (errors st) (warnings st)
       (total_agent_info st) (total_extra_valid st) (log st).

(** The text before the last dash that still has something after it:
    the greedy match of [(^.+)-(.+)$]. *)
Fixpoint rsplit_dash (s : string) : option (string * string) :=
  match s with
  | EmptyString => None
  | String c r =>
      match rsplit_dash r with
      | Some (b, a) => Some (String c b, a)
      | None =>
          if decide (c = "-"%char) then
            match r with EmptyString => None | _ => Some (EmptyString, r) end
          else None
      end
  end.

Definition newline : ascii := "010"%char.

(** A single newline at the end of the text is not part of the match. *)
Fixpoint strip_newline (s : string) : string :=
  match s with
  | EmptyString => EmptyString
  | String c EmptyString => if decide (c = newline) then EmptyString else s
  | String c r => String c (strip_newline r)
  end.

(** [agent_name_re.group(1) if agent_name_re else os.path.basename(file_path)]
    for [agent_name_re = re.match(r'(^.+)-(.+)$', base)]. *)
Definition agent_name_of (base : string) : string :=
  let s := strip_newline base in
  if has_char newline s then base
  else match rsplit_dash s with
       | Some (String c b, _) => String c b
       | _ => base
       end.

(** The two formats tried for the time of a sub-file. *)
Definition parse_time (cfg : Config) (file_time : string) : option Z :=
  match strptime cfg file_time "%Y-%m-%d %H:%M:%S.%f" with
  | Some t => Some t
  | None => strptime cfg file_time "%Y-%m-%d %H:%M:%S"
  end.

(** [int(os.stat(p).st_mtime)], whole seconds, as a time in microseconds. *)
Definition whole_seconds (t : Z) : Z := (Z.quot t 1000000 * 1000000)%Z.

(** [timegm(mtime.timetuple())]: the time tuple has no microseconds. *)
Definition timegm_timetuple (t : Z) : Z := (t `div` 1000000)%Z.

(** [with open(p, 'wb') as f: f.write(data)]: a new file gets its
    attributes from the process, an existing one keeps owner and mode. *)
Definition write_file (cfg : Config) (p data : string) (f : gmap string File)
  : gmap string File :=
  match f !! p with
  | Some old => <[p := mkFile data (clock cfg) (owner old) (mode old)]> f
  | None => <[p := mkFile data (clock cfg) (process_owner cfg) (creation_mode cfg)]> f
  end.

(** [os.utime(p, (secs, secs))]. *)
Definition utime (p : string) (secs : Z) (f : gmap string File) : result (gmap string File) :=
  match f !! p with
  | Some x => Ok (<[p := mkFile (content x) (secs * 1000000)%Z (owner x) (mode x)]> f)
  | None => Raise (OSError p)
  end.

(** [os.chown(p, uid, gid)]. *)
Definition chown (p : string) (uid gid : Z) (f : gmap string File) : result (gmap string File) :=
  match f !! p with
  | Some x => Ok (<[p := mkFile (content x) (mtime x) (uid, gid) (mode x)]> f)
  | None => Raise (OSError p)
  end.

(** [os.chmod(p, m)]. *)
Definition chmod (p : string) (m : Z) (f : gmap string File) : result (gmap string File) :=
  match f !! p with
  | Some x => Ok (<[p := mkFile (content x) (mtime x) (owner x) m]> f)
  | None => Raise (OSError p)
  end.

(** [os.rename(src, dst)]. *)
Definition rename (src dst : string) (f : gmap string File) : result (gmap string File) :=
  match f !! src with
  | Some x => Ok (<[dst := x]> (delete src f))
  | None => Raise (OSError src)
  end.

(** [self.cluster_items['files'][key]['permissions']]. *)
Definition configured_permissions (cfg : Config) (key : string) : result Z :=
  match permissions cfg !! key with
  | Some m => Ok m
  | None => Raise (KeyError key)
  end.

(** How a loop body or a function body ends: it runs to its end, or a
    [return] leaves the function. *)
Inductive flow := Next | Return.

Abbreviation M := (Py.M St).

Definition fs_op (op : gmap string File → result (gmap string File)) : M unit := λ st,
  match op (fs st) with
  | Ok f => (set_fs f st, Ok ())
  | Raise e => (st, Raise e)
  end.

(** [for x in l: body(x)], left when a body returns. *)
Fixpoint for_each {A} (body : A → M flow) (l : list A) : M flow :=
  match l with
  | [] => mret Next
  | x :: r =>
      f ← body x ;
      match f with
      | Next => for_each body r
      | Return => mret Return
      end
  end.

(** Whether the agent a sub-file belongs to is in the roster: by name
    for an agent-info bundle, by id otherwise. *)
Definition known_agent (is_agent_info : bool) (agent_names agent_ids : gset string)
    (file_path : string) : bool :=
  if is_agent_info then bool_decide (agent_name_of (basename file_path) ∈ agent_names)
  else bool_decide (basename file_path ∈ agent_ids).

(** The existing target is newer than the time [t] of the sub-file. *)
Definition target_newer (f : gmap string File) (p : string) (t : Z) : bool :=
  match f !! p with
  | Some old => bool_decide (whole_seconds (mtime old) > t)%Z
  | None => false
  end.

(** The body of the inner [try] of [update_file], for one sub-file. *)
Definition subfile_body (cfg : Config) (data : FileData) (is_agent_info : bool)
    (agent_names agent_ids : gset string) (sf : subfile) : M flow :=
  let '(file_path, file_data, file_time) := sf in
  let full_unmerged_name := ossec_path cfg +:+ file_path in
  let tmp_unmerged_path := full_unmerged_name +:+ ".tmp" in
  if negb (known_agent is_agent_info agent_names agent_ids file_path) then
    modify (λ st, set_warnings (bump (cluster_item_key data) (warnings st)) st) ;;
    modify (add_log (false, Debug2,
      if is_agent_info
      then "Received status of an non-existent agent '"
           +:+ agent_name_of (basename file_path) +:+ "'"
      else "Received group of an non-existent agent '" +:+ basename file_path +:+ "'")) ;;
    mret Next
  else
    match parse_time cfg file_time with
    | None => lift (Raise (ValueError "time data does not match format"))
    | Some t =>
        λ st,
        if target_newer (fs st) full_unmerged_name t then
          (add_log (true, Debug2, "Receiving an old file (" +:+ file_path +:+ ")") st,
           Ok Return)
        else
          (modify (λ st, set_fs (write_file cfg tmp_unmerged_path file_data (fs st)) st) ;;
           fs_op (utime tmp_unmerged_path (timegm_timetuple t)) ;;
           fs_op (chown tmp_unmerged_path (ossec_uid cfg) (ossec_gid cfg)) ;;
           m ← lift (configured_permissions cfg (cluster_item_key data)) ;
           fs_op (chmod tmp_unmerged_path m) ;;
           fs_op (rename tmp_unmerged_path full_unmerged_name) ;;
           mret Next) st
    end.

(** The [except Exception] clause of the inner [try]. *)
Definition subfile_failed (data : FileData) (is_agent_info : bool) (e : exn) : M flow :=
  modify (add_log (false, Debug2, "Error updating agent group/status: " +:+ exn_str e)) ;;
  modify (λ st,
    if is_agent_info
    then set_totals ((λ n, n - 1)%Z <$> total_agent_info st) (total_extra_valid st) st
    else set_totals (total_agent_info st) ((λ n, n - 1)%Z <$> total_extra_valid st) st) ;;
  modify (λ st, set_errors (bump (cluster_item_key data) (errors st)) st) ;;
  mret Next.

(** One turn of the loop over the sub-files of a bundle. *)
Definition update_subfile (cfg : Config) (data : FileData) (is_agent_info : bool)
    (agent_names agent_ids : gset string) (sf : subfile) : M flow :=
  try_except (subfile_body cfg data is_agent_info agent_names agent_ids sf)
             (subfile_failed data is_agent_info).

(** The body of the outer [try] of [update_file]. *)
Definition locked_update (cfg : Config) (agent_names agent_ids : gset string)
    (decompressed_files_path name : string) (data : FileData) : M flow :=
  let full_path := ossec_path cfg +:+ name in
  (if decide (basename name = "client.keys") then
     modify (add_log (false, Warning, "Client.keys received in a master node")) ;;
     lift (Raise (WazuhException 3007 ""))
   else mret ()) ;;
  if merged data then
    let is_agent_info := bool_decide (merge_type data = "agent-info") in
    modify (λ st,
      if is_agent_info
      then set_totals (Some (Z.of_nat (size agent_ids))) (total_extra_valid st) st
      else set_totals (total_agent_info st) (Some (Z.of_nat (size agent_ids))) st) ;;
    items ← (λ st, (st, Ok (unmerge_agent_info cfg (merge_type data)
                               decompressed_files_path (merge_name data) (fs st)))) ;
    for_each (update_subfile cfg data is_agent_info agent_names agent_ids) items
  else
    let zip_path := decompressed_files_path +:+ name in
    fs_op (chown zip_path (ossec_uid cfg) (ossec_gid cfg)) ;;
    m ← lift (configured_permissions cfg (cluster_item_key data)) ;
    fs_op (chmod zip_path m) ;;
    fs_op (rename zip_path full_path) ;;
    mret Next.

(** [update_file], the function nested in [process_files_from_worker].
    A [return] inside the loop leaves the function at once: the counter
    update and the unlock after the [try] statement are not reached. *)
Definition update_file (cfg : Config) (agent_names agent_ids : gset string)
    (decompressed_files_path name : string) (data : FileData) (st : St) : St :=
  let full_path := ossec_path cfg +:+ name in
  let lock_full_path :=
    ossec_path cfg +:+ "/queue/cluster/lockdir/" +:+ basename full_path +:+ ".lock" in
  match locked_update cfg agent_names agent_ids decompressed_files_path name data
          (acquire lock_full_path st) with
  | (st', Ok Return) => st'
  | (st', Ok Next) => release lock_full_path st'
  | (st', Raise e) =>
      let st'' :=
        if is_wazuh e then
          set_warnings (bump_falsy (cluster_item_key data) (warnings st'))
            (add_log (true, Debug2,
               "Warning updating file '" +:+ name +:+ "': " +:+ exn_str e) st')
        else
          set_errors (bump_falsy (cluster_item_key data) (errors st'))
            (add_log (true, Debug2,
               "Error updating file '" +:+ name +:+ "': " +:+ exn_str e) st') in
      release lock_full_path st''
  end.

(** The path [p] is the directory [d] or lies below it. *)
Definition under (d p : string) : bool :=
  bool_decide (p = d)
  || startswith (d +:+ "/") p
  || (startswith d p && bool_decide (String.substring (String.length d - 1) 1 d = "/")).

(** [shutil.rmtree(d)]: every file under [d] goes. *)
Definition rmtree (d : string) (f : gmap string File) : gmap string File :=
  filter (λ kv, under d kv.1 = false) f.

(** [' | '.join(['{}: {}'.format(key, value) for key, value in d.items()])]. *)
Fixpoint join_counters (d : counters) : string :=
  match d with
  | [] => ""
  | [(k, v)] => k +:+ ": " +:+ pretty v
  | (k, v) :: r => k +:+ ": " +:+ pretty v +:+ " | " +:+ join_counters r
  end.

(** The summary lines for the warnings of the two agent item keys. *)
Definition warning_lines (d : counters) : list log_line :=
  omap (λ kv,
    if decide (kv.1 = "/queue/agent-info/") then
      Some (true, Debug2, "Received " +:+ pretty kv.2
                          +:+ " agent statuses for non-existent agents. Skipping.")
    else if decide (kv.1 = "/queue/agent-groups/") then
      Some (true, Debug2, "Received " +:+ pretty kv.2
                          +:+ " group assignments for non-existent agents. Skipping.")
    else None) d.

(** The roster snapshot: the names and ids of the agents, or two empty
    collections when the roster could not be read. [agents] lists
    [(id, name)]. *)
Definition roster_snapshot (agents : result (list (string * string)))
  : gset string * gset string :=
  match agents with
  | Ok items => (list_to_set (snd <$> items), list_to_set (fst <$> items))
  | Raise _ => (∅, ∅)
  end.

(** [process_files_from_worker]: the counters start empty, the roster
    is read once, every received file is applied, the extraction
    directory is removed and the counters are summed up in the log. *)
Definition process_files_from_worker (cfg : Config)
    (agents : result (list (string * string)))
    (files_checksums : list (string * FileData)) (decompressed_files_path : string)
    (st : St) : St :=
  let st0 := set_warnings [] (set_errors [] st) in
  let st1 := match agents with
             | Ok _ => st0
             | Raise e => add_log (true, Debug2,
                            "Error getting agent ids and names: " +:+ exn_str e) st0
             end in
  let '(agent_names, agent_ids) := roster_snapshot agents in
  let st2 := foldl (λ acc item,
               update_file cfg agent_names agent_ids decompressed_files_path
                           item.1 item.2 acc)
               st1 files_checksums in
  let st3 := set_fs (rmtree decompressed_files_path (fs st2)) st2 in
  let st4 := if bool_decide (0 < dict_sum (errors st3))%nat then
               add_log (true, Error, "Errors updating worker files: "
                                     +:+ join_counters (errors st3)) st3
             else st3 in
  if bool_decide (0 < dict_sum (warnings st4))%nat then
    mkSt (fs st4) (lock_files st4) (held st4) (errors st4) (warnings st4)
         (total_agent_info st4) (total_extra_valid st4)
         (log st4 ++ warning_lines (warnings st4))
  else st4.

(** *** A calendar for the examples *)

Definition digit_of (c : ascii) : option Z :=
  let n := Z.of_nat (nat_of_ascii c) in
  if bool_decide (48 ≤ n ≤ 57)%Z then Some (n - 48)%Z else None.

Fixpoint number_from (acc : Z) (s : string) : option Z :=
  match s with
  | EmptyString => Some acc
  | String c r =>
      match digit_of c with
      | Some d => number_from (acc * 10 + d) r
      | None => None
      end
  end.

(** A non-empty run of decimal digits. *)
Definition number (s : string) : option Z :=
  match s with
  | EmptyString => None
  | _ => number_from 0 s
  end.

(** Days from 1970-01-01 to the given date of the proleptic Gregorian
    calendar. *)
Definition days_from_civil (y m d : Z) : Z :=
  let y' := (if bool_decide (m ≤ 2) then y - 1 else y)%Z in
  let era := (y' `div` 400)%Z in
  let yoe := (y' - era * 400)%Z in
  let mp := (if bool_decide (2 < m) then m - 3 else m + 9)%Z in
  let doy := ((153 * mp + 2) `div` 5 + d - 1)%Z in
  let doe := (yoe * 365 + yoe `div` 4 - yoe `div` 100 + doy)%Z in
  (era * 146097 + doe - 719468)%Z.

(** The fraction of a second, [%f]: one to six digits, read as the
    leading digits of the microseconds. *)
Definition fraction (s : string) : option Z :=
  let n := String.length s in
  if bool_decide (1 ≤ n ≤ 6)%nat then
    (λ v, v * 10 ^ Z.of_nat (6 - n))%Z <$> number s
  else None.

(** [datetime.strptime] on zero-padded timestamps, for the two formats
    [update_file] uses: microseconds since the epoch. *)
Definition strptime_iso (text fmt : string) : option Z :=
  let part i n := String.substring i n text in
  let tail := String.substring 19 (String.length text - 19) text in
  if bool_decide (part 4 1 = "-" ∧ part 7 1 = "-" ∧ part 10 1 = " "
                  ∧ part 13 1 = ":" ∧ part 16 1 = ":") then
    y ← number (part 0 4) ; mo ← number (part 5 2) ; d ← number (part 8 2) ;
    h ← number (part 11 2) ; mi ← number (part 14 2) ; sec ← number (part 17 2) ;
    let secs := (days_from_civil y mo d * 86400 + h * 3600 + mi * 60 + sec)%Z in
    if decide (fmt = "%Y-%m-%d %H:%M:%S.%f") then
      match tail with
      | String "." digits => (λ us, secs * 1000000 + us)%Z <$> fraction digits
      | _ => None
      end
    else if decide (fmt = "%Y-%m-%d %H:%M:%S") then
      match tail with
      | EmptyString => Some (secs * 1000000)%Z
      | _ => None
      end
    else None
  else None.

(** *** Data for the examples *)

(** An installation under [/var/ossec] whose bundles unmerge to [items]. *)
Definition example_config (items : list subfile) : Config :=
  mkConfig "/var/ossec" 995 994
           (<["/queue/agent-info/" := 432%Z]> (<["/queue/agent-groups/" := 432%Z]> ∅))
           (λ _ _ _ _, items) strptime_iso 1600000000000000 (0, 0)%Z 420.

(** The descriptor of an agent-info bundle. *)
Definition agent_info_bundle : FileData :=
  mkData true "agent-info" "agent-info.merged" "/queue/agent-info/".

(** A state with the files [f] on disk and nothing else. *)
Definition on_disk (f : gmap string File) : St :=
  mkSt f ∅ [] [] [] None None [].

End Applier.

(* ================================================================== *)
(** * Further parts of the program *)

Module Frames.
Import Py.

(** Every run of [m] leaves the component [f] of the state as it was,
    whether it returns or raises. *)
Definition keeps {S A B} (f : S → B) (m : M S A) : Prop :=
  ∀ s, f (m s).1 = f s.

End Frames.

Module DapiTrace.
Import Py Dapi.

(** What the sessions of a master do to the registry: a caller starts
    [execute], or a [dapi_res] command arrives on a session whose table
    of received strings is [in_str]. *)
Inductive op :=
  | Execute (command data : string) (r : Z)
  | Deliver (in_str : gmap string string) (data : string).

Definition apply_op (m : Master) (o : op) : Master :=
  match o with
  | Execute command data r => (execute_begin command data r m).1
  | Deliver in_str data => (process_dapi_res in_str data m).1
  end.

Definition run_ops (m : Master) (ops : list op) : Master := foldl apply_op m ops.

(** The texts a correlation id can be. *)
Definition request_ids : list string := pretty <$> seqZ 0 1024.

End DapiTrace.

Module Loggers.
Import Py Hello.

(** [MasterHandler.get_logger]; [self.logger] is the main logger of the
    session, and a subscript of [task_loggers] with a missing key is a
    [KeyError]. *)
Definition get_logger (logger_tag : string) (h : MasterHandler) : result logger :=
  if bool_decide (logger_tag = "")
     || negb (bool_decide (logger_tag ∈ dom (task_loggers h)))
  then Ok MainLogger
  else match task_loggers h !! logger_tag with
       | Some task_logger => Ok task_logger
       | None => Raise (KeyError logger_tag)
       end.

End Loggers.

Module WorkerSync.
Import Py.

(** The start and end date of a lane's status dictionary. *)
Record Status := mkStatus {
  date_start_master : string;
  date_end_master : string
}.

Inductive level := Debug | Info.

(** What a coroutine of the two lanes does to the outside: a line on a
    logger, and the call of [process_files_from_worker] with the logger
    it is given. *)
Inductive action :=
  | Log (lg : Hello.logger) (lv : level) (msg : string)
  | ProcessFiles (files_checksums : gmap string string)
                 (decompressed_files_path : string) (lg : Hello.logger).

(** The session fields the two coroutines read and write. *)
Record St := mkSt {
  sync_extra_valid_free : bool;
  sync_agent_info_free : bool;
  sync_extra_valid_status : Status;
  sync_agent_info_status : Status;
  task_loggers : gmap string Hello.logger;
  trace : list action
}.

(** [MasterHandler.__init__], with the lane flags a setup command leaves. *)
Definition init (extra_valid_free agent_info_free : bool) : St :=
  mkSt extra_valid_free agent_info_free (mkStatus "n/a" "n/a") (mkStatus "n/a" "n/a") ∅ [].

(** What a coroutine meets: what the wait for the worker's file gives
    (the file name, a timeout, or the exception the worker reported),
    [cluster.decompress_files], whether [process_files_from_worker]
    returns, and the two clock readings. *)
Record Env := mkEnv {
  received : result string;
  decompress_files : string → result (gmap string string * string);
  process_files_from_worker : gmap string string → string → result unit;
  now_start : string;
  now_end : string
}.

Abbreviation M := (Py.M St).

Definition emit (a : action) : M unit :=
  modify (λ s, mkSt (sync_extra_valid_free s) (sync_agent_info_free s)
                    (sync_extra_valid_status s) (sync_agent_info_status s)
                    (task_loggers s) (trace s ++ [a])).

(** [self.task_loggers[key]]. *)
Definition task_logger (key : string) : M Hello.logger := λ s,
  (s, match task_loggers s !! key with
      | Some lg => Ok lg
      | None => Raise (KeyError key)
      end).

Definition set_extra_valid_free (b : bool) : M unit :=
  modify (λ s, mkSt b (sync_agent_info_free s)
                    (sync_extra_valid_status s) (sync_agent_info_status s)
                    (task_loggers s) (trace s)).

Definition set_agent_info_free (b : bool) : M unit :=
  modify (λ s, mkSt (sync_extra_valid_free s) b
                    (sync_extra_valid_status s) (sync_agent_info_status s)
                    (task_loggers s) (trace s)).

Definition set_extra_valid_status (f : Status → Status) : M unit :=
  modify (λ s, mkSt (sync_extra_valid_free s) (sync_agent_info_free s)
                    (f (sync_extra_valid_status s)) (sync_agent_info_status s)
                    (task_loggers s) (trace s)).

Definition set_agent_info_status (f : Status → Status) : M unit :=
  modify (λ s, mkSt (sync_extra_valid_free s) (sync_agent_info_free s)
                    (sync_extra_valid_status s) (f (sync_agent_info_status s))
                    (task_loggers s) (trace s)).

Definition set_start (d : string) (st : Status) : Status := mkStatus d (date_end_master st).
Definition set_end (d : string) (st : Status) : Status := mkStatus (date_start_master st) d.

(** [MasterHandler.sync_worker_files]. *)
Definition sync_worker_files (env : Env) (logger : Hello.logger) : M unit :=
  emit (Log logger Info "Waiting to receive zip file from worker") ;;
  received_filename ← lift (received env) ;
  emit (Log logger Debug ("Received file from worker: '" +:+ received_filename +:+ "'")) ;;
  '(files_checksums, decompressed_files_path) ←
     lift (decompress_files env received_filename) ;
  emit (Log logger Info ("Analyzing worker files: Received "
                         +:+ pretty (size files_checksums) +:+ " files to check.")) ;;
  emit (ProcessFiles files_checksums decompressed_files_path logger) ;;
  lift (process_files_from_worker env files_checksums decompressed_files_path).

(** [MasterHandler.sync_extra_valid]. *)
Definition sync_extra_valid (env : Env) : M unit :=
  extra_valid_logger ← task_logger "Extra valid" ;
  set_extra_valid_status (set_start (now_start env)) ;;
  sync_worker_files env extra_valid_logger ;;
  set_extra_valid_free true ;;
  set_extra_valid_status (set_end (now_end env)).

(** [MasterHandler.sync_agent_info]. *)
Definition sync_agent_info (env : Env) : M unit :=
  agent_info_logger ← task_logger "Agent info" ;
  set_agent_info_status (set_start (now_start env)) ;;
  sync_worker_files env agent_info_logger ;;
  set_agent_info_free true ;;
  set_agent_info_status (set_end (now_end env)).



(** The calls of [process_files_from_worker] in a trace. *)
Definition is_process (a : action) : bool :=
  match a with ProcessFiles _ _ _ => true | Log _ _ _ => false end.

End WorkerSync.

Module Health.
Import Py.

(** [last_keep_alive]: a timestamp in the session, its text in the answer. *)
Inductive keep_alive :=
  | Timestamp (t : Z)
  | Text (s : string).

(** The ['info'] and ['status'] dictionaries of a node. *)
Record Info := mkInfo {
  info_name : string;
  info_type : string;
  info_version : string;
  info_ip : string;
  info_n_active_agents : option nat
}.

Record Status := mkStatus {
  status_sync_integrity_free : bool;
  status_last_sync_integrity : string;
  status_sync_agentinfo_free : bool;
  status_last_sync_agentinfo : string;
  status_sync_extravalid_free : bool;
  status_last_sync_agentgroups : string;
  status_last_keep_alive : keep_alive
}.

(** The dictionary of a node; the one of the master has no ['status']. *)
Record Node := mkNode {
  info : Info;
  status : option Status
}.

(** The fields of a [MasterHandler] that [to_dict] reads; the three
    status dictionaries are copied as they are. *)
Record MasterHandler := mkHandler {
  name : string;
  node_type : string;
  version : string;
  ip : string;
  sync_integrity_free : bool;
  sync_integrity_status : string;
  sync_agent_info_free : bool;
  sync_agent_info_status : string;
  sync_extra_valid_free : bool;
  sync_extra_valid_status : string;
  last_keepalive : Z
}.

(** The entries of [configuration] that the master reads. *)
Record Configuration := mkConfiguration {
  cfg_node_name : string;
  cfg_node_type : string;
  cfg_nodes : list string
}.

(** [metadata.__version__], the ['totalItems'] of
    [Agent.get_agents_overview] for the active agents of a node, and
    [str(datetime.fromtimestamp(t))]. *)
Record Env := mkEnv {
  metadata_version : string;
  active_agents : string → nat;
  fromtimestamp : Z → string
}.

(** [filter_node]: [None], a dictionary (its keys), or a list of names. *)
Inductive filter_node :=
  | FilterNone
  | FilterDict (keys : list string)
  | FilterList (names : list string).

(** [MasterHandler.to_dict]. *)
Definition to_dict (h : MasterHandler) : Node :=
  mkNode (mkInfo (name h) (node_type h) (version h) (ip h) None)
         (Some (mkStatus (sync_integrity_free h) (sync_integrity_status h)
                         (sync_agent_info_free h) (sync_agent_info_status h)
                         (sync_extra_valid_free h) (sync_extra_valid_status h)
                         (Timestamp (last_keepalive h)))).

(** [Master.to_dict]; [configuration['nodes'][0]] needs a first node. *)
Definition master_to_dict (env : Env) (cfg : Configuration) : result Node :=
  match cfg_nodes cfg with
  | first :: _ =>
      Ok (mkNode (mkInfo (cfg_node_name cfg) (cfg_node_type cfg) (metadata_version env)
                         first None) None)
  | [] => Raise (OtherError "list index out of range")
  end.

(** [filter_node is None or filter_node == {} or key in filter_node]. *)
Definition selects (f : filter_node) (key : string) : bool :=
  match f with
  | FilterNone => true
  | FilterDict [] => true
  | FilterDict keys => bool_decide (key ∈ keys)
  | FilterList names => bool_decide (key ∈ names)
  end.

(** [filter_node is None or self.configuration['node_name'] in filter_node]. *)
Definition includes_master (f : filter_node) (node_name : string) : bool :=
  match f with
  | FilterNone => true
  | FilterDict keys => bool_decide (node_name ∈ keys)
  | FilterList names => bool_decide (node_name ∈ names)
  end.

(** [d.update({k: v})] on a dictionary kept in insertion order. *)
Fixpoint update (k : string) (v : Node) (d : list (string * Node)) : list (string * Node) :=
  match d with
  | [] => [(k, v)]
  | (k', v') :: r => if decide (k' = k) then (k, v) :: r else (k', v') :: update k v r
  end.

(** The body of the loop over the nodes of the answer. *)
Definition complete (env : Env) (node_name : string) (d : Node) : result Node :=
  let i := mkInfo (info_name (info d)) (info_type (info d)) (info_version (info d))
                  (info_ip (info d)) (Some (active_agents env node_name)) in
  if decide (info_type i ≠ "master") then
    match status d with
    | None => Raise (KeyError "status")
    | Some st =>
        match status_last_keep_alive st with
        | Timestamp t =>
            Ok (mkNode i (Some (mkStatus (status_sync_integrity_free st)
                                         (status_last_sync_integrity st)
                                         (status_sync_agentinfo_free st)
                                         (status_last_sync_agentinfo st)
                                         (status_sync_extravalid_free st)
                                         (status_last_sync_agentgroups st)
                                         (Text (fromtimestamp env t)))))
        | Text _ => Raise (TypeError "an integer is required (got type str)")
        end
    end
  else Ok (mkNode i (status d)).

Fixpoint complete_all (env : Env) (d : list (string * Node))
  : result (list (string * Node)) :=
  match d with
  | [] => Ok []
  | (node_name, v) :: r =>
      match complete env node_name v with
      | Raise e => Raise e
      | Ok v' =>
          match complete_all env r with
          | Raise e => Raise e
          | Ok r' => Ok ((node_name, v') :: r')
          end
      end
  end.

(** [Master.get_health]: [clients] is the dictionary of the connected
    workers, in insertion order; the answer is [n_connected_nodes] and
    [nodes]. *)
Definition get_health (env : Env) (cfg : Configuration)
    (clients : list (string * MasterHandler)) (f : filter_node)
  : result (nat * list (string * Node)) :=
  let workers_info :=
    (λ kv, (kv.1, to_dict kv.2)) <$> filter (λ kv, selects f kv.1 = true) clients in
  let n_connected_nodes := length workers_info in
  match (if includes_master f (cfg_node_name cfg) then
           match master_to_dict env cfg with
           | Ok m => Ok (update (cfg_node_name cfg) m workers_info)
           | Raise e => Raise e
           end
         else Ok workers_info) with
  | Raise e => Raise e
  | Ok workers_info' =>
      match complete_all env workers_info' with
      | Raise e => Raise e
      | Ok nodes => Ok (n_connected_nodes, nodes)
      end
  end.

(** The entry of a connected worker in the answer. *)
Definition worker_entry (env : Env) (key : string) (h : MasterHandler) : Node :=
  mkNode (mkInfo (name h) (node_type h) (version h) (ip h) (Some (active_agents env key)))
         (Some (mkStatus (sync_integrity_free h) (sync_integrity_status h)
                         (sync_agent_info_free h) (sync_agent_info_status h)
                         (sync_extra_valid_free h) (sync_extra_valid_status h)
                         (if decide (node_type h ≠ "master")
                          then Text (fromtimestamp env (last_keepalive h))
                          else Timestamp (last_keepalive h)))).

End Health.

Module Scanner.
Import Py.

Inductive level := Debug | Error.

(** The master's table of its own files and the lines of the
    [File integrity] logger. *)
Record Master := mkMaster {
  integrity_control : gmap string string;
  log : list (level * string)
}.

(** [Master.__init__]. *)
Definition init : Master := mkMaster ∅ [].

(** One turn of the loop of [Master.file_status_update];
    [files_status] is what [cluster.get_files_status] gives this time. *)
Definition file_status_update_turn (m : Master) (files_status : result (gmap string string))
  : Master :=
  let m1 := mkMaster (integrity_control m) (log m ++ [(Debug, "Calculating")]) in
  let m2 :=
    match files_status with
    | Ok table => mkMaster table (log m1)
    | Raise e =>
        mkMaster (integrity_control m1)
                 (log m1 ++ [(Error, "Error calculating file integrity: " +:+ exn_str e)])
    end in
  mkMaster (integrity_control m2) (log m2 ++ [(Debug, "Calculated.")]).

(** The loop, for the readings of as many turns. *)
Definition file_status_update (m : Master) (readings : list (result (gmap string string)))
  : Master :=
  foldl file_status_update_turn m readings.

(** The tables among the readings. *)
Definition tables (readings : list (result (gmap string string)))
  : list (gmap string string) :=
  omap (λ r, match r with Ok t => Some t | Raise _ => None end) readings.

Definition failed (r : result (gmap string string)) : bool :=
  match r with Ok _ => false | Raise _ => true end.

Definition failures (readings : list (result (gmap string string))) : nat :=
  length (filter (λ r, failed r = true) readings).

End Scanner.

Module Rbac.
Import Py.

(** The two sets a user's permissions give for a resource type:
    [{'allow': ..., 'deny': ...}]. *)
Record Permission := mkPermission {
  allow : gset string;
  deny : gset string
}.

(** The permissions of a user for an action, by resource type. *)
Abbreviation odict := (gmap string Permission).

(** The key ['allow'] or ['deny']. *)
Inductive effect := Allow | Deny.

Definition get_effect (key_effect : effect) (p : Permission) : gset string :=
  match key_effect with Allow => allow p | Deny => deny p end.

Definition set_effect (key_effect : effect) (s : gset string) (p : Permission) : Permission :=
  match key_effect with
  | Allow => mkPermission s (deny p)
  | Deny => mkPermission (allow p) s
  end.

(** [s.remove(x)]: a [KeyError] when [x] is not in the set. *)
Definition set_remove (x : string) (s : gset string) : result (gset string) :=
  if decide (x ∈ s) then Ok (s ∖ {[x]}) else Raise (KeyError x).

(** [_update_set]: the elements of [to_add] that the opposite set does
    not hold are added to the set [key_effect] of [odict[index]], after
    ['*'] has been removed from it when [remove] is set. *)
Definition _update_set (index : string) (key_effect : effect) (to_add : gset string)
    (od : odict) (remove_star : bool) : result odict :=
  let op_key := match key_effect with Allow => Deny | Deny => Allow end in
  match od !! index with
  | None => Raise (KeyError index)
  | Some p =>
      match (if remove_star then set_remove "*" (get_effect key_effect p) else Ok (get_effect key_effect p)) with
      | Raise e => Raise e
      | Ok s =>
          Ok (<[index := set_effect key_effect
                           (s ∪ filter (λ element, element ∉ get_effect op_key p) to_add) p]>
                od)
      end
  end.

(** [_normalization]: the lists become sets (they are sets here), and a
    missing [key] gets two empty sets. *)
Definition _normalization (key : string) (permissions : odict) : odict :=
  match permissions !! key with
  | Some _ => permissions
  | None => <[key := mkPermission ∅ ∅]> permissions
  end.

(** [_role_expand_permissions]; [roles_ids] are the identifiers of the
    roles that exist.  The loop over the keys acts on ['role:id'] only. *)
Definition _role_expand_permissions (roles_ids : gset string) (mode : bool) (od : odict)
  : result odict :=
  let od1 := _normalization "role:id" od in
  match (match od1 !! "role:id" with
         | None => Ok od1
         | Some p =>
             if decide ("*" ∈ allow p) then _update_set "role:id" Allow roles_ids od1 true
             else _update_set "role:id" Deny roles_ids od1 true
         end) with
  | Raise e => Raise e
  | Ok od2 =>
      if mode then _update_set "role:id" Allow roles_ids od2 false
      else _update_set "role:id" Deny roles_ids od2 false
  end.

(** [user_resources[action]['allow'] - user_resources[action]['deny']]. *)
Definition granted (p : Permission) : gset string := allow p ∖ deny p.

End Rbac.

(* ================================================================== *)
(** * Properties *)

Section MonadProperties.
Import Py.

Lemma bind_run {S A B} (m : M S A) (k : A → M S B) s :
  (m ≫= k) s = match m s with
               | (s', Ok a) => k a s'
               | (s', Raise e) => (s', Raise e)
               end.
Proof. reflexivity. Qed.

Lemma bind_modify {S B} (f : S → S) (k : () → M S B) s :
  (modify f ≫= k) s = k () (f s).
Proof. reflexivity. Qed.

Lemma bind_lift {S A B} (r : result A) (k : A → M S B) s :
  (lift r ≫= k) s = match r with Ok a => k a s | Raise e => (s, Raise e) end.
Proof. by destruct r. Qed.

End MonadProperties.

Section LaneProperties.
Import Py Lanes.

Lemma run_snoc h tr e : run h (tr ++ [e]) = step (run h tr) e.
Proof. unfold run. by rewrite foldl_snoc. Qed.

Lemma run_cons h tr e : run h (e :: tr) = run (step h e) tr.
Proof. reflexivity. Qed.

(** The dispatch, by the kind of the command. *)
Lemma process_request_cases c d h :
  (∃ l, c = permission_cmd l
        ∧ process_request c d h = (h, Some (Ok ("ok", str_bool (free l h)))))
  ∨ (∃ l, c = setup_cmd l
          ∧ process_request c d h =
              ((setup_receive_file (Some l) (set_free l false h)).1,
               Some (setup_receive_file (Some l) (set_free l false h)).2))
  ∨ (∃ l, c = error_cmd l
          ∧ process_request c d h = (set_free l true h, Some (Ok ("ok", "Error received"))))
  ∨ ((∀ l, c ≠ permission_cmd l ∧ c ≠ setup_cmd l ∧ c ≠ error_cmd l)
     ∧ process_request c d h = (h, None)).
Proof.
  destruct (decide (c = "sync_i_w_m_p")) as [->|?]; [left; by exists Integrity|].
  destruct (decide (c = "sync_e_w_m_p")) as [->|?]; [left; by exists ExtraValid|].
  destruct (decide (c = "sync_a_w_m_p")) as [->|?]; [left; by exists AgentInfo|].
  destruct (decide (c = "sync_i_w_m")) as [->|?]; [right; left; by exists Integrity|].
  destruct (decide (c = "sync_e_w_m")) as [->|?]; [right; left; by exists ExtraValid|].
  destruct (decide (c = "sync_a_w_m")) as [->|?]; [right; left; by exists AgentInfo|].
  destruct (decide (c = "sync_i_w_m_r")) as [->|?]; [right; right; left; by exists Integrity|].
  destruct (decide (c = "sync_e_w_m_r")) as [->|?]; [right; right; left; by exists ExtraValid|].
  destruct (decide (c = "sync_a_w_m_r")) as [->|?]; [right; right; left; by exists AgentInfo|].
  right; right; right. split; [by intros []|].
  unfold process_request. by rewrite !bool_decide_eq_false_2.
Qed.

(** The flag of a lane after one event: a setup command of the lane
    clears it, a release of the lane sets it, anything else keeps it. *)
Lemma free_step l h e :
  free l (step h e) =
    if is_setup l e then false else if is_release l e then true else free l h.
Proof.
  destruct e as [c d|t cls]; simpl.
  - destruct (process_request_cases c d h)
      as [(l0 & -> & ->)|[(l0 & -> & ->)|[(l0 & -> & ->)|(Hno & ->)]]].
    + by destruct l, l0.
    + by destruct l, l0.
    + by destruct l, l0.
    + destruct (Hno l) as (_ & ? & ?). by rewrite !bool_decide_eq_false_2.
  - unfold done_callback. by destruct l, cls.
Qed.

Lemma in_flight_request l h c d :
  in_flight l (process_request c d h).1 =
    if bool_decide (c = setup_cmd l) then S (in_flight l h) else in_flight l h.
Proof.
  unfold in_flight.
  destruct (process_request_cases c d h)
    as [(l0 & -> & ->)|[(l0 & -> & ->)|[(l0 & -> & ->)|(Hno & ->)]]].
  - by destruct l, l0.
  - by destruct l, l0.
  - by destruct l, l0.
  - destruct (Hno l) as (_ & ? & _). by rewrite bool_decide_eq_false_2.
Qed.

Lemma tasks_set_free l b h : sync_tasks (set_free l b h) = sync_tasks h.
Proof. by destruct l. Qed.

Lemma next_task_set_free l b h : next_task (set_free l b h) = next_task h.
Proof. by destruct l. Qed.

Lemma snoc_split {A} (tr tr1 tr2 : list A) (e x : A) :
  tr ++ [e] = tr1 ++ x :: tr2 →
  (tr2 = [] ∧ tr = tr1 ∧ e = x) ∨ (∃ tr2', tr2 = tr2' ++ [e] ∧ tr = tr1 ++ x :: tr2').
Proof.
  destruct tr2 as [|y tr2' _] using rev_ind; intros Heq.
  - left. apply app_inj_tail in Heq as [-> ->]. done.
  - right. exists tr2'.
    change (tr1 ++ x :: tr2' ++ [y]) with (tr1 ++ (x :: tr2') ++ [y]) in Heq.
    rewrite (assoc_L (++)) in Heq.
    apply app_inj_tail in Heq as [-> ->]. done.
Qed.

Lemma is_setup_request l e :
  is_setup l e = true → ∃ d, e = Request (setup_cmd l) d.
Proof.
  destruct e as [c d|]; simpl; [|done].
  intros ->%bool_decide_eq_true. eauto.
Qed.

Lemma setup_not_release l d : is_release l (Request (setup_cmd l) d) = false.
Proof. by destruct l. Qed.

(** A lane is busy exactly when the trace has a setup command of the
    lane with no release of the lane after it. *)
Lemma busy_iff_setup_unreleased l tr :
  free l (run init tr) = false ↔
  ∃ tr1 d tr2, tr = tr1 ++ Request (setup_cmd l) d :: tr2
               ∧ Forall (λ e, is_release l e = false) tr2.
Proof.
  induction tr as [|e tr IH] using rev_ind.
  - split; [by destruct l|]. intros (tr1 & d & tr2 & Heq & _). by destruct tr1.
  - rewrite run_snoc, free_step.
    destruct (is_setup l e) eqn:Hs.
    + split; [intros _|done].
      apply is_setup_request in Hs as [d ->]. exists tr, d, []. by split.
    + destruct (is_release l e) eqn:Hr.
      * split; [done|]. intros (tr1 & d & tr2 & Heq & Hall).
        apply snoc_split in Heq as [(-> & -> & ->)|(tr2' & -> & ->)].
        -- by rewrite setup_not_release in Hr.
        -- apply Forall_app in Hall as [_ Hall].
           rewrite Forall_singleton in Hall. congruence.
      * rewrite IH. split.
        -- intros (tr1 & d & tr2 & -> & Hall). exists tr1, d, (tr2 ++ [e]).
           split; [by rewrite <- (assoc_L (++))|].
           apply Forall_app. split; [done|]. by apply Forall_singleton.
        -- intros (tr1 & d & tr2 & Heq & Hall).
           apply snoc_split in Heq as [(-> & -> & ->)|(tr2' & -> & ->)].
           ++ by destruct l.
           ++ apply Forall_app in Hall as [Hall _]. eauto.
Qed.

Lemma single_flight_init : single_flight init.
Proof. split_and!; [by inversion 1|by inversion 1|by intros []]. Qed.

Lemma filter_filter_keep {A} (P Q : A → Prop)
    `{!∀ x, Decision (P x), !∀ x, Decision (Q x)} (l : list A) :
  (∀ x, x ∈ l → P x → Q x) → filter P (filter Q l) = filter P l.
Proof.
  induction l as [|a l IH]; intros Himp; [done|].
  assert (filter P (filter Q l) = filter P l) as IH'.
  { apply IH. intros x Hx. apply Himp. by right. }
  rewrite (filter_cons Q). destruct (decide (Q a)) as [Hq|Hq].
  - rewrite !filter_cons. by rewrite IH'.
  - rewrite IH'. rewrite filter_cons_False; [done|].
    intros Hp. apply Hq, Himp; [left|done].
Qed.

Lemma filter_filter_none {A} (P Q : A → Prop)
    `{!∀ x, Decision (P x), !∀ x, Decision (Q x)} (l : list A) :
  (∀ x, x ∈ l → P x → ¬ Q x) → filter P (filter Q l) = [].
Proof.
  intros Himp. destruct (filter P (filter Q l)) as [|y k] eqn:Heq; [done|].
  assert (y ∈ filter P (filter Q l)) as Hy by (rewrite Heq; left).
  apply list_elem_of_filter in Hy as [Hp Hy].
  apply list_elem_of_filter in Hy as [Hq Hy].
  by destruct (Himp y Hy Hp).
Qed.

Lemma request_tasks c d h :
  let h' := (process_request c d h).1 in
  (∃ l, c = setup_cmd l ∧ sync_tasks h' = (next_task h, l) :: sync_tasks h
        ∧ next_task h' = S (next_task h))
  ∨ ((∀ l, c ≠ setup_cmd l) ∧ sync_tasks h' = sync_tasks h
     ∧ next_task h' = next_task h).
Proof.
  simpl.
  destruct (process_request_cases c d h)
    as [(l0 & -> & ->)|[(l0 & -> & ->)|[(l0 & -> & ->)|(Hno & ->)]]].
  - right. split; [by destruct l0; intros []|done].
  - left. exists l0. by destruct l0.
  - right. split; [by destruct l0; intros []|by destruct l0].
  - right. split; [|done]. intros l. by destruct (Hno l) as (_ & ? & _).
Qed.

Lemma well_behaved_cons h e tr :
  well_behaved h (e :: tr) = true →
  well_behaved h [e] = true ∧ well_behaved (step h e) tr = true.
Proof.
  simpl. rewrite !andb_true_iff. intros [He Htr]. by repeat split.
Qed.

Lemma well_behaved_request h c d l :
  well_behaved h [Request c d] = true →
  (c = setup_cmd l → free l h = true) ∧ c ≠ error_cmd l.
Proof.
  simpl. rewrite !andb_true_iff, !orb_true_iff, !negb_true_iff,
    !bool_decide_eq_false.
  intros [(([H1|H1] & H1') & ([H2|H2] & H2') & ([H3|H3] & H3') & _) _];
    destruct l; naive_solver.
Qed.

Lemma single_flight_request h c d :
  single_flight h → well_behaved h [Request c d] = true →
  single_flight (process_request c d h).1.
Proof.
  intros (Hb & Hu & Hc) Hwb.
  destruct (request_tasks c d h) as [(l0 & -> & Ht & Hn)|(Hno & Ht & Hn)].
  - split_and!.
    + intros x. rewrite Ht, Hn.
      intros [->|Hx]%elem_of_cons; simpl; [lia|]. specialize (Hb x Hx). lia.
    + intros t l1 l2. rewrite Ht.
      intros [[= -> ->]|H1]%elem_of_cons [[= ?]|H2]%elem_of_cons; simplify_eq; try done.
      * specialize (Hb _ H2). simpl in Hb. lia.
      * specialize (Hb _ H1). simpl in Hb. lia.
      * eauto.
    + intros l. rewrite in_flight_request.
      change (process_request (setup_cmd l0) d h).1
        with (step h (Request (setup_cmd l0) d)).
      rewrite free_step. simpl. rewrite Hc.
      destruct (well_behaved_request h _ d l Hwb) as [Hfree Hne].
      case_bool_decide as Heq.
      * by rewrite Hfree.
      * rewrite bool_decide_eq_false_2; done.
  - split_and!.
    + intros x. rewrite Ht, Hn. apply Hb.
    + intros t l1 l2. rewrite Ht. apply Hu.
    + intros l. rewrite in_flight_request.
      change (process_request c d h).1 with (step h (Request c d)).
      rewrite free_step. simpl.
      destruct (well_behaved_request h _ d l Hwb) as [Hfree Hne].
      rewrite !bool_decide_eq_false_2; [apply Hc|done|apply Hno].
Qed.

Lemma single_flight_done h t cls :
  single_flight h → (t, cls) ∈ sync_tasks h →
  single_flight (done_callback t cls h).
Proof.
  intros (Hb & Hu & Hc) Hin. unfold done_callback.
  assert (∀ x, x ∈ filter (λ y, y.1 ≠ t) (sync_tasks h) → x ∈ sync_tasks h) as Hsub.
  { intros x Hx. by apply list_elem_of_filter in Hx as [_ ?]. }
  split_and!.
  - intros x. rewrite tasks_set_free, next_task_set_free. simpl.
    intros Hx. apply Hb. by apply Hsub.
  - intros t' l1 l2. rewrite tasks_set_free. simpl. intros H1 H2.
    eapply Hu; by apply Hsub.
  - intros l. unfold in_flight. rewrite tasks_set_free. simpl.
    destruct (decide (l = cls)) as [->|Hne].
    + replace (free cls (set_free cls true (base_done_callback t h))) with true
        by (by destruct cls).
      rewrite filter_filter_none; [done|].
      intros [t' l'] Hx ? Hnt; simplify_eq/=.
      assert (in_flight cls h = 1%nat) as Hone.
      { specialize (Hc cls). destruct (free cls h); [|done].
        assert ((t, cls) ∈ filter (λ x, x.2 = cls) (sync_tasks h)) as Hf
          by (by apply list_elem_of_filter).
        unfold in_flight in Hc. apply nil_length_inv in Hc.
        rewrite Hc in Hf. by inversion Hf. }
      unfold in_flight in Hone.
      destruct (filter (λ x, x.2 = cls) (sync_tasks h)) as [|y [|z k]] eqn:Hf;
        simplify_eq/=.
      assert ((t, cls) ∈ [y]) as Hy%list_elem_of_singleton
        by (rewrite <- Hf; by apply list_elem_of_filter).
      assert ((t', cls) ∈ [y]) as Hy'%list_elem_of_singleton
        by (rewrite <- Hf; by apply list_elem_of_filter).
      congruence.
    + replace (free l (set_free cls true (base_done_callback t h))) with (free l h)
        by (by destruct l, cls).
      rewrite filter_filter_keep; [apply Hc|].
      intros [t' l'] Hx ? ?; simplify_eq/=.
      apply Hne. eapply Hu; eauto.
Qed.

Lemma single_flight_run tr : ∀ h,
  single_flight h → well_behaved h tr = true → single_flight (run h tr).
Proof.
  induction tr as [|e tr IH]; intros h Hinv Hwb; [done|].
  apply well_behaved_cons in Hwb as [He Htr].
  rewrite run_cons. apply IH; [|done].
  destruct e as [c d|t cls].
  - by apply single_flight_request.
  - apply single_flight_done; [done|].
    simpl in He. rewrite andb_true_r in He. by apply bool_decide_eq_true in He.
Qed.

(** C1, as the spec states it, fails on the code: the setup call never
    looks at the flag, so a setup command sent while the lane is busy
    (here even after a permission check that answered [False]) is
    accepted and a second receive task of the lane is started. *)
Lemma setup_while_busy_starts_second_task :
  let h1 := run init [Request "sync_i_w_m" ""] in
  (process_request "sync_i_w_m_p" "" h1).2 = Some (Ok ("ok", "False")) ∧
  let h2 := run h1 [Request "sync_i_w_m_p" ""; Request "sync_i_w_m" ""] in
  (process_request "sync_i_w_m" "" h1).2 = Some (Ok ("ok", "1")) ∧
  in_flight Integrity h2 = 2%nat ∧
  free Integrity (run h2 [TaskDone 0 Integrity]) = true ∧
  in_flight Integrity (run h2 [TaskDone 0 Integrity]) = 1%nat.
Proof. vm_compute. done. Qed.

(** C1 (amended).  For every lane and every sequence of commands and
    task callbacks of a session: the lane's free flag is False exactly
    when the sequence has a setup command of the lane with no completion
    callback or error report of the lane after it; the permission check
    answers with the flag and changes nothing; the setup call never
    rejects, it clears the flag and starts one more receive task whatever
    the flag was; and for a worker that sends setup only while the flag is
    True and sends no error report, each lane has no receive task while
    free and exactly one while busy. *)
Theorem lane_busy_interval_and_single_flight :
  (∀ tr l, free l (run init tr) = false ↔
     ∃ tr1 d tr2, tr = tr1 ++ Request (setup_cmd l) d :: tr2
                  ∧ Forall (λ e, is_release l e = false) tr2) ∧
  (∀ h l d, process_request (permission_cmd l) d h
            = (h, Some (Ok ("ok", str_bool (free l h))))) ∧
  (∀ h l d, ∃ h' t, process_request (setup_cmd l) d h = (h', Some (Ok ("ok", t)))
                    ∧ free l h' = false
                    ∧ in_flight l h' = S (in_flight l h)) ∧
  (∀ tr, well_behaved init tr = true →
     ∀ l, in_flight l (run init tr) = if free l (run init tr) then 0%nat else 1%nat).
Proof.
  split_and!.
  - intros tr l. apply busy_iff_setup_unreleased.
  - by intros h [] d.
  - intros h l d.
    destruct (process_request (setup_cmd l) d h) as [h' r] eqn:Hreq.
    pose proof (in_flight_request l h (setup_cmd l) d) as Hin.
    pose proof (free_step l h (Request (setup_cmd l) d)) as Hfree.
    simpl in Hfree. rewrite Hreq in Hin, Hfree. simpl in Hin, Hfree.
    rewrite bool_decide_eq_true_2 in Hin, Hfree by done.
    destruct l; vm_compute in Hreq; simplify_eq; eauto.
  - intros tr Hwb.
    by destruct (single_flight_run tr init single_flight_init Hwb) as (_ & _ & Hc).
Qed.

(** A protocol-following run: permission, setup, a refused permission,
    completion, permission again. *)
Lemma lane_busy_interval_and_single_flight_witness :
  let tr := [Request "sync_a_w_m_p" ""; Request "sync_a_w_m" "";
             Request "sync_a_w_m_p" ""; TaskDone 0 AgentInfo] in
  well_behaved init tr = true ∧
  ∀ l, in_flight l (run init tr) = if free l (run init tr) then 0%nat else 1%nat.
Proof.
  split; [reflexivity|].
  apply (proj2 (proj2 (proj2 lane_busy_interval_and_single_flight))).
  reflexivity.
Defined.

End LaneProperties.

Section DapiProperties.
Import Py Dapi.

Lemma split1_join a b :
  has_char " " a = false → split1 (a +:+ " " +:+ b) = [a; b].
Proof.
  induction a as [|c a IH]; simpl; [done|].
  case_decide; [done|]. intros Ha. by rewrite IH.
Qed.

Lemma process_dapi_res_pending in_str m req_id string_id p payload :
  has_char " " req_id = false →
  pending_api_requests m !! req_id = Some p →
  in_str !! string_id = Some payload →
  process_dapi_res in_str (req_id +:+ " " +:+ string_id) m =
    (mkMaster (<[req_id := mkPending (Event p) payload]> (pending_api_requests m))
              (<[Event p := true]> (events m))
              (clients m) (local_clients m) (forwarded m),
     Ok ("ok", "Forwarded response")).
Proof.
  intros Hsp Hp Hs. unfold process_dapi_res.
  by rewrite split1_join, Hp, Hs.
Qed.

(** C2, as the spec states it, fails on the code: nothing removes or
    marks a resolved entry, so a second response for the same id is
    processed like the first and replaces the stored payload; a caller
    that resumes after it reads the second payload. *)
Lemma second_dapi_res_overwrites_response :
  let in_str : gmap string string := {["s1" := "first"; "s2" := "second"]} in
  let m0 := (execute_begin "dapi" "{}" 5 (init [] ∅)).1 in
  let m1 := (process_dapi_res in_str "5 s1" m0).1 in
  let m2 := (process_dapi_res in_str "5 s2" m1).1 in
  (execute_begin "dapi" "{}" 5 (init [] ∅)).2 = Ok ("5", [(None, "5 {}")]) ∧
  (process_dapi_res in_str "5 s2" m1).2 = Ok ("ok", "Forwarded response") ∧
  m2 ≠ m1 ∧
  execute_end "dapi" "5" false "" m2 = Some (Ok "second").
Proof.
  split_and!; try (vm_compute; reflexivity).
  intros Heq.
  apply (f_equal (λ m, Response <$> pending_api_requests m !! "5")) in Heq.
  vm_compute in Heq. discriminate.
Qed.

(** C2 (amended).  A pending request can be resolved more than once: a
    second response for a correlation id that is still registered does
    not crash and is processed exactly like the first; it sets the
    (already set) event and overwrites the response slot with the second
    payload, so it changes nothing only when both payloads are equal.  A
    caller that resumes between the two deliveries reads the first
    payload, a caller that resumes after the second reads the second. *)
Theorem dapi_res_twice_overwrites
    (in_str : gmap string string) (m : Master) (req_id s1 s2 p1 p2 : string)
    (p : PendingRequest) :
  has_char " " req_id = false →
  pending_api_requests m !! req_id = Some p →
  in_str !! s1 = Some p1 →
  in_str !! s2 = Some p2 →
  let m1 := (process_dapi_res in_str (req_id +:+ " " +:+ s1) m).1 in
  let m2 := (process_dapi_res in_str (req_id +:+ " " +:+ s2) m1).1 in
  (process_dapi_res in_str (req_id +:+ " " +:+ s2) m1).2
    = Ok ("ok", "Forwarded response") ∧
  pending_api_requests m2 !! req_id = Some (mkPending (Event p) p2) ∧
  events m2 !! Event p = Some true ∧
  execute_end "dapi" req_id false "" m1 = Some (Ok p1) ∧
  execute_end "dapi" req_id false "" m2 = Some (Ok p2) ∧
  (m2 = m1 ↔ p2 = p1).
Proof.
  intros Hsp Hp Hs1 Hs2 m1 m2.
  assert (pending_api_requests m1 !! req_id = Some (mkPending (Event p) p1)
          ∧ events m1 !! Event p = Some true) as [Hp1 He1].
  { subst m1. rewrite (process_dapi_res_pending _ _ _ _ p p1) by done.
    simpl. by rewrite !lookup_insert_eq. }
  assert (process_dapi_res in_str (req_id +:+ " " +:+ s2) m1 =
          (mkMaster (<[req_id := mkPending (Event p) p2]> (pending_api_requests m1))
                    (<[Event p := true]> (events m1))
                    (clients m1) (local_clients m1) (forwarded m1),
           Ok ("ok", "Forwarded response"))) as Hsecond.
  { by rewrite (process_dapi_res_pending _ _ _ _ (mkPending (Event p) p1) p2). }
  assert (pending_api_requests m2 !! req_id = Some (mkPending (Event p) p2)
          ∧ events m2 !! Event p = Some true) as [Hp2 He2].
  { subst m2. rewrite Hsecond. simpl. by rewrite !lookup_insert_eq. }
  split_and!; try done.
  - by rewrite Hsecond.
  - unfold execute_end. simpl. rewrite Hp1. simpl. by rewrite He1.
  - unfold execute_end. simpl. rewrite Hp2. simpl. by rewrite He2.
  - split.
    + intros Heq. rewrite Heq, Hp1 in Hp2. congruence.
    + intros ->. subst m2. rewrite Hsecond. simpl.
      rewrite !insert_id by done. by destruct m1.
Qed.

(** The theorem at a concrete registry: one call registered under id
    [7], two deliveries. *)
Lemma dapi_res_twice_overwrites_witness :
  let in_str : gmap string string := {["a" := "one"; "b" := "two"]} in
  let m0 := (execute_begin "dapi" "{}" 7 (init [] ∅)).1 in
  let m1 := (process_dapi_res in_str "7 a" m0).1 in
  let m2 := (process_dapi_res in_str "7 b" m1).1 in
  execute_end "dapi" "7" false "" m1 = Some (Ok "one") ∧
  execute_end "dapi" "7" false "" m2 = Some (Ok "two").
Proof.
  intros in_str m0 m1 m2.
  pose proof (dapi_res_twice_overwrites in_str m0 "7" "a" "b" "one" "two"
                (mkPending (new_event (init [] ∅)) "")
                eq_refl eq_refl eq_refl eq_refl) as (_ & _ & _ & H1 & H2 & _).
  split; [exact H1|exact H2].
Defined.

(** C9.  The correlation id is the decimal text of one of the 1024
    integers 0..1023, two draws can give the same id, and registration
    stores a new event and an empty response slot under the id whatever
    was registered there: an entry still pending under that id is
    replaced. *)
Theorem request_id_small_range_and_overwrite :
  (∀ r, draw_request_id r ∈ (pretty <$> seqZ 0 1024)) ∧
  length (pretty <$> seqZ 0 1024 : list string) = 1024%nat ∧
  (∀ r, draw_request_id (r + 1024) = draw_request_id r) ∧
  (∀ command data r m,
     let m' := (execute_begin command data r m).1 in
     pending_api_requests m'
       = <[draw_request_id r := mkPending (new_event m) ""]> (pending_api_requests m)
     ∧ pending_api_requests m' !! draw_request_id r = Some (mkPending (new_event m) "")
     ∧ events m !! new_event m = None
     ∧ events m' !! new_event m = Some false).
Proof.
  split_and!.
  - intros r. unfold draw_request_id. apply list_elem_of_fmap_2, elem_of_seqZ.
    unfold randint. change (2 ^ 10 - 1 - 0 + 1)%Z with 1024%Z.
    pose proof (Z.mod_pos_bound r 1024). lia.
  - by rewrite length_fmap, length_seqZ.
  - intros r. unfold draw_request_id, randint.
    change (2 ^ 10 - 1 - 0 + 1)%Z with 1024%Z.
    replace (r + 1024)%Z with (r + 1 * 1024)%Z by lia.
    by rewrite Z.mod_add.
  - intros command data r m m'.
    assert (pending_api_requests m'
       = <[draw_request_id r := mkPending (new_event m) ""]> (pending_api_requests m)
       ∧ events m' = <[new_event m := false]> (events m)) as [Hp He].
    { subst m'. unfold execute_begin.
      repeat (case_decide || case_match); done. }
    rewrite Hp, He, !lookup_insert_eq. split_and!; try done.
    apply (not_elem_of_dom (D := gset nat)). unfold new_event. apply is_fresh.
Qed.

End DapiProperties.

Section HelloProperties.
Import Py Hello.

Lemma hello_unfold env data h dirs n cn nt ver h0 cmd payload :
  split data = [n; cn; nt; ver] →
  super_hello env n h = (h0, Ok (cmd, payload)) →
  let h1 := mkHandler (name h0) ver cn nt lane_loggers in
  hello env data h dirs =
    if decide (cn ≠ configuration_name env) then
      (h1, dirs, Raise (WazuhException 3030 ""))
    else if decide (ver ≠ metadata_version env) then
      (h1, dirs, Raise (WazuhException 3031 ""))
    else if bool_decide (cmd = "ok") && negb (bool_decide (worker_dir env h1 ∈ dirs)) then
      (h1, mkdir_with_mode (worker_dir env h1) dirs, Ok (cmd, payload))
    else (h1, dirs, Ok (cmd, payload)).
Proof.
  intros Hsplit Hbase. unfold hello. rewrite Hsplit, Hbase. simpl.
  repeat case_decide; done.
Qed.

(** C8, as the spec states it, fails on the code: when the cluster name
    and the version both differ the worker is rejected with the
    cluster-name error, so a differing version does not always give the
    version error. *)
Lemma hello_both_mismatch_reports_cluster_name :
  let env := mkEnv "/var/ossec" "wazuh" "3.9.0" accepting_hello in
  "3.8.2" ≠ metadata_version env ∧
  (hello env "w1 other worker 3.8.2" init ∅).2 = Raise (WazuhException 3030 "") ∧
  (hello env "w1 other worker 3.8.2" init ∅).2 ≠ Raise (WazuhException 3031 "").
Proof. split_and!; [done|by vm_compute|by vm_compute]. Qed.

(** C8 (amended).  For a handshake of four fields whose name the base
    handshake accepts: hello rejects with the cluster-name error (3030)
    exactly when the worker's cluster name differs from the configured
    one, and with the version error (3031) exactly when the cluster name
    matches and the worker's version differs from the master's; when both
    match it stores the three lane loggers, returns the acknowledgement of
    the base handshake and, when that acknowledgement is [ok], the
    worker's directory exists afterwards. *)
Theorem hello_outcome env data h dirs n cn nt ver h0 cmd payload h' dirs' r :
  split data = [n; cn; nt; ver] →
  super_hello env n h = (h0, Ok (cmd, payload)) →
  hello env data h dirs = (h', dirs', r) →
  (r = Raise (WazuhException 3030 "") ↔ cn ≠ configuration_name env) ∧
  (r = Raise (WazuhException 3031 "")
     ↔ cn = configuration_name env ∧ ver ≠ metadata_version env) ∧
  (cn = configuration_name env → ver = metadata_version env →
     r = Ok (cmd, payload) ∧ task_loggers h' = lane_loggers ∧
     task_loggers h' !! "Integrity" = Some (TaskLogger "Integrity") ∧
     task_loggers h' !! "Extra valid" = Some (TaskLogger "Extra valid") ∧
     task_loggers h' !! "Agent info" = Some (TaskLogger "Agent info") ∧
     dirs ⊆ dirs' ∧ (cmd = "ok" → worker_dir env h' ∈ dirs')).
Proof.
  intros Hsplit Hbase. rewrite (hello_unfold _ _ _ _ _ _ _ _ _ _ _ Hsplit Hbase).
  simpl.
  destruct (decide (cn ≠ configuration_name env)) as [Hcn|Hcn].
  { intros [= <- <- <-]. split; [done|]. split; [|done].
    split; [discriminate|by intros [Hx Hy]]. }
  apply dec_stable in Hcn.
  destruct (decide (ver ≠ metadata_version env)) as [Hv|Hv].
  { intros [= <- <- <-]. split; [|split; [done|done]].
    split; [discriminate|done]. }
  apply dec_stable in Hv.
  assert (
    (Ok (cmd, payload) = Raise (WazuhException 3030 "") ↔ cn ≠ configuration_name env) ∧
    (Ok (cmd, payload) = Raise (WazuhException 3031 "")
       ↔ cn = configuration_name env ∧ ver ≠ metadata_version env)) as [Hno1 Hno2].
  { split; (split; [discriminate|]); [done|by intros [_ ?]]. }
  case_bool_decide as Hcmd; simpl.
  - case_bool_decide as Hin; simpl; intros [= <- <- <-];
      (split; [exact Hno1|split; [exact Hno2|]]); intros _ _;
      unfold mkdir_with_mode; split_and!; try done.
    + apply union_subseteq_r.
    + intros _. apply elem_of_union_l. by apply elem_of_singleton.
  - intros [= <- <- <-].
    split; [exact Hno1|split; [exact Hno2|]]. intros _ _.
    split_and!; done.
Qed.

(** The theorem at a matching handshake. *)
Lemma hello_outcome_witness :
  let env := mkEnv "/var/ossec" "wazuh" "3.9.0" accepting_hello in
  let out := hello env "w1 wazuh worker 3.9.0" init ∅ in
  out.2 = Ok ("ok", "Client w1 added") ∧ worker_dir env out.1.1 ∈ out.1.2.
Proof.
  intros env out.
  assert (hello env "w1 wazuh worker 3.9.0" init ∅ = (out.1.1, out.1.2, out.2)) as Hh.
  { unfold out. by destruct (hello env "w1 wazuh worker 3.9.0" init ∅) as [[h' dirs'] r]. }
  pose proof (hello_outcome env "w1 wazuh worker 3.9.0" init ∅
                "w1" "wazuh" "worker" "3.9.0" _ "ok" "Client w1 added" _ _ _
                eq_refl eq_refl Hh) as (_ & _ & Hok).
  destruct (Hok eq_refl eq_refl) as (Hr & _ & _ & _ & _ & _ & Hdir).
  split; [exact Hr|exact (Hdir eq_refl)].
Defined.

(** C10.  When hello rejects a worker for a cluster-name or version
    mismatch, the session has already been changed: the three lane loggers
    are stored and [version], [cluster_name] and [node_type] hold the
    worker's values; only the worker's directory is not created. *)
Theorem hello_rejection_keeps_assignments env data h dirs n cn nt ver h0 cmd payload :
  split data = [n; cn; nt; ver] →
  super_hello env n h = (h0, Ok (cmd, payload)) →
  cn ≠ configuration_name env ∨ ver ≠ metadata_version env →
  ∃ code, (code = 3030 ∨ code = 3031)%Z ∧
    hello env data h dirs =
      (mkHandler (name h0) ver cn nt lane_loggers, dirs,
       Raise (WazuhException code "")) ∧
    lane_loggers !! "Integrity" = Some (TaskLogger "Integrity") ∧
    lane_loggers !! "Extra valid" = Some (TaskLogger "Extra valid") ∧
    lane_loggers !! "Agent info" = Some (TaskLogger "Agent info").
Proof.
  intros Hsplit Hbase Hmis.
  rewrite (hello_unfold _ _ _ _ _ _ _ _ _ _ _ Hsplit Hbase). simpl.
  destruct (decide (cn ≠ configuration_name env)).
  - exists 3030%Z. split_and!; try done. by left.
  - destruct (decide (ver ≠ metadata_version env)).
    + exists 3031%Z. split_and!; try done. by right.
    + by destruct Hmis.
Qed.

(** The theorem at a handshake with a wrong version, on a fresh session. *)
Lemma hello_rejection_keeps_assignments_witness :
  let env := mkEnv "/var/ossec" "wazuh" "3.9.0" accepting_hello in
  ∃ code, (code = 3030 ∨ code = 3031)%Z ∧
    hello env "w1 wazuh worker 3.8.2" init ∅ =
      (mkHandler "w1" "3.8.2" "wazuh" "worker" lane_loggers, ∅,
       Raise (WazuhException code "")).
Proof.
  intros env.
  destruct (hello_rejection_keeps_assignments env "w1 wazuh worker 3.8.2" init ∅
              "w1" "wazuh" "worker" "3.8.2" _ "ok" "Client w1 added"
              eq_refl eq_refl) as (code & Hcode & Hh & _).
  - right. simpl. discriminate.
  - exists code. split; [done|exact Hh].
Defined.

Example hello_accepts_matching_worker :
  let env := mkEnv "/var/ossec" "wazuh" "3.9.0" accepting_hello in
  hello env "w1 wazuh worker 3.9.0" init ∅ =
  (mkHandler "w1" "3.9.0" "wazuh" "worker"
     (<["Agent info" := TaskLogger "Agent info"]>
        (<["Extra valid" := TaskLogger "Extra valid"]>
           (<["Integrity" := TaskLogger "Integrity"]> ∅))),
   {["/var/ossec/queue/cluster/w1"]} ∪ ∅, Ok ("ok", "Client w1 added")).
Proof. vm_compute. reflexivity. Qed.

End HelloProperties.

Section IntegrityProperties.
Import Py Integrity.

(** *** Relations every step of a computation maintains *)

Section Frame.
Context (R : St → St → Prop) `{!Reflexive R} `{!Transitive R}.

Lemma respects_ret {A} (a : A) : respects R (mret a).
Proof. intros s. simpl. reflexivity. Qed.

Lemma respects_lift {A} (r : result A) : respects R (lift r).
Proof. intros s. simpl. reflexivity. Qed.

Lemma respects_get : respects R get_task_name.
Proof. intros s. simpl. reflexivity. Qed.

Lemma respects_modify f : (∀ s, R s (f s)) → respects R (modify f).
Proof. intros Hf s. apply Hf. Qed.

Lemma respects_bind {A B} (m : M A) (k : A → M B) :
  respects R m → (∀ a, respects R (k a)) → respects R (m ≫= k).
Proof.
  intros Hm Hk s. rewrite bind_run. specialize (Hm s).
  destruct (m s) as [s' [a|e]]; simpl in *; [|done].
  etrans; [exact Hm|apply Hk].
Qed.

Lemma respects_try_except {A} (body : M A) handler :
  respects R body → (∀ e, respects R (handler e)) →
  respects R (try_except body handler).
Proof.
  intros Hb Hh s. unfold try_except. specialize (Hb s).
  destruct (body s) as [s' [a|e]]; simpl in *; [done|].
  etrans; [exact Hb|apply Hh].
Qed.

Lemma respects_try_finally {A} (body : M A) fin :
  respects R body → respects R fin → respects R (try_finally body fin).
Proof.
  intros Hb Hf s. unfold try_finally. specialize (Hb s).
  destruct (body s) as [s' r]. specialize (Hf s').
  destruct (fin s') as [s'' [[]|e]]; simpl in *; by etrans.
Qed.
End Frame.

Local Instance same_end_date_refl : Reflexive same_end_date.
Proof. by intros s. Qed.
Local Instance same_end_date_trans : Transitive same_end_date.
Proof. unfold same_end_date. intros s1 s2 s3 H1 H2. congruence. Qed.

Local Instance grows_by_refl P : Reflexive (grows_by P).
Proof. intros s. exists []. by rewrite app_nil_r. Qed.
Local Instance grows_by_trans P : Transitive (grows_by P).
Proof.
  intros s1 s2 s3 (n1 & H1 & F1) (n2 & H2 & F2). exists (n1 ++ n2).
  split; [by rewrite H2, H1, (assoc_L (++))|by apply Forall_app].
Qed.

Ltac frame_step :=
  lazymatch goal with
  | |- respects _ (mret _) => apply respects_ret; tc_solve
  | |- respects _ (lift _) => apply respects_lift; tc_solve
  | |- respects _ get_task_name => apply respects_get; tc_solve
  | |- respects _ (_ ≫= _) => apply respects_bind; [tc_solve| |intros ?]
  | |- respects _ (try_except _ _) => apply respects_try_except; [tc_solve| |intros ?]
  | |- respects _ (try_finally _ _) => apply respects_try_finally; [tc_solve| |]
  | |- respects _ (modify _) => apply respects_modify
  | |- respects _ (match ?x with _ => _ end) => destruct x
  end.

Lemma emit_grows_by (P : action → Prop) a : P a → respects (grows_by P) (emit a).
Proof.
  intros Ha. apply respects_modify. intros s. exists [a].
  split; [done|by apply Forall_singleton].
Qed.

Lemma set_grows_by (P : action → Prop) f :
  (∀ s, trace (f s) = trace s) → respects (grows_by P) (modify f).
Proof.
  intros Hf. apply respects_modify. intros s. exists [].
  split; [by rewrite Hf, app_nil_r|done].
Qed.

Lemma send_ko_files_same_end_date env a :
  respects same_end_date (send_ko_files env a).
Proof.
  unfold send_ko_files, send_archive, notify_error, do_send_request, do_send_file,
    emit, set_task_name.
  repeat frame_step; by intros ?.
Qed.

Lemma integrity_result_same_end_date env t :
  respects same_end_date (integrity_result env t).
Proof.
  unfold integrity_result, reply_to_worker, send_ko_branch, do_send_request, emit,
    set_task_name, set_date_start, set_total_files.
  repeat (frame_step || apply send_ko_files_same_end_date); by intros ?.
Qed.


Lemma sync_integrity_run env t s :
  sync_integrity env t s =
    match integrity_result env t s with
    | (s1, Ok r) =>
        (mkSt true (date_start_master s1) (now_end env) (total_files s1) (task_name s1)
              (trace s1 ++ [Log true Info "Finished integrity synchronization."]), Ok r)
    | (s1, Raise e) => (s1, Raise e)
    end.
Proof.
  unfold sync_integrity. rewrite bind_run.
  by destruct (integrity_result env t s) as [s1 [r|e]].
Qed.

(** The coroutine records the end date and frees the lane when it
    returns, and leaves the end date alone when an exception escapes. *)
Lemma sync_integrity_end env t s :
  match (sync_integrity env t s).2 with
  | Ok _ => date_end_master (sync_integrity env t s).1 = now_end env
            ∧ sync_integrity_free (sync_integrity env t s).1 = true
  | Raise _ => date_end_master (sync_integrity env t s).1 = date_end_master s
  end.
Proof.
  rewrite sync_integrity_run.
  pose proof (integrity_result_same_end_date env t s) as Hsame.
  by destruct (integrity_result env t s) as [s1 [r|e]].
Qed.


Ltac grows :=
  repeat first
    [ frame_step
    | apply emit_grows_by; try done
    | apply set_grows_by; done ].

Lemma send_archive_grows P env a t :
  P (SendFile a) → (∀ d, P (SendRequest "sync_m_c_e" d)) →
  respects (grows_by P) (send_archive env a t).
Proof.
  intros H1 H2. unfold send_archive, do_send_file, do_send_request, set_task_name.
  grows.
Qed.

Lemma notify_error_grows P env e :
  (∀ b l m, P (Log b l m)) → (∀ d, P (SendRequest "sync_m_c_r" d)) →
  respects (grows_by P) (notify_error env e).
Proof.
  intros H1 H2. unfold notify_error, do_send_request. grows.
Qed.

(** The archive is removed last, whatever the sends did. *)
Lemma send_ko_files_trace env a s :
  ∃ mid, trace (send_ko_files env a s).1
         = trace s ++ SendRequest "sync_m_c" "" :: mid ++ [Unlink a]
         ∧ Forall not_ack mid.
Proof.
  set (sx := mkSt (sync_integrity_free s) (date_start_master s) (date_end_master s)
                  (total_files s) (task_name s) (trace s ++ [SendRequest "sync_m_c" ""])).
  set (rest := try_except (lift (send_request env "sync_m_c" "")
                             ≫= send_archive env a) (notify_error env)).
  assert (respects (grows_by not_ack) rest) as Hrest.
  { unfold rest. grows; [apply send_archive_grows|apply notify_error_grows]; done. }
  destruct (Hrest sx) as (mid & Hmid & Hall).
  exists mid. split; [|done].
  change (send_ko_files env a s)
    with (try_finally (λ _, rest sx) (emit (Unlink a)) s).
  unfold try_finally. destruct (rest sx) as [s1 r]. simpl in *.
  rewrite Hmid. simpl. by rewrite <- !(assoc_L (++)).
Qed.

Lemma bind_emit {B} a (k : () → M B) s : (emit a ≫= k) s = k () (log_action a s).
Proof. reflexivity. Qed.

Ltac run_steps :=
  unfold set_task_name, set_date_start, set_date_end, set_total_files, set_free;
  repeat (rewrite ?bind_emit, ?bind_modify, ?bind_lift; cbv beta).

Lemma integrity_result_after_diff env t s f fc p ko counts :
  received env = Ok f →
  decompress_files env f = Ok (fc, p) →
  compare_files env (integrity_control env) fc (name env) = Ok (ko, counts) →
  integrity_result env t s = reply_to_worker env p ko counts (after_diff env t f fc s).
Proof.
  intros Hr Hd Hc. unfold integrity_result.
  run_steps. rewrite Hr. run_steps. rewrite Hd. run_steps. rewrite Hc.
  unfold after_diff, log_action. simpl. by rewrite <- !(assoc_L (++)).
Qed.

Lemma reply_clean env p ko counts s :
  ko_total ko = 0%nat →
  reply_to_worker env p ko counts s =
    (mkSt (sync_integrity_free s) (date_start_master s) (date_end_master s) counts
          (task_name s)
          (trace s ++ [Rmtree p;
                       Log true Info "Analyzing worker integrity: Files checked. There are no KO files.";
                       SendRequest "sync_m_c_ok" ""]),
     send_request env "sync_m_c_ok" "").
Proof.
  intros Hz. unfold reply_to_worker. run_steps.
  rewrite decide_True by done. unfold do_send_request. run_steps.
  unfold lift, log_action. simpl. by rewrite <- !(assoc_L (++)).
Qed.

Lemma reply_ko env p ko counts s :
  ko_total ko ≠ 0%nat →
  reply_to_worker env p ko counts s = send_ko_branch env ko (stored counts p s).
Proof.
  intros Hz. unfold reply_to_worker. run_steps.
  by rewrite decide_False by done.
Qed.

Lemma send_ko_branch_trace env ko s :
  ∃ rest, trace (send_ko_branch env ko s).1
          = trace s ++ [Log true Info "Analyzing worker integrity: Files checked. There are KO files.";
                        Log true Debug "Analyzing worker integrity: Files checked. Compressing KO files.";
                        Compress (dom (shared ko) ∪ dom (missing ko))] ++ rest
          ∧ Forall not_ack rest
          ∧ ∀ a, compress_files env (name env) (dom (shared ko) ∪ dom (missing ko)) ko = Ok a →
                 ∃ mid, rest = Log true Info "Analyzing worker integrity: Files checked. KO files compressed."
                               :: SendRequest "sync_m_c" "" :: mid ++ [Unlink a].
Proof.
  unfold send_ko_branch. run_steps.
  destruct (compress_files env (name env) (dom (shared ko) ∪ dom (missing ko)) ko)
    as [a|e] eqn:Hc; simpl.
  - run_steps.
    match goal with
    | |- context [send_ko_files env a ?s0] =>
        destruct (send_ko_files_trace env a s0) as (mid & Hmid & Hall)
    end.
    unfold log_action in *. simpl in *. eexists. split; [|split].
    + rewrite Hmid. rewrite <- !(assoc_L (++)). simpl. reflexivity.
    + apply Forall_cons. split; [done|]. apply Forall_cons. split; [done|].
      apply Forall_app. split; [done|]. by apply Forall_singleton.
    + intros a' [= <-]. by exists mid.
  - exists []. split; [|split]; [|done|done].
    unfold log_action. simpl. by rewrite <- !(assoc_L (++)).
Qed.

Lemma ko_total_zero ko :
  ko_total ko = 0%nat ↔
  shared ko = ∅ ∧ missing ko = ∅ ∧ extra ko = ∅ ∧ extra_valid ko = ∅.
Proof.
  unfold ko_total. simpl. rewrite <- !map_size_empty_iff. lia.
Qed.

Lemma not_ack_not_elem new :
  Forall not_ack new → SendRequest "sync_m_c_ok" "" ∉ new.
Proof.
  intros Hall Hin. rewrite Forall_forall in Hall. by apply (Hall _ Hin).
Qed.

(** C3, as the spec states it, fails on the code: the test is on the
    sizes of all four classifications, so with [shared] and [missing]
    empty and one [extra] file the KO branch runs and an archive (with no
    path of the master in it) is compressed and sent. *)
Lemma extra_file_alone_sends_archive :
  let ko := mkKo ∅ ∅ {["etc/x" := "m"]} ∅ in
  dom (shared ko) ∪ dom (missing ko) = (∅ : gset string) ∧
  effects (trace (sync_integrity (quiet_env ko) "t0" init).1) =
    [Rmtree "/var/ossec/queue/cluster/w1/in/"; Compress ∅;
     SendRequest "sync_m_c" ""; SendFile "/tmp/ko.zip";
     SendRequest "sync_m_c_e" "task7 /tmp/ko.zip"; Unlink "/tmp/ko.zip"].
Proof. split; vm_compute; reflexivity. Qed.

(** C3 (amended).  After the diff collaborator has classified the
    worker's files, the master answers with the "no KO files"
    acknowledgement (sync_m_c_ok), and neither compresses nor sends an
    archive, exactly when all four classifications (shared, missing,
    extra, extra_valid) are empty.  Otherwise it never sends that
    acknowledgement: it compresses the paths of [shared ∪ missing] (an
    empty set of paths when only extra or extra_valid files exist) and,
    once the archive is built, starts the transfer with sync_m_c. *)
Theorem clean_ack_iff_all_classes_empty env t s f fc p ko counts :
  received env = Ok f →
  decompress_files env f = Ok (fc, p) →
  compare_files env (integrity_control env) fc (name env) = Ok (ko, counts) →
  let s' := (sync_integrity env t s).1 in
  (ko_total ko = 0%nat ↔
     shared ko = ∅ ∧ missing ko = ∅ ∧ extra ko = ∅ ∧ extra_valid ko = ∅) ∧
  (ko_total ko = 0%nat →
     effects (trace s') = effects (trace s) ++ [Rmtree p; SendRequest "sync_m_c_ok" ""]) ∧
  (ko_total ko ≠ 0%nat →
     ∃ new, trace s' = trace s ++ new ∧
            (SendRequest "sync_m_c_ok" "" ∉ new) ∧
            (Compress (dom (shared ko) ∪ dom (missing ko)) ∈ new) ∧
            ∀ a, compress_files env (name env) (dom (shared ko) ∪ dom (missing ko)) ko = Ok a →
                 SendRequest "sync_m_c" "" ∈ new).
Proof.
  intros Hr Hd Hc s'. split; [apply ko_total_zero|]. split.
  - intros Hz. subst s'. rewrite sync_integrity_run.
    rewrite (integrity_result_after_diff _ _ _ _ _ _ _ _ Hr Hd Hc).
    rewrite reply_clean by done.
    destruct (send_request env "sync_m_c_ok" "") as [r|e]; simpl;
      unfold effects; rewrite <- ?(assoc_L (++)), !filter_app; simpl;
      by rewrite ?app_nil_r.
  - intros Hnz. subst s'. rewrite sync_integrity_run.
    rewrite (integrity_result_after_diff _ _ _ _ _ _ _ _ Hr Hd Hc).
    rewrite reply_ko by done.
    destruct (send_ko_branch_trace env ko (stored counts p (after_diff env t f fc s)))
      as (rest & Htr & Hall & Harch).
    assert (∀ post, Forall not_ack post →
      ∃ new, (trace (send_ko_branch env ko (stored counts p (after_diff env t f fc s))).1
              ++ post = trace s ++ new) ∧
             (SendRequest "sync_m_c_ok" "" ∉ new) ∧
             (Compress (dom (shared ko) ∪ dom (missing ko)) ∈ new) ∧
             ∀ a, compress_files env (name env) (dom (shared ko) ∪ dom (missing ko)) ko = Ok a →
                  SendRequest "sync_m_c" "" ∈ new) as Hnew.
    { intros post Hpost. rewrite Htr. simpl. rewrite <- !(assoc_L (++)). simpl.
      eexists. split; [reflexivity|]. split; [|split].
      - apply not_ack_not_elem.
        repeat (apply Forall_cons; split; [done|]).
        by apply Forall_app.
      - do 6 apply list_elem_of_further. apply list_elem_of_here.
      - intros a Ha. destruct (Harch a Ha) as (mid & ->).
        do 8 apply list_elem_of_further. apply list_elem_of_here. }
    destruct (send_ko_branch env ko (stored counts p (after_diff env t f fc s)))
      as [s1 [r|e]]; simpl in *.
    + apply Hnew. by apply Forall_singleton.
    + destruct (Hnew []) as (new & Hn & Hrest); [constructor|].
      rewrite app_nil_r in Hn. by exists new.
Qed.

(** The theorem at a clean diff and at a diff with one stale shared file. *)
Lemma clean_ack_iff_all_classes_empty_witness :
  effects (trace (sync_integrity (quiet_env (mkKo ∅ ∅ ∅ ∅)) "t0" init).1)
    = effects (trace init)
      ++ [Rmtree "/var/ossec/queue/cluster/w1/in/"; SendRequest "sync_m_c_ok" ""].
Proof.
  destruct (clean_ack_iff_all_classes_empty (quiet_env (mkKo ∅ ∅ ∅ ∅)) "t0" init
              _ _ _ _ _ eq_refl eq_refl eq_refl) as (_ & Hclean & _).
  apply Hclean. reflexivity.
Defined.

(** C7, as the spec states it, fails on the code: when the worker's
    file does not arrive in time the exception leaves the coroutine
    before the end date is written; the lane is freed (by the callback
    of the task) but [date_end_master] keeps its old value. *)
Lemma receive_timeout_leaves_end_date_unset :
  (sync_integrity timeout_env "t0" init).2 = Raise TimeoutError ∧
  sync_integrity_free (cycle timeout_env "t0" init) = true ∧
  date_end_master (cycle timeout_env "t0" init) = "n/a".
Proof. split_and!; vm_compute; reflexivity. Qed.

(** C7 (amended).  In every cycle that reaches the KO branch with the
    archive built, the archive is deleted after the sends, whether they
    succeeded or failed, and nothing but the closing log line follows the
    deletion.  In every cycle, whatever its outcome, the lane is free once
    the callback of its task has run.  The end timestamp
    (date_end_master) is written when the coroutine runs to its end; when
    an exception leaves it (while receiving, decompressing, diffing,
    compressing, or from a failed error notice) the timestamp is left as
    it was. *)
Theorem integrity_cycle_cleanup env t s :
  (∀ a s0, ∃ mid, trace (send_ko_files env a s0).1
                  = trace s0 ++ SendRequest "sync_m_c" "" :: mid ++ [Unlink a]) ∧
  (∀ f fc p ko counts a,
     received env = Ok f →
     decompress_files env f = Ok (fc, p) →
     compare_files env (integrity_control env) fc (name env) = Ok (ko, counts) →
     ko_total ko ≠ 0%nat →
     compress_files env (name env) (dom (shared ko) ∪ dom (missing ko)) ko = Ok a →
     ∃ pre post,
       trace (sync_integrity env t s).1 = trace s ++ pre ++ Unlink a :: post ∧
       (post = [] ∨ post = [Log true Info "Finished integrity synchronization."])) ∧
  sync_integrity_free (cycle env t s) = true ∧
  match (sync_integrity env t s).2 with
  | Ok _ => date_end_master (cycle env t s) = now_end env
  | Raise _ => date_end_master (cycle env t s) = date_end_master s
  end.
Proof.
  split_and!.
  - intros a s0. destruct (send_ko_files_trace env a s0) as (mid & Hmid & _). eauto.
  - intros f fc p ko counts a Hr Hd Hc Hnz Ha.
    rewrite sync_integrity_run.
    rewrite (integrity_result_after_diff _ _ _ _ _ _ _ _ Hr Hd Hc).
    rewrite reply_ko by done.
    destruct (send_ko_branch_trace env ko (stored counts p (after_diff env t f fc s)))
      as (rest & Htr & _ & Harch).
    destruct (Harch a Ha) as (mid & ->).
    assert (∀ post, ∃ pre,
      trace (send_ko_branch env ko (stored counts p (after_diff env t f fc s))).1 ++ post
      = trace s ++ pre ++ Unlink a :: post) as Hpre.
    { intros post. rewrite Htr. simpl. rewrite <- !(assoc_L (++)). simpl.
      eexists (_ :: _ :: _ :: _ :: _ :: _ :: _ :: _ :: _ :: mid). simpl.
      rewrite <- !(assoc_L (++)). simpl. reflexivity. }
    destruct (send_ko_branch env ko (stored counts p (after_diff env t f fc s)))
      as [s1 [r|e]]; simpl in *.
    + destruct (Hpre [Log true Info "Finished integrity synchronization."]) as [pre Hp].
      exists pre, [Log true Info "Finished integrity synchronization."]. by split; [|right].
    + destruct (Hpre []) as [pre Hp]. rewrite app_nil_r in Hp.
      exists pre, []. by split; [|left].
  - reflexivity.
  - pose proof (sync_integrity_end env t s) as Hend. unfold cycle. simpl.
    destruct ((sync_integrity env t s).2); [by destruct Hend|done].
Qed.

(** The theorem at a diff with one stale shared file. *)
Lemma integrity_cycle_cleanup_witness :
  let env := quiet_env (mkKo {["etc/a" := "m"]} ∅ ∅ ∅) in
  ∃ pre post,
    trace (sync_integrity env "t0" init).1 = trace init ++ pre ++ Unlink "/tmp/ko.zip" :: post ∧
    (post = [] ∨ post = [Log true Info "Finished integrity synchronization."]).
Proof.
  intros env.
  destruct (integrity_cycle_cleanup env "t0" init) as (_ & Hko & _).
  apply (Hko _ _ _ _ _ _ eq_refl eq_refl eq_refl); [|reflexivity].
  intros Hz. vm_compute in Hz. discriminate.
Defined.

End IntegrityProperties.

Section ApplierProperties.
Import Py Applier.

Lemma bind_fs_op {B} op (k : () → M B) st :
  (fs_op op ≫= k) st = match op (fs st) with
                        | Ok f => k () (set_fs f st)
                        | Raise e => (st, Raise e)
                        end.
Proof. rewrite bind_run. unfold fs_op. by destruct (op (fs st)). Qed.

Lemma locked_update_client_keys cfg names ids dir name data st :
  basename name = "client.keys" →
  locked_update cfg names ids dir name data st =
    (add_log (false, Warning, "Client.keys received in a master node") st,
     Raise (WazuhException 3007 "")).
Proof.
  intros Hbase. unfold locked_update. by rewrite decide_True.
Qed.

(** C5.  A descriptor whose base name is [client.keys] is rejected,
    merged or not: the warning is logged, the rejection is counted as a
    warning for its item key, and no file on disk is created, changed or
    removed. *)
Theorem client_keys_never_written cfg names ids dir name data st :
  basename name = "client.keys" →
  let st' := update_file cfg names ids dir name data st in
  fs st' = fs st ∧
  log st' = log st ++ [(false, Warning, "Client.keys received in a master node");
                       (true, Debug2, "Warning updating file '" +:+ name +:+ "': "
                                      +:+ exn_str (WazuhException 3007 ""))] ∧
  warnings st' = bump_falsy (cluster_item_key data) (warnings st) ∧
  errors st' = errors st.
Proof.
  intros Hbase st'. subst st'. unfold update_file.
  rewrite locked_update_client_keys by done. simpl.
  split_and!; try done. by rewrite <- (assoc_L (++)).
Qed.

(** The theorem for a merged and for a plain descriptor. *)
Lemma client_keys_never_written_witness :
  let st := on_disk {["/var/ossec/etc/client.keys" := mkFile "keys" 5000000 (0, 0)%Z 416]} in
  fs (update_file (example_config []) ∅ ∅ "/tmp/in" "/etc/client.keys"
        agent_info_bundle st) = fs st ∧
  fs (update_file (example_config []) ∅ ∅ "/tmp/in" "/etc/client.keys"
        (mkData false "" "" "/etc/") st) = fs st.
Proof.
  intros st. split.
  - apply (client_keys_never_written (example_config []) ∅ ∅ "/tmp/in"
             "/etc/client.keys" agent_info_bundle st). reflexivity.
  - apply (client_keys_never_written (example_config []) ∅ ∅ "/tmp/in"
             "/etc/client.keys" (mkData false "" "" "/etc/") st). reflexivity.
Defined.

(** Writing a sub-file and moving it into place. *)
Lemma install_subfile cfg key tmp full file_data secs m st :
  permissions cfg !! key = Some m →
  (modify (λ st, set_fs (write_file cfg tmp file_data (fs st)) st) ;;
   fs_op (utime tmp secs) ;;
   fs_op (chown tmp (ossec_uid cfg) (ossec_gid cfg)) ;;
   m ← lift (configured_permissions cfg key) ;
   fs_op (chmod tmp m) ;;
   fs_op (rename tmp full) ;;
   mret Next) st
  = (set_fs (<[full := mkFile file_data (secs * 1000000) (ossec_uid cfg, ossec_gid cfg) m]>
              (delete tmp (fs st))) st, Ok Next).
Proof.
  intros Hperm.
  rewrite bind_modify.
  assert (∃ x, write_file cfg tmp file_data (fs st) = <[tmp := x]> (fs st)
               ∧ content x = file_data) as (x & -> & Hx).
  { unfold write_file. destruct (fs st !! tmp); eauto. }
  rewrite bind_fs_op. unfold utime at 1. simpl. rewrite lookup_insert_eq.
  rewrite bind_fs_op. unfold chown at 1. simpl. rewrite lookup_insert_eq.
  rewrite bind_lift. unfold configured_permissions. rewrite Hperm.
  rewrite bind_fs_op. unfold chmod at 1. simpl. rewrite lookup_insert_eq.
  rewrite bind_fs_op. unfold rename at 1. simpl. rewrite lookup_insert_eq.
  simpl. rewrite Hx. unfold set_fs. simpl.
  by rewrite !insert_insert_eq, delete_insert_eq.
Qed.

Lemma timegm_timetuple_exact t :
  (timegm_timetuple t * 1000000 = t ↔ t `mod` 1000000 = 0)%Z.
Proof.
  unfold timegm_timetuple.
  pose proof (Z.div_mod t 1000000 ltac:(done)). lia.
Qed.

(** C4, as the spec states it, fails on the code: a sub-file whose
    embedded time has a fraction of a second replaces the older target,
    but the target's time is set to the whole second, half a second
    before the embedded time. *)
Lemma fractional_time_is_truncated :
  let target := "/var/ossec/queue/agent-info/alpha-10.0.0.1" in
  let items := [("/queue/agent-info/alpha-10.0.0.1", "new", "2019-03-01 10:00:00.500000")] in
  let cfg := example_config items in
  let st := update_file cfg {["alpha"]} {["001"]} "/var/ossec/queue/cluster/w1/tmp_files"
              "/queue/cluster/w1/agent-info.merged" agent_info_bundle
              (on_disk {[target := mkFile "old" 5000000 (995, 994)%Z 432]}) in
  parse_time cfg "2019-03-01 10:00:00.500000" = Some 1551434400500000%Z ∧
  fs st !! target = Some (mkFile "new" 1551434400000000 (995, 994)%Z 432).
Proof. split; vm_compute; reflexivity. Qed.

(** C4 (amended).  For every sub-file of a merged bundle that the
    applier reaches, whose agent is in the roster, whose time parses and
    whose target exists: if the target's modification time, cut to whole
    seconds, is later than the embedded time, the applier stops with the
    files on disk unchanged; otherwise, with permissions configured for
    the item key, the sub-file's content replaces the target, with the
    configured owner and mode and with the embedded time cut to whole
    seconds as its modification time, which is the embedded time exactly
    only when that has no fraction of a second. *)
Theorem subfile_applied_to_whole_second
    cfg data is_agent_info names ids file_path file_data file_time st old t :
  known_agent is_agent_info names ids file_path = true →
  parse_time cfg file_time = Some t →
  fs st !! (ossec_path cfg +:+ file_path) = Some old →
  let target := ossec_path cfg +:+ file_path in
  let out := update_subfile cfg data is_agent_info names ids
               (file_path, file_data, file_time) st in
  ((whole_seconds (mtime old) > t)%Z → out.2 = Ok Return ∧ fs out.1 = fs st) ∧
  (¬ (whole_seconds (mtime old) > t)%Z →
     ∀ m, permissions cfg !! cluster_item_key data = Some m →
          out.2 = Ok Next ∧
          fs out.1 !! target
            = Some (mkFile file_data (timegm_timetuple t * 1000000)
                           (ossec_uid cfg, ossec_gid cfg) m) ∧
          errors out.1 = errors st) ∧
  (timegm_timetuple t * 1000000 = t ↔ t `mod` 1000000 = 0)%Z.
Proof.
  intros Hknown Hparse Hold target out.
  assert (out = if bool_decide (whole_seconds (mtime old) > t)%Z
                then (add_log (true, Debug2, "Receiving an old file (" +:+ file_path +:+ ")") st,
                      Ok Return)
                else try_except
                       (modify (λ st, set_fs (write_file cfg (target +:+ ".tmp") file_data (fs st)) st) ;;
                        fs_op (utime (target +:+ ".tmp") (timegm_timetuple t)) ;;
                        fs_op (chown (target +:+ ".tmp") (ossec_uid cfg) (ossec_gid cfg)) ;;
                        m ← lift (configured_permissions cfg (cluster_item_key data)) ;
                        fs_op (chmod (target +:+ ".tmp") m) ;;
                        fs_op (rename (target +:+ ".tmp") target) ;;
                        mret Next)
                       (subfile_failed data is_agent_info) st) as Hout.
  { subst out. unfold update_subfile, try_except, subfile_body.
    rewrite Hknown. simpl. rewrite Hparse.
    unfold target_newer. subst target. rewrite Hold.
    by case_bool_decide. }
  split; [|split].
  - intros Hnewer. rewrite Hout, bool_decide_eq_true_2 by done. done.
  - intros Hnot m Hperm. rewrite Hout, bool_decide_eq_false_2 by done.
    unfold try_except.
    rewrite (install_subfile cfg (cluster_item_key data) _ _ _ _ m _ Hperm). simpl.
    by rewrite lookup_insert_eq.
  - apply timegm_timetuple_exact.
Qed.

(** The theorem at a target that is older than the sub-file. *)
Lemma subfile_applied_to_whole_second_witness :
  let target := "/var/ossec/queue/agent-info/alpha-10.0.0.1" in
  let st := on_disk {[target := mkFile "old" 5000000 (995, 994)%Z 432]} in
  let out := update_subfile (example_config []) agent_info_bundle true {["alpha"]} {["001"]}
               ("/queue/agent-info/alpha-10.0.0.1", "new", "2019-03-01 10:00:00.500000") st in
  out.2 = Ok Next ∧
  fs out.1 !! target
    = Some (mkFile "new" (timegm_timetuple 1551434400500000 * 1000000) (995, 994)%Z 432).
Proof.
  intros target st out.
  destruct (subfile_applied_to_whole_second (example_config []) agent_info_bundle true
              {["alpha"]} {["001"]} "/queue/agent-info/alpha-10.0.0.1" "new"
              "2019-03-01 10:00:00.500000" st
              (mkFile "old" 5000000 (995, 994)%Z 432) 1551434400500000)
    as (_ & Hreplace & _); [reflexivity|reflexivity|reflexivity|].
  destruct (Hreplace ltac:(vm_compute; discriminate) 432%Z eq_refl)
    as (Hr & Hfs & _).
  split; [exact Hr|exact Hfs].
Defined.

Lemma dict_get_set k v d : dict_get k (dict_set k v d) = Some v.
Proof.
  induction d as [|[k' v'] d IH]; simpl.
  - by rewrite decide_True.
  - case_decide; simpl; [by rewrite decide_True|by rewrite decide_False].
Qed.

(** One more than before, counting an absent key as zero. *)
Lemma dict_get_bump k d :
  dict_get k (bump k d) = Some (S (default 0%nat (dict_get k d))).
Proof.
  unfold bump. destruct (dict_get k d) as [n|]; simpl; apply dict_get_set.
Qed.

(** A sub-file of an agent that is not in the roster is skipped: one
    more warning for the item key, no file touched, the loop goes on. *)
Lemma unknown_agent_counted_once cfg data is_agent_info names ids
    file_path file_data file_time st :
  known_agent is_agent_info names ids file_path = false →
  let out := update_subfile cfg data is_agent_info names ids
               (file_path, file_data, file_time) st in
  out.2 = Ok Next ∧ fs out.1 = fs st ∧ errors out.1 = errors st ∧
  warnings out.1 = bump (cluster_item_key data) (warnings st).
Proof.
  intros Hknown out. subst out.
  unfold update_subfile, try_except, subfile_body. by rewrite Hknown.
Qed.

(** No exception leaves the turn of the loop for a sub-file. *)
Lemma update_subfile_never_raises cfg data is_agent_info names ids sf st :
  ∃ f, (update_subfile cfg data is_agent_info names ids sf st).2 = Ok f.
Proof.
  unfold update_subfile, try_except.
  destruct (subfile_body cfg data is_agent_info names ids sf st) as [st' [f|e]];
    simpl; eauto.
Qed.

(** C6 on the code.  A bundle whose first sub-file is older than its
    target, followed by a sub-file of an agent that is not in the roster
    and a sub-file of an agent that is: the [return] taken for the old
    file ends the whole bundle, so the unknown agent is not counted, the
    known agent's file is not written and the lock is still held.  With
    the old file last, the same three sub-files give one warning and the
    written file. *)
Lemma old_subfile_ends_the_bundle :
  let alpha := "/var/ossec/queue/agent-info/alpha-10.0.0.1" in
  let beta := "/var/ossec/queue/agent-info/beta-10.0.0.2" in
  let old := ("/queue/agent-info/alpha-10.0.0.1", "stale", "2019-03-01 10:00:00") in
  let ghost := ("/queue/agent-info/ghost-10.0.0.9", "x", "2019-03-01 10:00:00") in
  let fresh := ("/queue/agent-info/beta-10.0.0.2", "fresh", "2019-03-01 10:00:00") in
  let run items :=
    process_files_from_worker (example_config items)
      (Ok [("001", "alpha"); ("002", "beta")])
      [("/queue/cluster/w1/agent-info.merged", agent_info_bundle)]
      "/var/ossec/queue/cluster/w1/tmp_files"
      (on_disk {[alpha := mkFile "current" 1600000000000000 (995, 994)%Z 432]}) in
  (warnings (run [old; ghost; fresh]) = [] ∧
   fs (run [old; ghost; fresh]) !! beta = None ∧
   held (run [old; ghost; fresh])
     = ["/var/ossec/queue/cluster/lockdir/agent-info.merged.lock"]) ∧
  (warnings (run [ghost; fresh; old]) = [("/queue/agent-info/", 1%nat)] ∧
   fs (run [ghost; fresh; old]) !! beta
     = Some (mkFile "fresh" 1551434400000000 (995, 994)%Z 432)).
Proof. split_and!; vm_compute; reflexivity. Qed.

End ApplierProperties.

(* ================================================================== *)
(** * Further properties *)

Section KeepsProperties.
Import Py Frames.
Context {S B : Type} (f : S → B).

Lemma keeps_ret {A} (a : A) : keeps f (mret a : M S A).
Proof. by intros s. Qed.

Lemma keeps_lift {A} (r : result A) : keeps f (lift r : M S A).
Proof. by intros s. Qed.

Lemma keeps_read {A} (g : S → A) : keeps f (λ s, (s, Ok (g s))).
Proof. by intros s. Qed.

Lemma keeps_modify (g : S → S) : (∀ s, f (g s) = f s) → keeps f (modify g).
Proof. intros Hg s. apply Hg. Qed.

Lemma keeps_bind {A C} (m : M S A) (k : A → M S C) :
  keeps f m → (∀ a, keeps f (k a)) → keeps f (m ≫= k).
Proof.
  intros Hm Hk s. rewrite bind_run. specialize (Hm s).
  destruct (m s) as [s' [a|e]]; cbn in *; [|done].
  by rewrite Hk.
Qed.

Lemma keeps_try_except {A} (body : M S A) handler :
  keeps f body → (∀ e, keeps f (handler e)) → keeps f (try_except body handler).
Proof.
  intros Hb Hh s. unfold try_except. specialize (Hb s).
  destruct (body s) as [s' [a|e]]; cbn in *; [done|].
  by rewrite Hh.
Qed.

Lemma keeps_try_finally {A} (body : M S A) fin :
  keeps f body → keeps f fin → keeps f (try_finally body fin).
Proof.
  intros Hb Hf s. unfold try_finally. specialize (Hb s).
  destruct (body s) as [s' r]. specialize (Hf s').
  destruct (fin s') as [s'' [[]|e]]; cbn in *; congruence.
Qed.


End KeepsProperties.

Section LaneIndependence.
Import Py Lanes.

(** X1.  The lanes are independent.  The free flag of a lane after any
    sequence of commands and task callbacks, from any session state, is
    the flag after the setup commands and the releases (error reports,
    task callbacks) of that lane alone; in particular the permission
    checks and the setup, error report and callback of another lane
    leave it as it was. *)
Theorem lane_flag_depends_on_own_events l h tr :
  free l (run h tr)
    = free l (run h (filter (λ e, is_setup l e || is_release l e = true) tr)) ∧
  (∀ l' d t, l ≠ l' →
     free l (run h [Request (permission_cmd l') d; Request (setup_cmd l') d;
                    Request (error_cmd l') d; TaskDone t l';
                    Request (permission_cmd l) d]) = free l h).
Proof.
  split.
  - induction tr as [|e tr IH] using rev_ind; [done|].
    rewrite filter_app, run_snoc, free_step.
    destruct (is_setup l e) eqn:Hs.
    + rewrite filter_cons_True by (by rewrite Hs).
      rewrite filter_nil, run_snoc, free_step. by rewrite Hs.
    + destruct (is_release l e) eqn:Hr.
      * rewrite filter_cons_True by (by rewrite Hs, Hr).
        rewrite filter_nil, run_snoc, free_step. by rewrite Hs, Hr.
      * rewrite filter_cons_False by (by rewrite Hs, Hr).
        by rewrite filter_nil, app_nil_r.
  - intros l' d t Hne.
    rewrite !run_cons. change (run ?x []) with x.
    rewrite !free_step. by destruct l, l'.
Qed.

Lemma lane_flag_depends_on_own_events_witness :
  free Integrity (run init [Request "sync_a_w_m_p" ""; Request "sync_a_w_m" "";
                             Request "sync_a_w_m_r" ""; TaskDone 0 AgentInfo;
                             Request "sync_i_w_m_p" ""]) = free Integrity init.
Proof.
  destruct (lane_flag_depends_on_own_events Integrity init []) as [_ Hother].
  by apply (Hother AgentInfo "" 0%nat).
Defined.

End LaneIndependence.

Section DapiMoreProperties.
Import Py Dapi DapiTrace.

Lemma draw_request_id_in_range r : draw_request_id r ∈ request_ids.
Proof.
  unfold draw_request_id, request_ids. apply list_elem_of_fmap_2, elem_of_seqZ.
  unfold randint. change (2 ^ 10 - 1 - 0 + 1)%Z with 1024%Z.
  pose proof (Z.mod_pos_bound r 1024). lia.
Qed.

Lemma request_ids_no_space : Forall (λ s, has_char " " s = false) request_ids.
Proof.
  apply Forall_forall. intros s [z [-> Hz%elem_of_seqZ]]%list_elem_of_fmap.
  assert (Forall (λ z, has_char " " (pretty z : string) = false) (seqZ 0 1024)) as Hall.
  { apply (bool_decide_unpack _). vm_compute. exact I. }
  rewrite Forall_forall in Hall. apply Hall, elem_of_seqZ. lia.
Qed.

Lemma draw_request_id_no_space r : has_char " " (draw_request_id r) = false.
Proof.
  pose proof request_ids_no_space as Hall. rewrite Forall_forall in Hall.
  apply Hall, draw_request_id_in_range.
Qed.

Lemma execute_begin_registry command data r m :
  pending_api_requests (execute_begin command data r m).1
    = <[draw_request_id r := mkPending (new_event m) ""]> (pending_api_requests m)
  ∧ events (execute_begin command data r m).1 = <[new_event m := false]> (events m)
  ∧ clients (execute_begin command data r m).1 = clients m
  ∧ local_clients (execute_begin command data r m).1 = local_clients m.
Proof.
  unfold execute_begin. repeat (case_decide || case_match); done.
Qed.

(** X2.  Request and response.  A caller of the distributed API that has
    registered its request sleeps until the response arrives (or fails
    with error 3021 once its deadline has passed), and after the
    [dapi_res] command for its id it wakes up with exactly the payload
    stored under the string id the command names. *)
Theorem execute_round_trip data r m in_str sid payload :
  in_str !! sid = Some payload →
  let id := draw_request_id r in
  let m1 := (execute_begin "dapi" data r m).1 in
  let m2 := (process_dapi_res in_str (id +:+ " " +:+ sid) m1).1 in
  (execute_begin "dapi" data r m).2 = Ok (id, [(None, id +:+ " " +:+ data)]) ∧
  execute_end "dapi" id false "" m1 = None ∧
  execute_end "dapi" id true "" m1 = Some (Raise (WazuhException 3021 "")) ∧
  (process_dapi_res in_str (id +:+ " " +:+ sid) m1).2 = Ok ("ok", "Forwarded response") ∧
  (∀ deadline, execute_end "dapi" id deadline "" m2 = Some (Ok payload)).
Proof.
  intros Hsid id m1 m2.
  destruct (execute_begin_registry "dapi" data r m) as (Hp & He & _).
  fold m1 in Hp, He.
  assert (pending_api_requests m1 !! id = Some (mkPending (new_event m) "")) as Hid
    by (by rewrite Hp, lookup_insert_eq).
  assert (events m1 !! new_event m = Some false) as Hev
    by (by rewrite He, lookup_insert_eq).
  assert (process_dapi_res in_str (id +:+ " " +:+ sid) m1 =
          (mkMaster (<[id := mkPending (new_event m) payload]> (pending_api_requests m1))
                    (<[new_event m := true]> (events m1))
                    (clients m1) (local_clients m1) (forwarded m1),
           Ok ("ok", "Forwarded response"))) as Hres.
  { apply (process_dapi_res_pending in_str m1 id sid (mkPending (new_event m) "") payload);
      [apply draw_request_id_no_space|done|done]. }
  split_and!.
  - done.
  - unfold execute_end. cbn. rewrite Hid. cbn. by rewrite Hev.
  - unfold execute_end. cbn. rewrite Hid. cbn. by rewrite Hev.
  - by rewrite Hres.
  - intros deadline. subst m2. rewrite Hres. unfold execute_end. cbn.
    rewrite lookup_insert_eq. cbn. by rewrite lookup_insert_eq.
Qed.

Lemma execute_round_trip_witness :
  let in_str : gmap string string := {["s9" := "{}"]} in
  let m1 := (execute_begin "dapi" "get" 42 (init [] ∅)).1 in
  let m2 := (process_dapi_res in_str (draw_request_id 42 +:+ " " +:+ "s9") m1).1 in
  execute_end "dapi" (draw_request_id 42) false "" m1 = None ∧
  execute_end "dapi" (draw_request_id 42) false "" m2 = Some (Ok "{}").
Proof.
  intros in_str m1 m2.
  destruct (execute_round_trip "get" 42 (init [] ∅) in_str "s9" "{}" eq_refl)
    as (_ & Hasleep & _ & _ & Hwake).
  split; [exact Hasleep|exact (Hwake false)].
Defined.

(** X3.  A delivery that fails.  Whenever [process_dapi_res] raises (the
    payload has no separator, the string id is unknown, or the request id
    is neither pending nor a local client), the registry, the events and
    the list of forwarded responses are exactly as before: a pending
    caller is not woken up. *)
Theorem failed_delivery_changes_nothing in_str data m e :
  (process_dapi_res in_str data m).2 = Raise e →
  (process_dapi_res in_str data m).1 = m ∧
  ((∃ msg, e = ValueError msg) ∨ (∃ sid, e = KeyError sid) ∨ (∃ id, e = WazuhException 3032 id)).
Proof.
  unfold process_dapi_res.
  repeat case_match; cbn; intros [= <-]; split; eauto.
Qed.

Lemma failed_delivery_changes_nothing_witness :
  (process_dapi_res ∅ "7 s9" (init ["w1"] ∅)).1 = init ["w1"] ∅.
Proof.
  assert ((process_dapi_res ∅ "7 s9" (init ["w1"] ∅)).2 = Raise (WazuhException 3032 "7"))
    as Hraise by (vm_compute; reflexivity).
  by destruct (failed_delivery_changes_nothing ∅ "7 s9" (init ["w1"] ∅) _ Hraise) as [Hm _].
Defined.

(** X4.  Where [execute] sends.  A forwarded call goes to every connected
    worker for the target [fw_all_nodes], to the named worker when it is
    connected, and fails with error 3022 otherwise; any other command
    goes to the worker of this session.  In all cases, the failure
    included, the request has been registered before. *)
Theorem execute_routing client request data command r m :
  has_char " " client = false →
  let id := draw_request_id r in
  let fwd := execute_begin "dapi_forward" (client +:+ " " +:+ request) r m in
  (client = "fw_all_nodes" →
     fwd.2 = Ok (id, (λ w, (Some w, id +:+ " " +:+ request)) <$> clients m)) ∧
  (client ≠ "fw_all_nodes" → client ∈ clients m →
     fwd.2 = Ok (id, [(Some client, id +:+ " " +:+ request)])) ∧
  (client ≠ "fw_all_nodes" → client ∉ clients m →
     fwd.2 = Raise (WazuhException 3022 client)) ∧
  (command ≠ "dapi_forward" →
     (execute_begin command data r m).2 = Ok (id, [(None, id +:+ " " +:+ data)])) ∧
  pending_api_requests fwd.1 !! id = Some (mkPending (new_event m) "").
Proof.
  intros Hsp id fwd.
  assert (∀ x, fwd.2 = x ↔
    (if decide (client = "fw_all_nodes") then
       Ok (id, (λ w, (Some w, id +:+ " " +:+ request)) <$> clients m)
     else if decide (client ∈ clients m) then
       Ok (id, [(Some client, id +:+ " " +:+ request)])
     else Raise (WazuhException 3022 client)) = x) as Hfwd.
  { intros x. subst fwd. unfold execute_begin.
    rewrite decide_True by done. rewrite split1_join by done.
    by repeat case_decide. }
  split_and!.
  - intros Hc. apply Hfwd. by rewrite decide_True.
  - intros Hc Hin. apply Hfwd. by rewrite decide_False, decide_True.
  - intros Hc Hin. apply Hfwd. by rewrite !decide_False.
  - intros Hc. unfold execute_begin. by rewrite decide_False.
  - destruct (execute_begin_registry "dapi_forward" (client +:+ " " +:+ request) r m)
      as (Hp & _). subst fwd. by rewrite Hp, lookup_insert_eq.
Qed.

Lemma execute_routing_witness :
  (execute_begin "dapi_forward" ("w9" +:+ " " +:+ "{}") 7 (init ["w1"; "w2"] ∅)).2
  = Raise (WazuhException 3022 "w9").
Proof.
  destruct (execute_routing "w9" "{}" "" "dapi" 7 (init ["w1"; "w2"] ∅) eq_refl)
    as (_ & _ & Hunknown & _).
  apply Hunknown; [done|].
  cbn. intros Hin.
  repeat (apply elem_of_cons in Hin as [Hin|Hin]; [discriminate|]).
  by apply elem_of_nil in Hin.
Defined.

End DapiMoreProperties.

Section DapiRegistryProperties.
Import Py Dapi DapiTrace.

Lemma apply_op_registry m o :
  dom (pending_api_requests (apply_op m o)) = dom (pending_api_requests m)
  ∨ ∃ r, dom (pending_api_requests (apply_op m o))
           = {[draw_request_id r]} ∪ dom (pending_api_requests m).
Proof.
  destruct o as [command data r|in_str data]; cbn [apply_op].
  - right. exists r.
    destruct (execute_begin_registry command data r m) as (-> & _).
    apply dom_insert_L.
  - left. unfold process_dapi_res.
    repeat case_match; cbn [fst pending_api_requests]; try reflexivity.
    rewrite dom_insert_L.
    match goal with H : pending_api_requests m !! ?k = Some _ |- _ =>
      apply (elem_of_dom_2 (D := gset string)) in H; revert H end.
    generalize (dom (pending_api_requests m)). intros X HX.
    apply set_eq. intros x. rewrite elem_of_union, elem_of_singleton.
    split; [intros [->|?]; done|auto].
Qed.

Lemma run_ops_registry_ids workers locals ops :
  dom (pending_api_requests (run_ops (init workers locals) ops)) ⊆ list_to_set request_ids.
Proof.
  induction ops as [|o ops IH] using rev_ind.
  - cbn [run_ops foldl init pending_api_requests]. rewrite dom_empty_L.
    apply empty_subseteq.
  - unfold run_ops. rewrite foldl_snoc. fold (run_ops (init workers locals) ops).
    destruct (apply_op_registry (run_ops (init workers locals) ops) o) as [->|[r ->]]; [done|].
    apply union_least; [|done].
    apply singleton_subseteq_l, elem_of_list_to_set, draw_request_id_in_range.
Qed.

(** X5.  The size of the registry.  Entries are never removed: neither
    [execute] nor [process_dapi_res] deletes a key, so over any sequence
    of calls and deliveries the registry only grows; and since every key
    is one of the 1024 possible ids, it never holds more than 1024
    entries. *)
Theorem registry_grows_to_at_most_1024 workers locals ops o :
  let m := run_ops (init workers locals) ops in
  dom (pending_api_requests m) ⊆ dom (pending_api_requests (apply_op m o)) ∧
  (size (pending_api_requests m) ≤ 1024)%nat.
Proof.
  intros m. split.
  - destruct (apply_op_registry m o) as [->|[r ->]]; [done|]. apply union_subseteq_r.
  - rewrite <- size_dom.
    etrans; [apply subseteq_size, run_ops_registry_ids|].
    rewrite size_list_to_set.
    + unfold request_ids. rewrite length_fmap, length_seqZ. reflexivity.
    + unfold request_ids. apply NoDup_fmap; [apply _|apply NoDup_seqZ].
Qed.

End DapiRegistryProperties.

Section HelloMoreProperties.
Import Py Hello Loggers.

(** X6.  Directories and the handshake.  [hello] creates at most one
    directory, the worker's own, and only when the handshake is accepted
    with [ok] and the directory does not exist yet: in every other case
    (malformed data, a name the base handshake refuses, a cluster-name or
    version mismatch, a directory that exists) the set of directories is
    as before.  Data that does not have exactly four fields is refused
    before the base handshake is consulted, the session unchanged. *)
Theorem hello_creates_only_worker_dir env data h dirs :
  let out := hello env data h dirs in
  (out.1.2 = dirs ∨
   (out.1.2 = mkdir_with_mode (worker_dir env out.1.1) dirs ∧
    (worker_dir env out.1.1 ∉ dirs) ∧ (∃ payload, out.2 = Ok ("ok", payload)))) ∧
  (∀ e, out.2 = Raise e → out.1.2 = dirs) ∧
  (length (split data) ≠ 4%nat →
   out = (h, dirs, Raise (ValueError "wrong number of values to unpack"))).
Proof.
  unfold hello.
  destruct (split data) as [|n [|cn [|nt [|ver [|x l]]]]]; cbn zeta;
    try (split_and!; [by left|done|done]).
  destruct (super_hello env n h) as [h0 [[cmd payload]|e]];
    [|split_and!; [by left|done|done]].
  cbn [cluster_name version].
  destruct (decide (cn ≠ configuration_name env)); [split_and!; [by left|done|done]|].
  destruct (decide (ver ≠ metadata_version env)); [split_and!; [by left|done|done]|].
  case_bool_decide as Hcmd; cbn [andb]; [|split_and!; [by left|done|done]].
  case_bool_decide as Hin; cbn [negb]; [split_and!; [by left|done|done]|].
  subst cmd. split_and!; [right|done|done]. cbn [fst snd]. eauto.
Qed.

Lemma hello_creates_only_worker_dir_witness :
  hello (mkEnv "/var/ossec" "wazuh" "3.9.0" accepting_hello) "w1 wazuh worker" init ∅
  = (init, ∅, Raise (ValueError "wrong number of values to unpack")).
Proof.
  destruct (hello_creates_only_worker_dir
              (mkEnv "/var/ossec" "wazuh" "3.9.0" accepting_hello)
              "w1 wazuh worker" init ∅) as (_ & _ & Hbad).
  apply Hbad. vm_compute. lia.
Defined.

Lemma lane_loggers_lookup tag :
  lane_loggers !! tag =
    if bool_decide (tag ∈ ["Integrity"; "Extra valid"; "Agent info"])
    then Some (setup_task_logger tag) else None.
Proof.
  unfold lane_loggers.
  destruct (decide (tag = "Agent info")) as [->|H1]; [by rewrite lookup_insert_eq|].
  rewrite lookup_insert_ne by done.
  destruct (decide (tag = "Extra valid")) as [->|H2]; [by rewrite lookup_insert_eq|].
  rewrite lookup_insert_ne by done.
  destruct (decide (tag = "Integrity")) as [->|H3]; [by rewrite lookup_insert_eq|].
  rewrite lookup_insert_ne by done.
  rewrite lookup_empty, bool_decide_eq_false_2; [done|].
  rewrite !elem_of_cons, elem_of_nil. by intros [?|[?|[?|[]]]].
Qed.

(** X7.  Which logger a task gets.  [get_logger] never fails.  Once
    [hello] has passed the base handshake (also when it then rejects the
    worker for a mismatch), it answers with the logger set up for the tag
    exactly for the three tags [Integrity], [Extra valid] and
    [Agent info], and with the main logger of the session for every other
    tag, the empty one included; on a session that has seen no handshake
    it always answers with the main logger. *)
Theorem get_logger_after_hello env data h dirs n cn nt ver h0 cmd payload tag :
  split data = [n; cn; nt; ver] →
  super_hello env n h = (h0, Ok (cmd, payload)) →
  get_logger tag (hello env data h dirs).1.1 =
    Ok (if bool_decide (tag ∈ ["Integrity"; "Extra valid"; "Agent info"])
        then setup_task_logger tag else MainLogger) ∧
  get_logger tag init = Ok MainLogger ∧
  (∀ h1, ∃ lg, get_logger tag h1 = Ok lg).
Proof.
  intros Hsplit Hbase.
  assert (∀ h1, get_logger tag h1 =
    Ok (if bool_decide (tag = "") then MainLogger
        else default MainLogger (task_loggers h1 !! tag))) as Hget.
  { intros h1. unfold get_logger.
    case_bool_decide as Hempty; [done|]. cbn [orb].
    case_bool_decide as Hin; cbn [negb].
    - apply elem_of_dom in Hin as [lg Hlg]. by rewrite Hlg.
    - apply not_elem_of_dom in Hin. by rewrite Hin. }
  split_and!.
  - rewrite Hget.
    replace (task_loggers (hello env data h dirs).1.1) with lane_loggers.
    + rewrite lane_loggers_lookup.
      case_bool_decide as Hempty.
      * subst tag. by rewrite bool_decide_eq_false_2 by (by apply (bool_decide_unpack _)).
      * by case_bool_decide.
    + rewrite (hello_unfold _ _ _ _ _ _ _ _ _ _ _ Hsplit Hbase). cbn zeta.
      by repeat case_decide.
  - rewrite Hget. cbn [task_loggers init]. rewrite lookup_empty. by case_bool_decide.
  - intros h1. rewrite Hget. eauto.
Qed.

Lemma get_logger_after_hello_witness :
  let env := mkEnv "/var/ossec" "wazuh" "3.9.0" accepting_hello in
  get_logger "Extra valid" (hello env "w1 wazuh worker 3.8.2" init ∅).1.1
    = Ok (setup_task_logger "Extra valid") ∧
  get_logger "File integrity" (hello env "w1 wazuh worker 3.8.2" init ∅).1.1
    = Ok MainLogger.
Proof.
  intros env. split.
  - by destruct (get_logger_after_hello env "w1 wazuh worker 3.8.2" init ∅
                   "w1" "wazuh" "worker" "3.8.2" _ "ok" "Client w1 added" "Extra valid"
                   eq_refl eq_refl) as [Hget _].
  - by destruct (get_logger_after_hello env "w1 wazuh worker 3.8.2" init ∅
                   "w1" "wazuh" "worker" "3.8.2" _ "ok" "Client w1 added" "File integrity"
                   eq_refl eq_refl) as [Hget _].
Defined.

End HelloMoreProperties.

Section IntegrityPaths.
Import Py Integrity.

Ltac run_steps :=
  unfold set_task_name, set_date_start, set_date_end, set_total_files, set_free;
  repeat (rewrite ?bind_emit, ?bind_modify, ?bind_lift; cbv beta).

Ltac crunch :=
  cbv beta iota zeta delta
    [send_ko_files try_finally try_except do_send_request do_send_file send_archive
     notify_error emit modify lift mbind M_bind mret M_ret get_task_name set_task_name
     log_action bytes_join task_name trace sync_integrity_free date_start_master
     date_end_master total_files fst snd].

(** The state in which the sends of the KO branch start. *)
Lemma sync_integrity_ko env t s f fc p ko counts a :
  received env = Ok f →
  decompress_files env f = Ok (fc, p) →
  compare_files env (integrity_control env) fc (name env) = Ok (ko, counts) →
  ko_total ko ≠ 0%nat →
  compress_files env (name env) (dom (shared ko) ∪ dom (missing ko)) ko = Ok a →
  ∃ s0, integrity_result env t s = send_ko_files env a s0 ∧
        sync_integrity_free s0 = sync_integrity_free s ∧
        date_start_master s0 = now_start env ∧
        date_end_master s0 = date_end_master s ∧
        total_files s0 = counts ∧
        task_name s0 = PStr t ∧
        effects (trace s0) = effects (trace s)
                               ++ [Rmtree p; Compress (dom (shared ko) ∪ dom (missing ko))].
Proof.
  intros Hr Hd Hc Hnz Ha.
  rewrite (integrity_result_after_diff _ _ _ _ _ _ _ _ Hr Hd Hc).
  rewrite reply_ko by done.
  unfold send_ko_branch. run_steps. rewrite Ha. run_steps.
  eexists. split; [reflexivity|].
  split_and!; try reflexivity.
  cbn. unfold effects. rewrite <- !(assoc_L (++)), !filter_app. cbn.
  by rewrite !app_nil_r.
Qed.

Lemma effects_app tr new : effects (tr ++ new) = effects tr ++ effects new.
Proof. apply filter_app. Qed.

Lemma send_ko_files_first_send_fails env a s t e :
  task_name s = PStr t →
  send_request env "sync_m_c" "" = Raise e →
  send_ko_files env a s =
    (mkSt (sync_integrity_free s) (date_start_master s) (date_end_master s)
          (total_files s) (PStr t)
          (trace s ++ [SendRequest "sync_m_c" "";
                       Log false Error ("Error sending files information: " +:+ exn_str e);
                       Unlink a]),
     Raise (TypeError "can only concatenate str (not bytes) to str")).
Proof.
  intros Ht Hs. destruct s as [fr ds de tf tn tr]. cbn in Ht. subst tn.
  crunch. rewrite Hs. crunch. by rewrite <- !(assoc_L (++)).
Qed.

(** X8.  A refused transfer.  When the worker does not answer the
    [sync_m_c] request that opens the transfer of the archive, the error
    handler cannot address its notice: [task_name] is still the text
    given to the coroutine, joining it with bytes is a [TypeError], and
    that error, not the one of the send, leaves the coroutine.  No
    [sync_m_c_r] notice and no file are sent, the archive is deleted, and
    the end date is not written. *)
Theorem unanswered_transfer_raises_type_error env t s f fc p ko counts a e :
  received env = Ok f →
  decompress_files env f = Ok (fc, p) →
  compare_files env (integrity_control env) fc (name env) = Ok (ko, counts) →
  ko_total ko ≠ 0%nat →
  compress_files env (name env) (dom (shared ko) ∪ dom (missing ko)) ko = Ok a →
  send_request env "sync_m_c" "" = Raise e →
  (sync_integrity env t s).2 = Raise (TypeError "can only concatenate str (not bytes) to str") ∧
  effects (trace (sync_integrity env t s).1) =
    effects (trace s) ++ [Rmtree p; Compress (dom (shared ko) ∪ dom (missing ko));
                          SendRequest "sync_m_c" ""; Unlink a] ∧
  date_end_master (sync_integrity env t s).1 = date_end_master s ∧
  sync_integrity_free (sync_integrity env t s).1 = sync_integrity_free s.
Proof.
  intros Hr Hd Hc Hnz Ha Hs.
  destruct (sync_integrity_ko env t s f fc p ko counts a Hr Hd Hc Hnz Ha)
    as (s0 & Hrun & Hfree & _ & Hend & _ & Ht & Heff).
  rewrite sync_integrity_run, Hrun.
  rewrite (send_ko_files_first_send_fails env a s0 t e Ht Hs).
  cbn [fst snd trace date_end_master sync_integrity_free].
  split_and!; try done.
  rewrite effects_app, Heff, <- (assoc_L (++)). reflexivity.
Qed.

Lemma unanswered_transfer_raises_type_error_witness :
  let ko := mkKo {["etc/a" := "m"]} ∅ ∅ ∅ in
  let env := mkEnv "w1" "/var/ossec" ∅ (Ok "in.zip") (λ _, Ok (∅, "in/"))
               (λ _ _ _, Ok (ko, mkCounts 0 1 0 0)) (λ _ _ _, Ok "/tmp/ko.zip")
               (λ _ _, Raise (WazuhException 3020 "")) (λ _, Ok "ok") (λ p _, p) exn_str
               "10:00:00" "10:00:05" in
  (sync_integrity env "t0" init).2
    = Raise (TypeError "can only concatenate str (not bytes) to str").
Proof.
  intros ko env.
  refine (proj1 (unanswered_transfer_raises_type_error env "t0" init "in.zip" ∅ "in/" ko
                   (mkCounts 0 1 0 0) "/tmp/ko.zip" (WazuhException 3020 "")
                   eq_refl eq_refl eq_refl _ eq_refl eq_refl)).
  intros Hz. vm_compute in Hz. discriminate.
Defined.

Lemma send_ko_files_sent env a s tk r1 r2 :
  send_request env "sync_m_c" "" = Ok tk →
  send_file env a = Ok r1 →
  send_request env "sync_m_c_e" (tk +:+ " " +:+ relpath env a (ossec_path env)) = Ok r2 →
  send_ko_files env a s =
    (mkSt (sync_integrity_free s) (date_start_master s) (date_end_master s)
          (total_files s) (PBytes tk)
          (trace s ++ [SendRequest "sync_m_c" ""; SendFile a;
                       SendRequest "sync_m_c_e" (tk +:+ " " +:+ relpath env a (ossec_path env));
                       Unlink a]),
     Ok r2).
Proof.
  intros H1 H2 H3. destruct s as [fr ds de tf tn tr].
  crunch. rewrite H1. crunch. rewrite H2. crunch. rewrite H3.
  by rewrite <- !(assoc_L (++)).
Qed.

(** X9.  A transfer that works.  When the diff leaves KO files and the
    worker answers the three sends, the cycle does, in this order and
    nothing else: remove the extraction directory, compress the paths of
    [shared] and [missing], open the transfer ([sync_m_c]), send the
    archive, close the transfer ([sync_m_c_e]) naming the task the worker
    answered with and the archive's path relative to the installation,
    delete the archive.  It returns the worker's answer to the closing
    request, with the counts stored, both dates written and the lane
    free. *)
Theorem ko_transfer_sequence env t s f fc p ko counts a tk r1 r2 :
  received env = Ok f →
  decompress_files env f = Ok (fc, p) →
  compare_files env (integrity_control env) fc (name env) = Ok (ko, counts) →
  ko_total ko ≠ 0%nat →
  compress_files env (name env) (dom (shared ko) ∪ dom (missing ko)) ko = Ok a →
  send_request env "sync_m_c" "" = Ok tk →
  send_file env a = Ok r1 →
  send_request env "sync_m_c_e" (tk +:+ " " +:+ relpath env a (ossec_path env)) = Ok r2 →
  let s' := (sync_integrity env t s).1 in
  (sync_integrity env t s).2 = Ok r2 ∧
  effects (trace s') =
    effects (trace s) ++ [Rmtree p; Compress (dom (shared ko) ∪ dom (missing ko));
                          SendRequest "sync_m_c" ""; SendFile a;
                          SendRequest "sync_m_c_e"
                            (tk +:+ " " +:+ relpath env a (ossec_path env));
                          Unlink a] ∧
  total_files s' = counts ∧
  date_start_master s' = now_start env ∧
  date_end_master s' = now_end env ∧
  sync_integrity_free s' = true.
Proof.
  intros Hr Hd Hc Hnz Ha H1 H2 H3 s'. subst s'.
  destruct (sync_integrity_ko env t s f fc p ko counts a Hr Hd Hc Hnz Ha)
    as (s0 & Hrun & _ & Hstart & _ & Hcounts & _ & Heff).
  rewrite sync_integrity_run, Hrun.
  rewrite (send_ko_files_sent env a s0 tk r1 r2 H1 H2 H3).
  cbn [fst snd trace date_end_master sync_integrity_free total_files date_start_master].
  split_and!; try done.
  rewrite !effects_app, Heff, <- !(assoc_L (++)). cbn. by rewrite app_nil_r.
Qed.

Lemma ko_transfer_sequence_witness :
  let ko := mkKo {["etc/a" := "m"]} ∅ ∅ ∅ in
  (sync_integrity (quiet_env ko) "t0" init).2 = Ok "ok".
Proof.
  intros ko.
  refine (proj1 (ko_transfer_sequence (quiet_env ko) "t0" init _ _ _ ko _ "/tmp/ko.zip"
                   "task7" "ok" "ok" eq_refl eq_refl eq_refl _ eq_refl eq_refl eq_refl
                   eq_refl)).
  intros Hz. vm_compute in Hz. discriminate.
Defined.

Lemma send_ko_files_notice env a s tk e r :
  send_request env "sync_m_c" "" = Ok tk →
  send_file env a = Raise e →
  send_request env "sync_m_c_r" (tk +:+ " " +:+ error_payload env e) = Ok r →
  send_ko_files env a s =
    (mkSt (sync_integrity_free s) (date_start_master s) (date_end_master s)
          (total_files s) (PBytes tk)
          (trace s ++ [SendRequest "sync_m_c" ""; SendFile a;
                       Log false Error ("Error sending files information: " +:+ exn_str e);
                       SendRequest "sync_m_c_r" (tk +:+ " " +:+ error_payload env e);
                       Unlink a]),
     Ok r).
Proof.
  intros H1 H2 H3. destruct s as [fr ds de tf tn tr].
  crunch. rewrite H1. crunch. rewrite H2. crunch. rewrite H3.
  by rewrite <- !(assoc_L (++)).
Qed.

(** X10.  A transfer that breaks.  When the worker has opened the transfer
    but the archive cannot be sent, the master tells the worker: it sends
    the [sync_m_c_r] notice addressed to the worker's task, carrying the
    exception itself when it is a [WazuhException] and a cluster error
    with code 1000 and the exception's text otherwise, and sends no
    closing request.  If the worker takes the notice the cycle ends
    normally: the archive is deleted, the answer to the notice is
    returned, the end date is written and the lane is free. *)
Theorem broken_transfer_is_reported env t s f fc p ko counts a tk e r :
  received env = Ok f →
  decompress_files env f = Ok (fc, p) →
  compare_files env (integrity_control env) fc (name env) = Ok (ko, counts) →
  ko_total ko ≠ 0%nat →
  compress_files env (name env) (dom (shared ko) ∪ dom (missing ko)) ko = Ok a →
  send_request env "sync_m_c" "" = Ok tk →
  send_file env a = Raise e →
  send_request env "sync_m_c_r" (tk +:+ " " +:+ error_payload env e) = Ok r →
  let s' := (sync_integrity env t s).1 in
  (sync_integrity env t s).2 = Ok r ∧
  effects (trace s') =
    effects (trace s) ++ [Rmtree p; Compress (dom (shared ko) ∪ dom (missing ko));
                          SendRequest "sync_m_c" ""; SendFile a;
                          SendRequest "sync_m_c_r" (tk +:+ " " +:+ error_payload env e);
                          Unlink a] ∧
  error_payload env e =
    json_dumps env (match e with
                    | WazuhException _ _ => e
                    | _ => WazuhException 1000 (exn_str e)
                    end) ∧
  date_end_master s' = now_end env ∧
  sync_integrity_free s' = true.
Proof.
  intros Hr Hd Hc Hnz Ha H1 H2 H3 s'. subst s'.
  destruct (sync_integrity_ko env t s f fc p ko counts a Hr Hd Hc Hnz Ha)
    as (s0 & Hrun & _ & Hstart & _ & Hcounts & _ & Heff).
  rewrite sync_integrity_run, Hrun.
  rewrite (send_ko_files_notice env a s0 tk e r H1 H2 H3).
  cbn [fst snd trace date_end_master sync_integrity_free].
  split_and!; try done.
  - rewrite !effects_app, Heff, <- !(assoc_L (++)). cbn. by rewrite app_nil_r.
  - by destruct e.
Qed.

Lemma broken_transfer_is_reported_witness :
  let ko := mkKo {["etc/a" := "m"]} ∅ ∅ ∅ in
  let env := mkEnv "w1" "/var/ossec" ∅ (Ok "in.zip") (λ _, Ok (∅, "in/"))
               (λ _ _ _, Ok (ko, mkCounts 0 1 0 0)) (λ _ _ _, Ok "/tmp/ko.zip")
               (λ c _, Ok (if decide (c = "sync_m_c") then "task7" else "ok"))
               (λ _, Raise (OSError "/tmp/ko.zip")) (λ p _, p) exn_str
               "10:00:00" "10:00:05" in
  (sync_integrity env "t0" init).2 = Ok "ok".
Proof.
  intros ko env.
  refine (proj1 (broken_transfer_is_reported env "t0" init "in.zip" ∅ "in/" ko
                   (mkCounts 0 1 0 0) "/tmp/ko.zip" "task7" (OSError "/tmp/ko.zip") "ok"
                   eq_refl eq_refl eq_refl _ eq_refl eq_refl eq_refl eq_refl)).
  intros Hz. vm_compute in Hz. discriminate.
Defined.

End IntegrityPaths.

Section IntegrityFrames.
Import Py Integrity Frames.

Ltac keeps_step :=
  lazymatch goal with
  | |- keeps _ (mret _) => apply keeps_ret
  | |- keeps _ (lift _) => apply keeps_lift
  | |- keeps _ get_task_name => apply keeps_read
  | |- keeps _ (modify _) => apply keeps_modify; intros ?
  | |- keeps _ (_ ≫= _) => apply keeps_bind; [|intros ?]
  | |- keeps _ (try_except _ _) => apply keeps_try_except; [|intros ?]
  | |- keeps _ (try_finally _ _) => apply keeps_try_finally
  | |- keeps _ (match ?x with _ => _ end) => destruct x
  end.






End IntegrityFrames.

Section WorkerSyncProperties.
Import Py WorkerSync Frames.

Ltac keeps_step :=
  lazymatch goal with
  | |- keeps _ (mret _) => apply keeps_ret
  | |- keeps _ (lift _) => apply keeps_lift
  | |- keeps _ (task_logger _) => by intros ?
  | |- keeps _ (modify _) => apply keeps_modify; intros ?
  | |- keeps _ (_ ≫= _) => apply keeps_bind; [|intros ?]
  | |- keeps _ (match ?x with _ => _ end) => destruct x
  end.

Lemma sync_worker_files_keeps {B} (f : St → B) env lg :
  (∀ s tr, f (mkSt (sync_extra_valid_free s) (sync_agent_info_free s)
                   (sync_extra_valid_status s) (sync_agent_info_status s)
                   (task_loggers s) tr) = f s) →
  keeps f (sync_worker_files env lg).
Proof.
  intros Hf. unfold sync_worker_files, emit. repeat keeps_step; apply Hf.
Qed.

Lemma sync_extra_valid_run env s :
  sync_extra_valid env s =
    match task_loggers s !! "Extra valid" with
    | None => (s, Raise (KeyError "Extra valid"))
    | Some lg =>
        let s0 := mkSt (sync_extra_valid_free s) (sync_agent_info_free s)
                       (set_start (now_start env) (sync_extra_valid_status s))
                       (sync_agent_info_status s) (task_loggers s) (trace s) in
        match sync_worker_files env lg s0 with
        | (s1, Ok _) =>
            (mkSt true (sync_agent_info_free s1)
                  (set_end (now_end env) (sync_extra_valid_status s1))
                  (sync_agent_info_status s1) (task_loggers s1) (trace s1), Ok ())
        | (s1, Raise e) => (s1, Raise e)
        end
    end.
Proof.
  unfold sync_extra_valid. rewrite bind_run. unfold task_logger at 1.
  destruct (task_loggers s !! "Extra valid") as [lg|]; [|done].
  unfold set_extra_valid_status, set_extra_valid_free. rewrite bind_modify, bind_run. cbv zeta.
  by destruct (sync_worker_files env lg _) as [s1 [[]|e]].
Qed.

Lemma sync_agent_info_run env s :
  sync_agent_info env s =
    match task_loggers s !! "Agent info" with
    | None => (s, Raise (KeyError "Agent info"))
    | Some lg =>
        let s0 := mkSt (sync_extra_valid_free s) (sync_agent_info_free s)
                       (sync_extra_valid_status s)
                       (set_start (now_start env) (sync_agent_info_status s))
                       (task_loggers s) (trace s) in
        match sync_worker_files env lg s0 with
        | (s1, Ok _) =>
            (mkSt (sync_extra_valid_free s1) true (sync_extra_valid_status s1)
                  (set_end (now_end env) (sync_agent_info_status s1))
                  (task_loggers s1) (trace s1), Ok ())
        | (s1, Raise e) => (s1, Raise e)
        end
    end.
Proof.
  unfold sync_agent_info. rewrite bind_run. unfold task_logger at 1.
  destruct (task_loggers s !! "Agent info") as [lg|]; [|done].
  unfold set_agent_info_status, set_agent_info_free. rewrite bind_modify, bind_run. cbv zeta.
  by destruct (sync_worker_files env lg _) as [s1 [[]|e]].
Qed.


(** X13.  A lane and the handshake.  On a session whose handshake has not
    stored the task loggers (as [MasterHandler.__init__] leaves it) a
    coroutine of either file lane fails with a [KeyError] at its first
    statement: no date is written, nothing is logged, no file is waited
    for.  On a session with the loggers [hello] stores, the start date of
    the lane is written whatever happens afterwards. *)
Theorem file_lane_needs_handshake env s :
  (task_loggers s = Hello.task_loggers Hello.init →
   sync_extra_valid env s = (s, Raise (KeyError "Extra valid")) ∧
   sync_agent_info env s = (s, Raise (KeyError "Agent info"))) ∧
  (task_loggers s = Hello.lane_loggers →
   date_start_master (sync_extra_valid_status (sync_extra_valid env s).1) = now_start env ∧
   date_start_master (sync_agent_info_status (sync_agent_info env s).1) = now_start env).
Proof.
  rewrite sync_extra_valid_run, sync_agent_info_run.
  split; intros ->; [done|].
  change (Hello.lane_loggers !! "Extra valid") with (Some (Hello.TaskLogger "Extra valid")).
  change (Hello.lane_loggers !! "Agent info") with (Some (Hello.TaskLogger "Agent info")).
  cbv zeta. split.
  - match goal with |- context [sync_worker_files env ?lg ?s0] =>
      pose proof (sync_worker_files_keeps sync_extra_valid_status env lg
                    (λ _ _, eq_refl) s0) as Hk;
      destruct (sync_worker_files env lg s0) as [s1 [[]|e]] end;
    cbn in *; by rewrite Hk.
  - match goal with |- context [sync_worker_files env ?lg ?s0] =>
      pose proof (sync_worker_files_keeps sync_agent_info_status env lg
                    (λ _ _, eq_refl) s0) as Hk;
      destruct (sync_worker_files env lg s0) as [s1 [[]|e]] end;
    cbn in *; by rewrite Hk.
Qed.

Lemma file_lane_needs_handshake_witness :
  let env := mkEnv (Ok "in.zip") (λ _, Ok (∅, "in/")) (λ _ _, Ok ()) "10:00:00" "10:00:05" in
  sync_agent_info env (init true false) = (init true false, Raise (KeyError "Agent info")).
Proof.
  intros env.
  by destruct (proj1 (file_lane_needs_handshake env (init true false)) eq_refl) as [_ Hai].
Defined.

Lemma sync_worker_files_trace env lg s :
  trace (sync_worker_files env lg s).1 =
    trace s ++
    Log lg Info "Waiting to receive zip file from worker" ::
    match received env with
    | Raise _ => []
    | Ok f =>
        Log lg Debug ("Received file from worker: '" +:+ f +:+ "'") ::
        match decompress_files env f with
        | Raise _ => []
        | Ok (fc, p) =>
            [Log lg Info ("Analyzing worker files: Received "
                          +:+ pretty (size fc) +:+ " files to check.");
             ProcessFiles fc p lg]
        end
    end.
Proof.
  unfold sync_worker_files, emit. rewrite bind_modify, bind_lift.
  destruct (received env) as [f|e]; [|done].
  rewrite bind_modify, bind_lift.
  destruct (decompress_files env f) as [[fc p]|e];
    [|cbn; by rewrite <- !(assoc_L (++))].
  rewrite !bind_modify. cbn. by rewrite <- !(assoc_L (++)).
Qed.

(** X14.  The files of a worker are applied once, with the lane's logger.
    A coroutine of the agent-info lane of a session whose handshake has
    stored the logger [lg] for the lane calls [process_files_from_worker]
    at most once: exactly once, with the decompressed descriptors, their
    directory and [lg], when the worker's file has arrived and could be
    decompressed, and not at all otherwise.  Every line it logs goes to
    [lg]. *)
Theorem files_applied_once_with_lane_logger env s lg :
  task_loggers s !! "Agent info" = Some lg →
  let new := drop (length (trace s)) (trace (sync_agent_info env s).1) in
  trace (sync_agent_info env s).1 = trace s ++ new ∧
  filter (λ a, is_process a = true) new =
    match received env with
    | Raise _ => []
    | Ok f =>
        match decompress_files env f with
        | Raise _ => []
        | Ok (fc, p) => [ProcessFiles fc p lg]
        end
    end ∧
  Forall (λ a, ∀ lg' lv msg, a = Log lg' lv msg → lg' = lg) new.
Proof.
  intros Hlg new.
  assert (∃ new', trace (sync_agent_info env s).1 = trace s ++ new' ∧
    new' = Log lg Info "Waiting to receive zip file from worker" ::
      match received env with
      | Raise _ => []
      | Ok f =>
          Log lg Debug ("Received file from worker: '" +:+ f +:+ "'") ::
          match decompress_files env f with
          | Raise _ => []
          | Ok (fc, p) =>
              [Log lg Info ("Analyzing worker files: Received "
                            +:+ pretty (size fc) +:+ " files to check.");
               ProcessFiles fc p lg]
          end
      end) as (new' & Htr & Hnew).
  { eexists. split; [|reflexivity].
    rewrite sync_agent_info_run, Hlg. cbv zeta.
    match goal with |- context [sync_worker_files env lg ?s0] =>
      pose proof (sync_worker_files_trace env lg s0) as Ht;
      destruct (sync_worker_files env lg s0) as [s1 [[]|e]] end;
    cbn in *; exact Ht. }
  assert (new = new') as ->.
  { subst new. by rewrite Htr, drop_app_length. }
  split; [done|]. rewrite Hnew. clear.
  destruct (received env) as [f|e]; [|split; [done|]].
  - destruct (decompress_files env f) as [[fc p]|e]; (split; [done|]);
      repeat (apply Forall_cons; split; [intros ? ? ? ?; by simplify_eq|]);
      by apply Forall_nil.
  - repeat (apply Forall_cons; split; [intros ? ? ? ?; by simplify_eq|]).
    by apply Forall_nil.
Qed.

Lemma files_applied_once_with_lane_logger_witness :
  let env := mkEnv (Ok "in.zip") (λ _, Ok (∅, "in/")) (λ _ _, Ok ()) "10:00:00" "10:00:05" in
  let s := mkSt true false (mkStatus "n/a" "n/a") (mkStatus "n/a" "n/a")
                Hello.lane_loggers [] in
  filter (λ a, is_process a = true)
         (drop (length (trace s)) (trace (sync_agent_info env s).1))
  = [ProcessFiles ∅ "in/" (Hello.TaskLogger "Agent info")].
Proof.
  intros env s.
  by destruct (files_applied_once_with_lane_logger env s (Hello.TaskLogger "Agent info")
                 eq_refl) as (_ & Hcalls & _).
Defined.

End WorkerSyncProperties.

Section PathProperties.
Import Py Applier.

Lemma has_char_app c a b : has_char c (a +:+ b) = has_char c a || has_char c b.
Proof.
  induction a as [|d a IH]; simpl; [done|]. by case_decide.
Qed.




Lemma strip_newline_plain s : has_char newline s = false → strip_newline s = s.
Proof.
  induction s as [|c s IH]; [done|]. cbn [has_char strip_newline].
  case_decide; [done|]. intros Hs. destruct s as [|c' s']; [done|].
  by rewrite IH.
Qed.

Lemma rsplit_dash_none s : has_char "-" s = false → rsplit_dash s = None.
Proof.
  induction s as [|c s IH]; [done|]. cbn [has_char rsplit_dash].
  case_decide as Hc; [done|]. intros Hs. by rewrite IH.
Qed.

Lemma rsplit_dash_join name ip :
  ip ≠ "" → has_char "-" ip = false →
  rsplit_dash (name +:+ "-" +:+ ip) = Some (name, ip).
Proof.
  intros Hne Hip. induction name as [|c name IH].
  - change ("" +:+ "-" +:+ ip) with (String "-" ip).
    cbn [rsplit_dash]. rewrite rsplit_dash_none by done.
    rewrite decide_True by done. by destruct ip.
  - change (String c name +:+ "-" +:+ ip) with (String c (name +:+ "-" +:+ ip)).
    cbn [rsplit_dash]. by rewrite IH.
Qed.

(** X15.  The agent name of an agent-info file.  A sub-file named
    [<name>-<ip>] is attributed to the agent [name], also when the name
    itself has dashes: the name ends at the last dash. *)
Theorem agent_name_of_status_file name ip :
  name ≠ "" → ip ≠ "" →
  has_char "-" ip = false →
  has_char newline name = false → has_char newline ip = false →
  agent_name_of (name +:+ "-" +:+ ip) = name.
Proof.
  intros Hname Hip Hdash Hn1 Hn2. unfold agent_name_of.
  assert (has_char newline (name +:+ "-" +:+ ip) = false) as Hnl.
  { change (name +:+ "-" +:+ ip) with (name +:+ String "-" ip).
    rewrite has_char_app, Hn1. cbn [has_char orb].
    by rewrite decide_False. }
  rewrite strip_newline_plain, Hnl, rsplit_dash_join by done.
  by destruct name.
Qed.

Lemma agent_name_of_status_file_witness :
  agent_name_of ("web-server-01" +:+ "-" +:+ "10.0.0.7") = "web-server-01".
Proof. by apply agent_name_of_status_file. Defined.

Lemma has_char_strip_newline c s :
  has_char c s = false → has_char c (strip_newline s) = false.
Proof.
  induction s as [|d s IH]; [done|].
  intros Hs. cbn [has_char] in Hs. case_decide as Hd; [done|].
  destruct s as [|d' s'].
  - cbn [strip_newline]. case_decide; [done|].
    cbn [has_char]. by rewrite decide_False.
  - change (strip_newline (String d (String d' s')))
      with (String d (strip_newline (String d' s'))).
    cbn [has_char]. rewrite decide_False by done. by apply IH.
Qed.

(** A file name without a dash is its own agent name. *)
Lemma agent_name_of_no_dash base :
  has_char "-" base = false → agent_name_of base = base.
Proof.
  intros Hd. unfold agent_name_of.
  destruct (has_char newline (strip_newline base)); [done|].
  by rewrite rsplit_dash_none by (by apply has_char_strip_newline).
Qed.

End PathProperties.

Section MoreMonadProperties.
Import Py.

Lemma bind_ret {S A B} (a : A) (k : A → M S B) s : (mret a ≫= k) s = k a s.
Proof. reflexivity. Qed.

End MoreMonadProperties.

Section PlainFileProperties.
Import Py Applier.

(** What the locked part of [update_file] does for a file that is not a
    bundle. *)
Lemma locked_update_plain cfg names ids dir name data st :
  merged data = false → basename name ≠ "client.keys" →
  let zip := dir +:+ name in
  locked_update cfg names ids dir name data st =
    match fs st !! zip with
    | None => (st, Raise (OSError zip))
    | Some z =>
        let z' := mkFile (content z) (mtime z) (ossec_uid cfg, ossec_gid cfg) (mode z) in
        match permissions cfg !! cluster_item_key data with
        | None => (set_fs (<[zip := z']> (fs st)) st, Raise (KeyError (cluster_item_key data)))
        | Some m =>
            (set_fs (<[ossec_path cfg +:+ name :=
                         mkFile (content z) (mtime z) (ossec_uid cfg, ossec_gid cfg) m]>
                       (delete zip (fs st))) st, Ok Next)
        end
    end.
Proof.
  intros Hm Hbase zip. unfold locked_update.
  rewrite decide_False by done. rewrite Hm. fold zip.
  rewrite bind_ret.
  rewrite bind_fs_op. unfold chown at 1.
  destruct (fs st !! zip) as [z|] eqn:Hz; [|done].
  rewrite bind_lift. unfold configured_permissions.
  destruct (permissions cfg !! cluster_item_key data) as [m|] eqn:Hp; [|done].
  rewrite bind_fs_op. unfold chmod at 1. cbn [fs set_fs]. rewrite lookup_insert_eq.
  rewrite bind_fs_op. unfold rename at 1. cbn [fs set_fs]. rewrite lookup_insert_eq.
  cbn. unfold set_fs. cbn.
  by rewrite !delete_insert_eq.
Qed.

(** X16.  A file that is not a bundle is installed.  When the extracted file
    exists and permissions are configured for its item key, it is moved
    to its place under the installation path with the configured owner
    and mode, keeping content and modification time; nothing is counted
    or logged. *)
Theorem plain_file_installed cfg names ids dir name data st z m :
  merged data = false → basename name ≠ "client.keys" →
  fs st !! (dir +:+ name) = Some z →
  permissions cfg !! cluster_item_key data = Some m →
  let st' := update_file cfg names ids dir name data st in
  fs st' = <[ossec_path cfg +:+ name :=
               mkFile (content z) (mtime z) (ossec_uid cfg, ossec_gid cfg) m]>
             (delete (dir +:+ name) (fs st)) ∧
  errors st' = errors st ∧ warnings st' = warnings st ∧ log st' = log st.
Proof.
  intros Hm Hbase Hz Hp st'. subst st'. unfold update_file.
  rewrite locked_update_plain by done. cbn [fs acquire].
  by rewrite Hz, Hp.
Qed.

Lemma plain_file_installed_witness :
  let st := on_disk {["/tmp/in/etc/shared/default/agent.conf" := mkFile "conf" 7000000 (0, 0)%Z 384]} in
  fs (update_file (example_config []) ∅ ∅ "/tmp/in" "/etc/shared/default/agent.conf"
        (mkData false "" "" "/queue/agent-groups/") st)
  = <["/var/ossec/etc/shared/default/agent.conf" := mkFile "conf" 7000000 (995, 994)%Z 432]>
      (delete "/tmp/in/etc/shared/default/agent.conf" (fs st)).
Proof.
  intros st.
  apply (plain_file_installed (example_config []) ∅ ∅ "/tmp/in"
           "/etc/shared/default/agent.conf" (mkData false "" "" "/queue/agent-groups/") st
           (mkFile "conf" 7000000 (0, 0)%Z 384) 432%Z); try reflexivity.
  vm_compute. discriminate.
Defined.

(** X17.  A file that is not a bundle and cannot be installed.  When the
    extracted file is missing, or no permissions are configured for its
    item key, the failure is counted as one error for the key; no file
    changes content or time and nothing appears or disappears (with the
    file missing, the disk is untouched). *)
Theorem plain_file_failure_counted cfg names ids dir name data st :
  merged data = false → basename name ≠ "client.keys" →
  fs st !! (dir +:+ name) = None ∨ permissions cfg !! cluster_item_key data = None →
  let st' := update_file cfg names ids dir name data st in
  errors st' = bump_falsy (cluster_item_key data) (errors st) ∧
  warnings st' = warnings st ∧
  (∀ p, (λ f, (content f, mtime f)) <$> fs st' !! p
        = (λ f, (content f, mtime f)) <$> fs st !! p) ∧
  (fs st !! (dir +:+ name) = None → fs st' = fs st).
Proof.
  intros Hm Hbase Hfail st'. subst st'. unfold update_file.
  rewrite locked_update_plain by done. cbn [fs acquire].
  destruct (fs st !! (dir +:+ name)) as [z|] eqn:Hz.
  - destruct Hfail as [?|Hp]; [done|]. rewrite Hp. cbn.
    split_and!; try done. intros p.
    destruct (decide (p = dir +:+ name)) as [->|Hne].
    + by rewrite lookup_insert_eq, Hz.
    + by rewrite lookup_insert_ne.
  - cbn. done.
Qed.

Lemma plain_file_failure_counted_witness :
  let st' := update_file (example_config []) ∅ ∅ "/tmp/in" "/etc/lists/audit-keys"
               (mkData false "" "" "/etc/lists/") (on_disk ∅) in
  errors st' = [("/etc/lists/", 1%nat)] ∧ fs st' = ∅.
Proof.
  intros st'.
  destruct (plain_file_failure_counted (example_config []) ∅ ∅ "/tmp/in"
              "/etc/lists/audit-keys" (mkData false "" "" "/etc/lists/") (on_disk ∅))
    as (He & _ & _ & Hfs); [reflexivity| |by left|].
  - vm_compute. discriminate.
  - split; [exact He|by apply Hfs].
Defined.

End PlainFileProperties.

Section SubfileProperties.
Import Py Applier.

Lemma append_tmp_ne s : s +:+ ".tmp" ≠ s.
Proof.
  induction s as [|c s IH]; [done|]. intros [= Heq]. by apply IH.
Qed.

(** The inner [try] for a sub-file of a known agent whose time parses and
    whose target is not newer. *)
Lemma subfile_body_write cfg data is_agent_info names ids file_path file_data file_time st t :
  known_agent is_agent_info names ids file_path = true →
  parse_time cfg file_time = Some t →
  target_newer (fs st) (ossec_path cfg +:+ file_path) t = false →
  let target := ossec_path cfg +:+ file_path in
  subfile_body cfg data is_agent_info names ids (file_path, file_data, file_time) st =
    (modify (λ st, set_fs (write_file cfg (target +:+ ".tmp") file_data (fs st)) st) ;;
     fs_op (utime (target +:+ ".tmp") (timegm_timetuple t)) ;;
     fs_op (chown (target +:+ ".tmp") (ossec_uid cfg) (ossec_gid cfg)) ;;
     m ← lift (configured_permissions cfg (cluster_item_key data)) ;
     fs_op (chmod (target +:+ ".tmp") m) ;;
     fs_op (rename (target +:+ ".tmp") target) ;;
     mret Next) st.
Proof.
  intros Hk Hp Hn target. unfold subfile_body. rewrite Hk. cbn [negb].
  rewrite Hp. subst target. by rewrite Hn.
Qed.

(** X18.  A sub-file whose target does not exist yet.  For a known agent
    and a time that parses, with permissions configured, the target is
    created with the sub-file's content, the embedded time cut to whole
    seconds, and the configured owner and mode; the temporary file is
    gone, no other file changes and nothing is counted. *)
Theorem new_target_created cfg data is_agent_info names ids file_path file_data file_time st t m :
  known_agent is_agent_info names ids file_path = true →
  parse_time cfg file_time = Some t →
  fs st !! (ossec_path cfg +:+ file_path) = None →
  permissions cfg !! cluster_item_key data = Some m →
  let target := ossec_path cfg +:+ file_path in
  let out := update_subfile cfg data is_agent_info names ids
               (file_path, file_data, file_time) st in
  out.2 = Ok Next ∧
  fs out.1 = <[target := mkFile file_data (timegm_timetuple t * 1000000)
                                (ossec_uid cfg, ossec_gid cfg) m]>
               (delete (target +:+ ".tmp") (fs st)) ∧
  fs out.1 !! (target +:+ ".tmp") = None ∧
  errors out.1 = errors st ∧ warnings out.1 = warnings st.
Proof.
  intros Hk Hp Hnone Hperm target out. subst out.
  unfold update_subfile, try_except.
  rewrite (subfile_body_write _ _ _ _ _ _ _ _ _ t) by (try done; unfold target_newer; by rewrite Hnone).
  rewrite (install_subfile cfg (cluster_item_key data) _ _ _ _ m _ Hperm).
  cbn. split_and!; try done.
  rewrite lookup_insert_ne by (intros Heq; by apply (append_tmp_ne target)).
  apply lookup_delete_eq.
Qed.

Lemma new_target_created_witness :
  let out := update_subfile (example_config []) agent_info_bundle true {["alpha"]} ∅
               ("/queue/agent-info/alpha-any", "status", "2019-03-01 10:00:00") (on_disk ∅) in
  out.2 = Ok Next ∧
  fs out.1 !! "/var/ossec/queue/agent-info/alpha-any"
    = Some (mkFile "status" (timegm_timetuple 1551434400000000 * 1000000) (995, 994)%Z 432).
Proof.
  intros out.
  destruct (new_target_created (example_config []) agent_info_bundle true {["alpha"]} ∅
              "/queue/agent-info/alpha-any" "status" "2019-03-01 10:00:00" (on_disk ∅)
              1551434400000000 432%Z) as (Hr & Hfs & _); try reflexivity.
  split; [exact Hr|]. subst out. rewrite Hfs. apply lookup_insert_eq.
Defined.

(** X19.  A sub-file whose time does not parse.  For a known agent, when
    neither format matches, the sub-file is counted as one error for the
    item key, the status counter of the bundle's kind goes down by one,
    no file is touched and the loop goes on. *)
Theorem bad_time_counted cfg data is_agent_info names ids file_path file_data file_time st :
  known_agent is_agent_info names ids file_path = true →
  parse_time cfg file_time = None →
  let out := update_subfile cfg data is_agent_info names ids
               (file_path, file_data, file_time) st in
  out.2 = Ok Next ∧ fs out.1 = fs st ∧
  errors out.1 = bump (cluster_item_key data) (errors st) ∧
  warnings out.1 = warnings st ∧
  total_agent_info out.1
    = (if is_agent_info then (λ n, n - 1)%Z <$> total_agent_info st else total_agent_info st) ∧
  total_extra_valid out.1
    = (if is_agent_info then total_extra_valid st else (λ n, n - 1)%Z <$> total_extra_valid st).
Proof.
  intros Hk Hp out. subst out.
  unfold update_subfile, try_except, subfile_body. rewrite Hk. cbn [negb]. rewrite Hp.
  cbn. by destruct is_agent_info.
Qed.

Lemma bad_time_counted_witness :
  let out := update_subfile (example_config []) agent_info_bundle true {["alpha"]} ∅
               ("/queue/agent-info/alpha-any", "status", "yesterday")
               (on_disk ∅) in
  out.2 = Ok Next ∧ fs out.1 = ∅ ∧ errors out.1 = [("/queue/agent-info/", 1%nat)].
Proof.
  intros out.
  destruct (bad_time_counted (example_config []) agent_info_bundle true {["alpha"]} ∅
              "/queue/agent-info/alpha-any" "status" "yesterday" (on_disk ∅))
    as (Hr & Hfs & He & _); try reflexivity.
  by split_and!.
Defined.

Lemma write_without_permissions cfg key tmp full file_data secs st :
  permissions cfg !! key = None →
  ∃ x, content x = file_data ∧
    (modify (λ st, set_fs (write_file cfg tmp file_data (fs st)) st) ;;
     fs_op (utime tmp secs) ;;
     fs_op (chown tmp (ossec_uid cfg) (ossec_gid cfg)) ;;
     m ← lift (configured_permissions cfg key) ;
     fs_op (chmod tmp m) ;;
     fs_op (rename tmp full) ;;
     mret Next) st
    = (set_fs (<[tmp := x]> (fs st)) st, Raise (KeyError key)).
Proof.
  intros Hperm. rewrite bind_modify.
  assert (∃ x, write_file cfg tmp file_data (fs st) = <[tmp := x]> (fs st)
               ∧ content x = file_data) as (x & -> & Hx).
  { unfold write_file. destruct (fs st !! tmp); eauto. }
  exists (mkFile (content x) (secs * 1000000) (ossec_uid cfg, ossec_gid cfg) (mode x)).
  split; [done|].
  rewrite bind_fs_op. unfold utime at 1. cbn [fs set_fs]. rewrite lookup_insert_eq.
  rewrite bind_fs_op. unfold chown at 1. cbn [fs set_fs]. rewrite lookup_insert_eq.
  rewrite bind_lift. unfold configured_permissions. rewrite Hperm.
  unfold set_fs. cbn. by rewrite !insert_insert_eq.
Qed.

(** X20.  A sub-file whose item key has no configured permissions.  The
    temporary file has been written when the lookup fails: it stays on
    disk with the sub-file's content, the target keeps what it had, and
    the sub-file is counted as one error. *)
Theorem missing_permissions_leave_tmp cfg data is_agent_info names ids
    file_path file_data file_time st t :
  known_agent is_agent_info names ids file_path = true →
  parse_time cfg file_time = Some t →
  target_newer (fs st) (ossec_path cfg +:+ file_path) t = false →
  permissions cfg !! cluster_item_key data = None →
  let target := ossec_path cfg +:+ file_path in
  let out := update_subfile cfg data is_agent_info names ids
               (file_path, file_data, file_time) st in
  out.2 = Ok Next ∧
  fs out.1 !! target = fs st !! target ∧
  content <$> fs out.1 !! (target +:+ ".tmp") = Some file_data ∧
  (∀ p, p ≠ target +:+ ".tmp" → fs out.1 !! p = fs st !! p) ∧
  errors out.1 = bump (cluster_item_key data) (errors st).
Proof.
  intros Hk Hp Hn Hperm target out. subst out.
  unfold update_subfile, try_except.
  rewrite (subfile_body_write _ _ _ _ _ _ _ _ _ t) by done. fold target.
  destruct (write_without_permissions cfg (cluster_item_key data) (target +:+ ".tmp")
              target file_data (timegm_timetuple t) st Hperm) as (x & Hx & ->).
  assert (fs (subfile_failed data is_agent_info (KeyError (cluster_item_key data))
                (set_fs (<[target +:+ ".tmp" := x]> (fs st)) st)).1
          = <[target +:+ ".tmp" := x]> (fs st)) as Hfs
    by (by destruct is_agent_info).
  rewrite Hfs. split_and!.
  - done.
  - rewrite lookup_insert_ne; [done|apply append_tmp_ne].
  - by rewrite lookup_insert_eq; cbn; rewrite Hx.
  - intros p Hne. by rewrite lookup_insert_ne.
  - by destruct is_agent_info.
Qed.

Lemma missing_permissions_leave_tmp_witness :
  let data := mkData true "agent-groups" "agent-groups.merged" "/queue/unlisted/" in
  let out := update_subfile (example_config []) data false ∅ {["001"]}
               ("/queue/agent-groups/001", "default", "2019-03-01 10:00:00") (on_disk ∅) in
  out.2 = Ok Next ∧
  fs out.1 !! "/var/ossec/queue/agent-groups/001" = None ∧
  content <$> fs out.1 !! "/var/ossec/queue/agent-groups/001.tmp" = Some "default".
Proof.
  intros data out.
  destruct (missing_permissions_leave_tmp (example_config []) data false ∅ {["001"]}
              "/queue/agent-groups/001" "default" "2019-03-01 10:00:00" (on_disk ∅)
              1551434400000000) as (Hr & Ht & Htmp & _); try reflexivity.
  split_and!; [exact Hr|exact Ht|exact Htmp].
Defined.

End SubfileProperties.

Section BundleProperties.
Import Py Applier Frames.

Lemma keeps_fs_op {B} (f : St → B) op :
  (∀ x st, f (set_fs x st) = f st) → keeps f (fs_op op).
Proof.
  intros Hf st. unfold fs_op. destruct (op (fs st)); cbn; [apply Hf|done].
Qed.

Lemma keeps_for_each {A B} (f : St → B) (body : A → M flow) items :
  (∀ x, keeps f (body x)) → keeps f (for_each body items).
Proof.
  intros Hbody. induction items as [|x items IH]; [by intros st|].
  cbn [for_each]. apply keeps_bind; [apply Hbody|].
  intros [|]; [apply IH|apply keeps_ret].
Qed.

Ltac keeps_step :=
  lazymatch goal with
  | |- keeps _ (mret _) => apply keeps_ret
  | |- keeps _ (lift _) => apply keeps_lift
  | |- keeps _ (modify _) => apply keeps_modify; intros ?
  | |- keeps _ (fs_op _) => apply keeps_fs_op; intros ? ?
  | |- keeps _ (_ ≫= _) => apply keeps_bind; [|intros ?]
  | |- keeps _ (try_except _ _) => apply keeps_try_except; [|intros ?]
  | |- keeps _ (for_each _ _) => apply keeps_for_each; intros ?
  | |- keeps _ (λ s, (s, Ok _)) => apply keeps_read
  | |- keeps _ (λ st, if ?b then _ else _) => fail
  | |- keeps _ (match ?x with _ => _ end) => destruct x
  end.


End BundleProperties.

Section LockProperties.
Import Py Applier Frames.






End LockProperties.

Section RosterProperties.
Import Py Applier Frames.

Lemma update_subfile_unknown cfg data ia names ids p d t st :
  known_agent ia names ids p = false →
  ∃ line, update_subfile cfg data ia names ids (p, d, t) st
          = (add_log line (set_warnings (bump (cluster_item_key data) (warnings st)) st),
             Ok Next).
Proof.
  intros Hk. unfold update_subfile, try_except, subfile_body. rewrite Hk.
  eexists. reflexivity.
Qed.

(** A bundle none of whose sub-files belongs to a known agent. *)
Lemma for_each_unknown cfg data ia names ids items : ∀ st,
  Forall (λ sf : subfile, known_agent ia names ids sf.1.1 = false) items →
  ∃ st', for_each (update_subfile cfg data ia names ids) items st = (st', Ok Next)
         ∧ fs st' = fs st ∧ errors st' = errors st
         ∧ warnings st' = Nat.iter (length items) (bump (cluster_item_key data)) (warnings st)
         ∧ total_agent_info st' = total_agent_info st
         ∧ total_extra_valid st' = total_extra_valid st.
Proof.
  induction items as [|[[p d] t] items IH]; intros st Hall.
  - by exists st.
  - apply Forall_cons in Hall as [Hk Hall]. cbn in Hk.
    destruct (update_subfile_unknown cfg data ia names ids p d t st Hk) as [line Hstep].
    cbn [for_each]. rewrite bind_run, Hstep.
    destruct (IH (add_log line (set_warnings (bump (cluster_item_key data) (warnings st)) st))
                Hall) as (st' & -> & Hfs & He & Hw & Ha & Hv).
    exists st'. split_and!; try done.
    rewrite Hw. cbn [length]. by rewrite Nat.iter_succ_r.
Qed.

Lemma dict_get_iter_bump k d n :
  dict_get k (Nat.iter (S n) (bump k) d) = Some (S n + default 0 (dict_get k d))%nat.
Proof.
  induction n as [|n IH].
  - cbn. apply dict_get_bump.
  - rewrite Nat.iter_succ, dict_get_bump, IH. done.
Qed.

(** A bundle none of whose sub-files belongs to a known agent. *)
Lemma bundle_of_unknown_agents cfg names ids dir name data st :
  merged data = true → basename name ≠ "client.keys" →
  let items := unmerge_agent_info cfg (merge_type data) dir (merge_name data) (fs st) in
  Forall (λ sf : subfile,
            known_agent (bool_decide (merge_type data = "agent-info")) names ids sf.1.1
            = false) items →
  let st' := update_file cfg names ids dir name data st in
  fs st' = fs st ∧ errors st' = errors st ∧
  warnings st' = Nat.iter (length items) (bump (cluster_item_key data)) (warnings st) ∧
  (items ≠ [] →
   dict_get (cluster_item_key data) (warnings st')
   = Some (length items + default 0 (dict_get (cluster_item_key data) (warnings st)))%nat).
Proof.
  intros Hm Hbase items Hall st'. subst st'. unfold update_file.
  set (lock := ossec_path cfg +:+ "/queue/cluster/lockdir/"
               +:+ basename (ossec_path cfg +:+ name) +:+ ".lock").
  unfold locked_update. rewrite decide_False by done. rewrite Hm.
  rewrite bind_ret, bind_modify, bind_run. cbn beta iota.
  match goal with
  | |- context [for_each ?body ?its ?s0] =>
      destruct (for_each_unknown cfg data (bool_decide (merge_type data = "agent-info"))
                  names ids its s0) as (s' & Hrun & Hfs & He & Hw & _)
  end.
  { by case_bool_decide. }
  rewrite Hrun. cbn [fs errors warnings release].
  assert (fs s' = fs st ∧ errors s' = errors st
          ∧ warnings s' = Nat.iter (length items) (bump (cluster_item_key data)) (warnings st))
    as (-> & -> & ->).
  { rewrite Hfs, He, Hw. by case_bool_decide. }
  split_and!; try done.
  intros Hne. destruct items as [|sf items']; [done|].
  cbn [length]. apply dict_get_iter_bump.
Qed.

(** X22.  A bundle for unknown agents only.  When none of the sub-files of
    a merged bundle belongs to an agent in the roster, no file on disk
    changes, no error is counted, the lock is released, and the warning
    counter of the bundle's item key goes up by the number of sub-files. *)
Theorem unknown_agents_only_counted cfg names ids dir name data st :
  merged data = true → basename name ≠ "client.keys" →
  let items := unmerge_agent_info cfg (merge_type data) dir (merge_name data) (fs st) in
  Forall (λ sf : subfile,
            known_agent (bool_decide (merge_type data = "agent-info")) names ids sf.1.1
            = false) items →
  let st' := update_file cfg names ids dir name data st in
  fs st' = fs st ∧ errors st' = errors st ∧
  warnings st' = Nat.iter (length items) (bump (cluster_item_key data)) (warnings st) ∧
  (items ≠ [] →
   dict_get (cluster_item_key data) (warnings st')
   = Some (length items + default 0 (dict_get (cluster_item_key data) (warnings st)))%nat).
Proof. apply bundle_of_unknown_agents. Qed.

Lemma unknown_agents_only_counted_witness :
  let items := [("/queue/agent-info/ghost-any", "a", "2019-03-01 10:00:00");
                ("/queue/agent-info/phantom-any", "b", "2019-03-01 10:00:00")] in
  let st' := update_file (example_config items) {["alpha"]} {["001"]} "/tmp/in"
               "/queue/cluster/w1/agent-info.merged" agent_info_bundle (on_disk ∅) in
  fs st' = ∅ ∧ dict_get "/queue/agent-info/" (warnings st') = Some 2%nat.
Proof.
  intros items st'.
  destruct (unknown_agents_only_counted (example_config items) {["alpha"]} {["001"]}
              "/tmp/in" "/queue/cluster/w1/agent-info.merged" agent_info_bundle (on_disk ∅))
    as (Hfs & _ & _ & Hcount).
  - reflexivity.
  - vm_compute. discriminate.
  - repeat constructor.
  - split; [exact Hfs|]. by apply Hcount.
Defined.

Lemma known_agent_empty_roster ia p : known_agent ia ∅ ∅ p = false.
Proof. unfold known_agent. destruct ia; by rewrite bool_decide_eq_false_2. Qed.

(** With no roster, a bundle writes nothing and counts no error. *)
Lemma update_file_empty_roster cfg dir name data st :
  merged data = true →
  fs (update_file cfg ∅ ∅ dir name data st) = fs st
  ∧ errors (update_file cfg ∅ ∅ dir name data st) = errors st.
Proof.
  intros Hm. destruct (decide (basename name = "client.keys")) as [Hb|Hb].
  - unfold update_file. by rewrite locked_update_client_keys.
  - destruct (bundle_of_unknown_agents cfg ∅ ∅ dir name data st Hm Hb)
      as (Hfs & He & _); [|done].
    apply Forall_forall. intros sf _. apply known_agent_empty_roster.
Qed.

Lemma rmtree_lookup d f p :
  rmtree d f !! p = if under d p then None else f !! p.
Proof.
  unfold rmtree. destruct (under d p) eqn:Hu.
  - apply map_lookup_filter_None. right. intros x _. cbn. by rewrite Hu.
  - destruct (f !! p) as [x|] eqn:Hp.
    + apply map_lookup_filter_Some. by split.
    + apply map_lookup_filter_None. by left.
Qed.

(** X23.  A batch of bundles when the roster cannot be read.  Every
    sub-file is then for an unknown agent: no error is counted, and after
    the batch the disk is what it was, less the extraction directory; in
    particular no agent file is created or replaced. *)
Theorem unreadable_roster_writes_nothing cfg e files dir st :
  Forall (λ item : string * FileData, merged item.2 = true) files →
  let st' := process_files_from_worker cfg (Raise e) files dir st in
  fs st' = rmtree dir (fs st) ∧ errors st' = [] ∧
  (∀ p, fs st' !! p = if under dir p then None else fs st !! p).
Proof.
  intros Hall st'.
  assert (∀ files acc,
    Forall (λ item : string * FileData, merged item.2 = true) files →
    fs (foldl (λ acc item, update_file cfg ∅ ∅ dir item.1 item.2 acc) acc files) = fs acc
    ∧ errors (foldl (λ acc item, update_file cfg ∅ ∅ dir item.1 item.2 acc) acc files)
      = errors acc) as Hfold.
  { clear. intros files. induction files as [|[n d] files IH]; intros acc Hall; [done|].
    apply Forall_cons in Hall as [Hm Hall].
    destruct (IH (update_file cfg ∅ ∅ dir n d acc) Hall) as [H1 H2].
    destruct (update_file_empty_roster cfg dir n d acc Hm) as [H3 H4].
    split; [exact (eq_trans H1 H3)|exact (eq_trans H2 H4)]. }
  assert (fs st' = rmtree dir (fs st) ∧ errors st' = []) as [Hfs He].
  { subst st'. unfold process_files_from_worker. cbn [roster_snapshot].
    match goal with
    | |- context [foldl ?g ?acc files] =>
        destruct (Hfold files acc Hall) as [Hf He]; revert Hf He;
        generalize (foldl g acc files)
    end.
    intros s2 Hf He. cbn in Hf, He.
    cbn [fs errors set_fs]. rewrite He. cbn [dict_sum foldr].
    rewrite !(bool_decide_eq_false_2 (0 < 0)%nat) by lia.
    case_bool_decide; cbn; by rewrite ?Hf, ?He. }
  split_and!; [done|done|].
  intros p. rewrite Hfs. apply rmtree_lookup.
Qed.

Lemma unreadable_roster_writes_nothing_witness :
  let items := [("/queue/agent-info/alpha-any", "a", "2019-03-01 10:00:00")] in
  errors (process_files_from_worker (example_config items) (Raise (OtherError "no database"))
            [("/queue/cluster/w1/agent-info.merged", agent_info_bundle)] "/tmp/in"
            (on_disk ∅)) = [].
Proof.
  intros items.
  apply (unreadable_roster_writes_nothing (example_config items) (OtherError "no database")
           [("/queue/cluster/w1/agent-info.merged", agent_info_bundle)] "/tmp/in" (on_disk ∅)).
  by repeat constructor.
Defined.

End RosterProperties.

Section HealthProperties.
Import Py Health.

Lemma complete_worker env key h :
  complete env key (to_dict h) = Ok (worker_entry env key h).
Proof.
  unfold complete, worker_entry, to_dict. cbn. by case_decide.
Qed.

Lemma complete_all_workers env (ws : list (string * MasterHandler)) :
  complete_all env ((λ kv, (kv.1, to_dict kv.2)) <$> ws)
    = Ok ((λ kv, (kv.1, worker_entry env kv.1 kv.2)) <$> ws).
Proof.
  induction ws as [|[k h] ws IH]; [done|].
  cbn [fmap list_fmap complete_all fst snd]. by rewrite complete_worker, IH.
Qed.

Lemma complete_all_app env d1 d2 :
  complete_all env (d1 ++ d2) =
    match complete_all env d1 with
    | Raise e => Raise e
    | Ok r1 => match complete_all env d2 with
               | Raise e => Raise e
               | Ok r2 => Ok (r1 ++ r2)
               end
    end.
Proof.
  induction d1 as [|[k v] d1 IH]; cbn [app complete_all].
  - by destruct (complete_all env d2).
  - destruct (complete env k v); [|done]. rewrite IH.
    destruct (complete_all env d1); [|done]. by destruct (complete_all env d2).
Qed.

Lemma update_fresh k v d : k ∉ d.*1 → update k v d = d ++ [(k, v)].
Proof.
  induction d as [|[k' v'] d IH]; [done|]. cbn.
  rewrite not_elem_of_cons. intros [Hne Hin].
  rewrite decide_False by done. by rewrite IH.
Qed.

(** X24.  Who is in a health report.  When no connected worker has the
    name of the master node and the report is built, the nodes of the
    report are, in the order of connection, the workers the filter
    selects (all of them for [None] and for the empty dictionary, the
    named ones for a list or a dictionary of names, none for the empty
    list), followed by the master when the filter is [None] or names
    it.  [n_connected_nodes] is the number of those workers: the master
    is never counted, and a name in the filter that no worker has is
    passed over in silence. *)
Theorem health_report_nodes env cfg clients f n nodes :
  cfg_node_name cfg ∉ clients.*1 →
  get_health env cfg clients f = Ok (n, nodes) →
  let selected := filter (λ kv, selects f kv.1 = true) clients in
  n = length selected ∧
  (n ≤ length clients)%nat ∧
  nodes.*1 = selected.*1 ++
             (if includes_master f (cfg_node_name cfg) then [cfg_node_name cfg] else []) ∧
  (f = FilterNone ∨ f = FilterDict [] → selected = clients) ∧
  (f = FilterList [] → n = 0%nat ∧ nodes = []).
Proof.
  intros Hfresh Hget selected. unfold get_health in Hget. fold selected in Hget.
  assert (cfg_node_name cfg ∉ ((λ kv, (kv.1, to_dict kv.2)) <$> selected).*1) as Hfresh'.
  { rewrite <- list_fmap_compose. intros Hin. apply Hfresh.
    apply list_elem_of_fmap in Hin as [kv [-> Hkv]].
    apply list_elem_of_fmap. exists kv. split; [done|].
    by apply list_elem_of_filter in Hkv as [_ ?]. }
  assert (selected.*1 = ((λ kv, (kv.1, worker_entry env kv.1 kv.2)) <$> selected).*1)
    as Hkeys by (by rewrite <- list_fmap_compose).
  assert (f = FilterNone ∨ f = FilterDict [] → selected = clients) as Hall.
  { intros [->| ->]; subst selected; clear;
      (induction clients as [|kv l IH]; [done|]);
      by rewrite filter_cons_True, IH. }
  destruct (includes_master f (cfg_node_name cfg)) eqn:Hm.
  - destruct (master_to_dict env cfg) as [m|e]; [|done].
    rewrite update_fresh, complete_all_app, complete_all_workers in Hget by done.
    cbn [complete_all] in Hget.
    destruct (complete env (cfg_node_name cfg) m) as [m'|e]; [|done].
    injection Hget as <- <-.
    split_and!.
    + by rewrite length_fmap.
    + rewrite length_fmap. apply length_filter.
    + by rewrite fmap_app, <- Hkeys.
    + done.
    + intros ->. cbn in Hm. by rewrite bool_decide_eq_false_2 in Hm by apply not_elem_of_nil.
  - rewrite complete_all_workers in Hget. injection Hget as <- <-.
    split_and!.
    + by rewrite length_fmap.
    + rewrite length_fmap. apply length_filter.
    + by rewrite app_nil_r, <- Hkeys.
    + done.
    + intros ->. subst selected. clear.
      assert (filter (λ kv : string * MasterHandler, selects (FilterList []) kv.1 = true)
                clients = []) as ->; [|done].
      induction clients as [|kv l IH]; [done|].
      rewrite filter_cons_False; [done|]. cbn.
      by rewrite bool_decide_eq_false_2 by apply not_elem_of_nil.
Qed.

Lemma health_report_nodes_witness :
  let env := mkEnv "3.9.0" (λ _, 2%nat) (λ _, "2019-03-01 10:00:00") in
  let cfg := mkConfiguration "master-node" "master" ["10.0.0.1"] in
  let w := mkHandler "w1" "worker" "3.9.0" "10.0.0.2" true "" true "" true "" 1551434400 in
  ∃ nodes, get_health env cfg [("w1", w)] FilterNone = Ok (1%nat, nodes) ∧
           nodes.*1 = ["w1"; "master-node"].
Proof.
  intros env cfg w.
  destruct (get_health env cfg [("w1", w)] FilterNone) as [[n nodes]|e] eqn:Hget;
    [|by vm_compute in Hget].
  destruct (health_report_nodes env cfg [("w1", w)] FilterNone n nodes) as (Hn & _ & Hk & _).
  - cbn. rewrite elem_of_cons, elem_of_nil. by intros [?|[]].
  - exact Hget.
  - exists nodes. split; [by rewrite Hn|exact Hk].
Defined.

(** X25.  What a health report says about a worker.  Whenever the report
    is built, every connected worker the filter selects, other than one
    with the master's name, appears in it with the fields of its session
    copied, the number of its active agents looked up under its name,
    and its last keep-alive turned from a timestamp into a date text
    (unless the worker declared the node type [master] in its handshake,
    in which case the timestamp is left as it is). *)
Theorem health_report_worker_entry env cfg clients f n nodes key h :
  get_health env cfg clients f = Ok (n, nodes) →
  (key, h) ∈ clients →
  selects f key = true →
  key ≠ cfg_node_name cfg →
  (key, worker_entry env key h) ∈ nodes ∧
  (node_type h ≠ "master" →
   status_last_keep_alive <$> status (worker_entry env key h)
     = Some (Text (fromtimestamp env (last_keepalive h)))) ∧
  info_n_active_agents (info (worker_entry env key h)) = Some (active_agents env key).
Proof.
  intros Hget Hin Hsel Hne. split; [|split; [|done]].
  2:{ intros Ht. cbn. by rewrite decide_True. }
  unfold get_health in Hget.
  set (selected := filter (λ kv, selects f kv.1 = true) clients) in Hget.
  assert ((key, h) ∈ selected) as Hs by (by apply list_elem_of_filter).
  assert (∀ d r, complete_all env d = Ok r →
            ∀ k v, (k, v) ∈ d → ∃ v', complete env k v = Ok v' ∧ (k, v') ∈ r) as Hall.
  { clear. induction d as [|[k0 v0] d IH]; intros r Hr k v Hkv; [by apply elem_of_nil in Hkv|].
    cbn [complete_all] in Hr.
    destruct (complete env k0 v0) as [v0'|] eqn:Hc; [|done].
    destruct (complete_all env d) as [r'|]; [|done]. injection Hr as <-.
    apply elem_of_cons in Hkv as [[= -> ->]|Hkv].
    - exists v0'. split; [done|apply list_elem_of_here].
    - destruct (IH r' eq_refl k v Hkv) as (v' & ? & ?).
      exists v'. split; [done|by apply list_elem_of_further]. }
  assert (∀ k v d, (key, to_dict h) ∈ d → (key, to_dict h) ∈ update k v d ∨ k = key)
    as Hupd.
  { clear. intros k v. induction d as [|[k0 v0] d IH]; intros Hd; [by apply elem_of_nil in Hd|].
    cbn [update]. apply elem_of_cons in Hd as [[= <- <-]|Hd].
    - case_decide; [by right|]. left. apply list_elem_of_here.
    - case_decide; [left; by apply list_elem_of_further|].
      destruct (IH Hd) as [?|?]; [left; by apply list_elem_of_further|by right]. }
  assert ((key, to_dict h) ∈ (λ kv, (kv.1, to_dict kv.2)) <$> selected) as Hd.
  { apply list_elem_of_fmap. by exists (key, h). }
  destruct (includes_master f (cfg_node_name cfg)).
  - destruct (master_to_dict env cfg) as [m|e]; [|done].
    destruct (complete_all env _) as [r|] eqn:Hr; [|done]. injection Hget as _ <-.
    destruct (Hupd (cfg_node_name cfg) m _ Hd) as [Hd'|]; [|done].
    destruct (Hall _ _ Hr _ _ Hd') as (v' & Hc & Hv').
    rewrite complete_worker in Hc. by injection Hc as <-.
  - destruct (complete_all env _) as [r|] eqn:Hr; [|done]. injection Hget as _ <-.
    destruct (Hall _ _ Hr _ _ Hd) as (v' & Hc & Hv').
    rewrite complete_worker in Hc. by injection Hc as <-.
Qed.

Lemma health_report_worker_entry_witness :
  let env := mkEnv "3.9.0" (λ _, 2%nat) (λ _, "2019-03-01 10:00:00") in
  let cfg := mkConfiguration "master-node" "master" ["10.0.0.1"] in
  let w := mkHandler "w1" "worker" "3.9.0" "10.0.0.2" true "" true "" true "" 1551434400 in
  ∃ n nodes, get_health env cfg [("w1", w)] (FilterList ["w1"; "w7"]) = Ok (n, nodes) ∧
             ("w1", worker_entry env "w1" w) ∈ nodes.
Proof.
  intros env cfg w.
  destruct (get_health env cfg [("w1", w)] (FilterList ["w1"; "w7"])) as [[n nodes]|e]
    eqn:Hget; [|by vm_compute in Hget].
  exists n, nodes. split; [done|].
  refine (proj1 (health_report_worker_entry env cfg [("w1", w)] (FilterList ["w1"; "w7"])
                   n nodes "w1" w Hget _ eq_refl _)).
  - apply list_elem_of_here.
  - discriminate.
Defined.

(** X26.  When a health report fails.  The report is built whenever the
    master is not part of it, and also with the master in it when the
    master's configuration names at least one node and gives the node
    type [master].  With the master in the report and another node type
    configured, the report fails with a [KeyError]: the master's
    dictionary has no status to format. *)
Theorem health_report_built env cfg clients f :
  (includes_master f (cfg_node_name cfg) = false ∨
   (cfg_node_type cfg = "master" ∧ cfg_nodes cfg ≠ []) →
   ∃ n nodes, get_health env cfg clients f = Ok (n, nodes)) ∧
  (includes_master f (cfg_node_name cfg) = true →
   cfg_node_type cfg ≠ "master" → cfg_nodes cfg ≠ [] →
   cfg_node_name cfg ∉ clients.*1 →
   get_health env cfg clients f = Raise (KeyError "status")).
Proof.
  set (selected := filter (λ kv, selects f kv.1 = true) clients).
  assert (∀ m d, (∀ k v, (k, v) ∈ d → ∃ v', complete env k v = Ok v') →
            (∃ v', complete env (cfg_node_name cfg) m = Ok v') →
            ∀ k v, (k, v) ∈ update (cfg_node_name cfg) m d → ∃ v', complete env k v = Ok v')
    as Hupd.
  { intros m d Hd Hm. induction d as [|[k0 v0] d IH]; cbn [update]; intros k v Hkv.
    - apply list_elem_of_singleton in Hkv as [= -> ->]. done.
    - case_decide.
      + apply elem_of_cons in Hkv as [[= -> ->]|Hkv]; [done|].
        apply (Hd k v). by apply list_elem_of_further.
      + apply elem_of_cons in Hkv as [[= -> ->]|Hkv].
        * apply (Hd k0 v0), list_elem_of_here.
        * apply IH; [|done]. intros k' v' Hin. apply (Hd k' v').
          by apply list_elem_of_further. }
  assert (∀ d, (∀ k v, (k, v) ∈ d → ∃ v', complete env k v = Ok v') →
            ∃ r, complete_all env d = Ok r) as Hall.
  { induction d as [|[k0 v0] d IH]; intros Hd; [by eexists|].
    cbn [complete_all].
    destruct (Hd k0 v0) as [v0' ->]; [apply list_elem_of_here|].
    destruct IH as [r ->]; [|by eexists].
    intros k v Hin. apply (Hd k v). by apply list_elem_of_further. }
  assert (∀ k v, (k, v) ∈ (λ kv, (kv.1, to_dict kv.2)) <$> selected →
            ∃ v', complete env k v = Ok v') as Hworkers.
  { intros k v [[k' h'] [[= -> ->] _]]%list_elem_of_fmap. rewrite complete_worker. eauto. }
  split.
  - intros Hsane. unfold get_health. fold selected.
    destruct (includes_master f (cfg_node_name cfg)) eqn:Hm.
    + destruct Hsane as [|[Htype Hnodes]]; [done|].
      unfold master_to_dict. destruct (cfg_nodes cfg) as [|first rest]; [done|].
      edestruct Hall as [r ->]; [|by eauto].
      apply Hupd; [done|]. unfold complete. cbn. rewrite Htype. by eexists.
    + destruct (Hall _ Hworkers) as [r ->]. eauto.
  - intros Hm Htype Hnodes Hfresh. unfold get_health. fold selected. rewrite Hm.
    unfold master_to_dict. destruct (cfg_nodes cfg) as [|first rest]; [done|].
    rewrite update_fresh, complete_all_app, complete_all_workers.
    + cbn [complete_all]. unfold complete. cbn [info info_type status].
      by rewrite decide_True.
    + rewrite <- list_fmap_compose. intros Hin. apply Hfresh.
      apply list_elem_of_fmap in Hin as [kv [-> Hkv]].
      apply list_elem_of_fmap. exists kv. split; [done|].
      by apply list_elem_of_filter in Hkv as [_ ?].
Qed.

Lemma health_report_built_witness :
  let env := mkEnv "3.9.0" (λ _, 2%nat) (λ _, "2019-03-01 10:00:00") in
  let cfg := mkConfiguration "master-node" "worker" ["10.0.0.1"] in
  get_health env cfg [] FilterNone = Raise (KeyError "status").
Proof.
  intros env cfg.
  apply (proj2 (health_report_built env cfg [] FilterNone)); try done.
  apply not_elem_of_nil.
Defined.

End HealthProperties.

Section ScannerProperties.
Import Py Scanner.

Lemma file_status_update_snoc m readings r :
  file_status_update m (readings ++ [r])
    = file_status_update_turn (file_status_update m readings) r.
Proof. unfold file_status_update. by rewrite foldl_snoc. Qed.

(** X27.  The master's file table.  The periodic recalculation never
    stops on an error: after any number of turns the table is the one of
    the last calculation that worked (the table the master had before,
    when none did), a failed calculation leaves the table of the turn
    before in place, and the log has grown by two lines for every turn
    and one more for every failure. *)
Theorem integrity_control_is_last_good_table m readings :
  integrity_control (file_status_update m readings)
    = default (integrity_control m) (last (tables readings)) ∧
  length (log (file_status_update m readings))
    = (length (log m) + 2 * length readings + failures readings)%nat ∧
  (∀ e, integrity_control (file_status_update m (readings ++ [Raise e]))
        = integrity_control (file_status_update m readings)).
Proof.
  split_and!.
  - induction readings as [|r readings IH] using rev_ind; [done|].
    rewrite file_status_update_snoc. unfold tables. rewrite omap_app.
    destruct r as [t|e]; cbn.
    + by rewrite last_snoc.
    + by rewrite app_nil_r.
  - induction readings as [|r readings IH] using rev_ind; [cbn; lia|].
    rewrite file_status_update_snoc. unfold failures. rewrite filter_app, !length_app.
    fold (failures readings).
    destruct r as [t|e].
    + rewrite filter_cons_False by done. cbn. rewrite !length_app. cbn. lia.
    + rewrite filter_cons_True by done. cbn. rewrite !length_app. cbn. lia.
  - intros e. by rewrite file_status_update_snoc.
Qed.

End ScannerProperties.

Section RbacProperties.
Import Py Rbac.

Ltac elements :=
  repeat first
    [ rewrite elem_of_union | rewrite elem_of_filter | rewrite elem_of_difference
    | rewrite elem_of_intersection | rewrite elem_of_singleton ].

Lemma update_set_run index key_effect to_add (od : odict) remove_star p :
  od !! index = Some p →
  _update_set index key_effect to_add od remove_star =
    match (if remove_star then set_remove "*" (get_effect key_effect p)
           else Ok (get_effect key_effect p)) with
    | Raise e => Raise e
    | Ok s =>
        Ok (<[index := set_effect key_effect
                         (s ∪ filter (λ element,
                                element ∉ get_effect (match key_effect with
                                                      | Allow => Deny
                                                      | Deny => Allow
                                                      end) p) to_add) p]> od)
    end.
Proof. intros Hp. unfold _update_set. by rewrite Hp. Qed.

Lemma role_expand_run roles_ids mode od :
  let p := default (mkPermission ∅ ∅) (od !! "role:id") in
  _role_expand_permissions roles_ids mode od =
    if decide ("*" ∈ allow p) then
      Ok (<["role:id" :=
              mkPermission (allow p ∖ {["*"]} ∪ filter (λ x, x ∉ deny p) roles_ids) (deny p)]> od)
    else if decide ("*" ∈ deny p) then
      Ok (<["role:id" :=
              mkPermission (allow p) (deny p ∖ {["*"]} ∪ filter (λ x, x ∉ allow p) roles_ids)]> od)
    else Raise (KeyError "*").
Proof.
  intros p.
  assert (∃ od1, _normalization "role:id" od = od1 ∧ od1 !! "role:id" = Some p ∧
                 ∀ q, <["role:id" := q]> od1 = <["role:id" := q]> od) as (od1 & Hn & Hp & Hins).
  { unfold _normalization. subst p. destruct (od !! "role:id") as [q|] eqn:Hq.
    - by exists od.
    - exists (<["role:id" := mkPermission ∅ ∅]> od).
      split; [done|]. split; [by rewrite lookup_insert_eq|].
      intros q. by rewrite insert_insert_eq. }
  unfold _role_expand_permissions. rewrite Hn, Hp. clear Hn.
  rewrite !(update_set_run "role:id" _ roles_ids od1 true p Hp).
  unfold set_remove. cbn [get_effect set_effect].
  destruct (decide ("*" ∈ allow p)) as [Ha|Ha].
  - destruct mode;
      rewrite (update_set_run "role:id" _ roles_ids _ false _ (lookup_insert_eq _ _ _));
      cbn [get_effect set_effect allow deny];
      rewrite insert_insert_eq, Hins; do 2 f_equal.
    + f_equal. apply set_eq. intros x. elements. tauto.
    + f_equal. apply set_eq. intros x. elements.
      destruct (decide (x ∈ deny p)); tauto.
  - destruct (decide ("*" ∈ deny p)) as [Hd|Hd]; [|done].
    destruct mode;
      rewrite (update_set_run "role:id" _ roles_ids _ false _ (lookup_insert_eq _ _ _));
      cbn [get_effect set_effect allow deny];
      rewrite insert_insert_eq, Hins; do 2 f_equal.
    + f_equal. apply set_eq. intros x. elements.
      destruct (decide (x ∈ allow p)); tauto.
    + f_equal. apply set_eq. intros x. elements. tauto.
Qed.

(** X28.  Expanding the role wildcard.  [_role_expand_permissions] works
    only for a user whose role permissions hold the wildcard ['*'] in
    the allow set or in the deny set; for every other user (one with
    explicit role identifiers only, or with no role permissions at all)
    it fails with a [KeyError].  When it works the result does not depend
    on the mode: a wildcard in the allow set is replaced by every existing
    role that is not denied; otherwise the wildcard in the deny set is
    replaced by every existing role that is not allowed.  Other resource
    types are left alone, and no role ends up both allowed and denied
    that was not so before. *)
Theorem role_wildcard_expansion roles_ids mode od :
  let p := default (mkPermission ∅ ∅) (od !! "role:id") in
  ((∃ od', _role_expand_permissions roles_ids mode od = Ok od')
     ↔ "*" ∈ allow p ∨ "*" ∈ deny p) ∧
  ("*" ∉ allow p → "*" ∉ deny p →
   _role_expand_permissions roles_ids mode od = Raise (KeyError "*")) ∧
  _role_expand_permissions roles_ids mode od
    = _role_expand_permissions roles_ids (negb mode) od ∧
  (∀ od', _role_expand_permissions roles_ids mode od = Ok od' →
     ∃ p', od' !! "role:id" = Some p' ∧
           (∀ key, key ≠ "role:id" → od' !! key = od !! key) ∧
           ("*" ∈ allow p →
              allow p' = allow p ∖ {["*"]} ∪ filter (λ x, x ∉ deny p) roles_ids ∧
              deny p' = deny p) ∧
           ("*" ∉ allow p →
              allow p' = allow p ∧
              deny p' = deny p ∖ {["*"]} ∪ filter (λ x, x ∉ allow p) roles_ids) ∧
           allow p' ∩ deny p' ⊆ allow p ∩ deny p).
Proof.
  intros p. rewrite !role_expand_run. fold p.
  split_and!.
  - repeat case_decide; split; try (intros [? ?]); try (intros [?|?]); try done; eauto.
  - intros Ha Hd. by rewrite !decide_False.
  - done.
  - intros od' Hod'.
    destruct (decide ("*" ∈ allow p)) as [Ha|Ha].
    + injection Hod' as <-. eexists. split; [by rewrite lookup_insert_eq|].
      split_and!; try done.
      * intros key Hne. by rewrite lookup_insert_ne.
      * cbn. intros x. elements. tauto.
    + destruct (decide ("*" ∈ deny p)) as [Hd|Hd]; [|done].
      injection Hod' as <-. eexists. split; [by rewrite lookup_insert_eq|].
      split_and!; try done.
      * intros key Hne. by rewrite lookup_insert_ne.
      * cbn. intros x. elements. tauto.
Qed.

Lemma role_wildcard_expansion_witness :
  _role_expand_permissions {["1"; "2"]} false
    {["role:id" := mkPermission {["1"]} ∅]} = Raise (KeyError "*").
Proof.
  apply (proj1 (proj2 (role_wildcard_expansion {["1"; "2"]} false
                         {["role:id" := mkPermission {["1"]} ∅]}))).
  - rewrite lookup_singleton_eq. cbn. by intros ?%elem_of_singleton.
  - rewrite lookup_singleton_eq. cbn. apply not_elem_of_empty.
Defined.

(** X29.  What a user may do with roles after the expansion.  For a user
    with a wildcard in the allow set, the roles granted after the
    expansion (allowed and not denied) are the existing roles and the
    roles named in the allow set, without those the deny set names; a
    wildcard in the deny set alone takes nothing away from the roles the
    allow set names: an explicit allow wins over a denied wildcard. *)
Theorem roles_granted_after_expansion roles_ids mode od od' p' :
  let p := default (mkPermission ∅ ∅) (od !! "role:id") in
  _role_expand_permissions roles_ids mode od = Ok od' →
  od' !! "role:id" = Some p' →
  "*" ∉ roles_ids →
  ("*" ∈ allow p → granted p' = (allow p ∖ {["*"]} ∪ roles_ids) ∖ deny p) ∧
  ("*" ∉ allow p → granted p' = allow p ∖ (deny p ∖ {["*"]})).
Proof.
  intros p. rewrite role_expand_run. fold p. intros Hod' Hp' Hstar.
  destruct (decide ("*" ∈ allow p)) as [Ha|Ha].
  - injection Hod' as <-. rewrite lookup_insert_eq in Hp'. injection Hp' as <-.
    split; [intros _|done]. unfold granted. cbn. apply set_eq. intros x.
    elements. destruct (decide (x ∈ deny p)); tauto.
  - destruct (decide ("*" ∈ deny p)) as [Hd|Hd]; [|done].
    injection Hod' as <-. rewrite lookup_insert_eq in Hp'. injection Hp' as <-.
    split; [done|intros _]. unfold granted. cbn. apply set_eq. intros x.
    elements. destruct (decide (x ∈ allow p)); tauto.
Qed.

Lemma roles_granted_after_expansion_witness :
  granted (mkPermission {["1"]}
             ({["*"]} ∖ {["*"]} ∪ filter (λ x, x ∉ ({["1"]} : gset string)) {["1"; "2"]}))
  = {["1"]} ∖ ({["*"]} ∖ {["*"]}).
Proof.
  set (od := {["role:id" := mkPermission {["1"]} {["*"]}]} : odict).
  set (p' := mkPermission {["1"]}
               ({["*"]} ∖ {["*"]} ∪ filter (λ x, x ∉ ({["1"]} : gset string)) {["1"; "2"]})).
  assert ("*" ∉ ({["1"]} : gset string)) as Hno by (by intros ?%elem_of_singleton).
  assert (_role_expand_permissions {["1"; "2"]} false od = Ok {["role:id" := p']}) as Hrun.
  { rewrite role_expand_run. unfold od. rewrite lookup_singleton_eq. cbn.
    rewrite decide_False by done.
    rewrite decide_True by (by apply elem_of_singleton).
    by rewrite insert_singleton_eq. }
  destruct (roles_granted_after_expansion {["1"; "2"]} false od {["role:id" := p']} p' Hrun)
    as [_ Hg].
  - apply lookup_singleton_eq.
  - intros [?%elem_of_singleton|?%elem_of_singleton]%elem_of_union; done.
  - unfold od in Hg. rewrite lookup_singleton_eq in Hg. by apply Hg.
Defined.

End RbacProperties.
